(** * Resume-generator: the customizer and the profile loader of cv_generator.py

    A shallow embedding of [CVGenerator.customize_for_job] with its helpers
    and of [CVManager._dict_to_cv_data] / [_load_or_create_data], followed by
    the story [CVGenerator.generate_pdf] builds, the file name and path of
    [CVManager.generate_cv_for_job], [CVManager.save_data], and
    [parse_markdown] of generate_CV.py.

    Python values are modelled as follows.
    - a [str] is the [string] of its UTF-8 bytes (a lone surrogate in its
      three-byte form): equality, concatenation and the substring test on
      texts are those on their bytes, and the characters of a text are
      [Py.chars].  [str.lower], [str.isalnum] and [str.isspace] rest on the
      Unicode tables, which are not part of the source: they are the
      methods of the class [Py.Unicode], together with the facts about them
      that are used: on ASCII characters they are the ASCII tables, only
      the empty text has an empty lower-casing, and what [isalnum] accepts
      is one character.  The statements hold for all such functions, the
      tables of Python among them; [Py.ascii_only] is the instance that
      knows the ASCII characters only, and nothing but the closed examples,
      which are evaluated on ASCII texts, uses it.
    - [Project] instances are mutable objects that the customizer shares with
      the source profile: they live in a heap [gmap loc ProjectObj], and a
      list of projects is a list of locations.  An object carries its
      dataclass fields and the dynamic attribute [relevance_score], absent
      ([None]) unless the code attached it.
    - a [dict] is an association list in insertion order.
    - [list.sort(key=..., reverse=True)] is the built-in stable sort. *)

From Stdlib Require Import String Ascii List Arith Bool Lia Permutation Sorted ZArith.
From stdpp Require Import gmap strings list fin_maps.

Import ListNotations.

(** ** Python built-ins used by the source *)

Module Py.

(** [c.lower()] on one ASCII character. *)
Definition lower_ascii (c : ascii) : ascii :=
  let n := nat_of_ascii c in
  if (65 <=? n)%nat && (n <=? 90)%nat then ascii_of_nat (n + 32) else c.

(** [s.lower()] for a text of ASCII characters. *)
Fixpoint ascii_lower (s : string) : string :=
  match s with
  | EmptyString => EmptyString
  | String c s' => String (lower_ascii c) (ascii_lower s')
  end.

(** Every character of [s] is an ASCII character. *)
Fixpoint is_ascii (s : string) : bool :=
  match s with
  | EmptyString => true
  | String c s' => (nat_of_ascii c <? 128)%nat && is_ascii s'
  end.

(** [c.isalnum()] on one ASCII character. *)
Definition ascii_isalnum (c : ascii) : bool :=
  let n := nat_of_ascii c in
  ((48 <=? n)%nat && (n <=? 57)%nat)
  || ((65 <=? n)%nat && (n <=? 90)%nat)
  || ((97 <=? n)%nat && (n <=? 122)%nat).

(** [c.isspace()] on one ASCII character: tab to carriage return, the four
    separators 28 to 31, and the space. *)
Definition ascii_isspace (c : ascii) : bool :=
  let n := nat_of_ascii c in
  ((9 <=? n)%nat && (n <=? 13)%nat) || ((28 <=? n)%nat && (n <=? 32)%nat).

(** A continuation byte of a UTF-8 sequence. *)
Definition is_continuation (c : ascii) : bool :=
  (128 <=? nat_of_ascii c)%nat && (nat_of_ascii c <? 192)%nat.

Fixpoint all_continuation (s : string) : bool :=
  match s with
  | EmptyString => true
  | String c s' => is_continuation c && all_continuation s'
  end.

(** The bytes of one character: an ASCII byte, or a leading byte with its
    continuation bytes. *)
Definition is_char (c : string) : bool :=
  match c with
  | EmptyString => false
  | String a rest =>
      if (nat_of_ascii a <? 128)%nat
      then match rest with EmptyString => true | String _ _ => false end
      else (192 <=? nat_of_ascii a)%nat && all_continuation rest
  end.

(** Each byte of [s] as a text of its own. *)
Fixpoint singles (s : string) : list string :=
  match s with
  | EmptyString => []
  | String c s' => String c EmptyString :: singles s'
  end.

(** The characters of [s] read from its end: the continuation bytes [s]
    starts with, which wait for their leading byte, and the characters after
    them.  An ASCII byte is a character; a leading byte takes the
    continuation bytes that follow it; continuation bytes without a leading
    byte, which no text has, are left as they are. *)
Fixpoint chars_pending (s : string) : string * list string :=
  match s with
  | EmptyString => (EmptyString, [])
  | String c s' =>
      let '(pending, done) := chars_pending s' in
      if is_continuation c then (String c pending, done)
      else if (nat_of_ascii c <? 128)%nat
           then (EmptyString, String c EmptyString :: singles pending ++ done)
           else (EmptyString, String c pending :: done)
  end.

(** [for c in s] and [list(s)]: the characters of a text, in order. *)
Definition chars (s : string) : list string :=
  let '(pending, done) := chars_pending s in singles pending ++ done.

(** The Unicode tables behind [str.lower], [str.isalnum] and [str.isspace].
    [isalnum c] and [isspace c] stand for [c.isalnum()] and [c.isspace()] on
    one character [c], as the source and [str.rstrip] ask them; [isalnum] is
    false on what is not one character.  On a text of ASCII characters
    [lower] folds the letters A-Z and keeps the rest; a non-empty text has a
    non-empty lower-casing; on an ASCII character [isalnum] and [isspace]
    are the ASCII tables. *)
Class Unicode := {
  lower : string -> string;
  isalnum : string -> bool;
  isspace : string -> bool;
  lower_ascii_text : forall s, is_ascii s = true -> lower s = ascii_lower s;
  lower_nonempty : forall s, lower s = EmptyString -> s = EmptyString;
  isalnum_ascii :
    forall c, (nat_of_ascii c <? 128)%nat = true ->
              isalnum (String c EmptyString) = ascii_isalnum c;
  isspace_ascii :
    forall c, (nat_of_ascii c <? 128)%nat = true ->
              isspace (String c EmptyString) = ascii_isspace c;
  isalnum_char : forall c, isalnum c = true -> is_char c = true
}.

(** The tables restricted to ASCII, for the closed examples: no other
    character is folded, alphanumeric or whitespace.  It agrees with Python
    on texts of ASCII characters and on no others. *)
#[global] Instance ascii_only : Unicode.
Proof.
  refine {| lower := ascii_lower;
            isalnum := fun c => match c with
                                | String a EmptyString => ascii_isalnum a
                                | _ => false
                                end;
            isspace := fun c => match c with
                                | String a EmptyString => ascii_isspace a
                                | _ => false
                                end |}.
  - reflexivity.
  - intros [|c s]; [reflexivity | discriminate].
  - reflexivity.
  - reflexivity.
  - intros [|a [|b r]]; try discriminate. unfold ascii_isalnum, is_char.
    destruct (Nat.ltb_spec (nat_of_ascii a) 128); [reflexivity|].
    destruct (Nat.leb_spec 48 (nat_of_ascii a)), (Nat.leb_spec (nat_of_ascii a) 57),
             (Nat.leb_spec 65 (nat_of_ascii a)), (Nat.leb_spec (nat_of_ascii a) 90),
             (Nat.leb_spec 97 (nat_of_ascii a)), (Nat.leb_spec (nat_of_ascii a) 122);
      simpl; try discriminate; lia.
Defined.

(** [needle in hay] on strings: [needle] starts at some position of [hay]. *)
Fixpoint str_in (needle hay : string) : bool :=
  String.prefix needle hay ||
  match hay with
  | EmptyString => false
  | String _ hay' => str_in needle hay'
  end.

(** [x in [a, b, ...]] on a list of strings. *)
Definition in_list (x : string) (l : list string) : bool :=
  existsb (String.eqb x) l.

(** [sep.join(l)]. *)
Definition join (sep : string) (l : list string) : string := String.concat sep l.

(** One insertion step of the stable descending sort: [x], which stood before
    every element of [l], passes only the elements with a strictly larger
    key. *)
Fixpoint insert_desc {A} (key : A -> nat) (x : A) (l : list A) : list A :=
  match l with
  | [] => [x]
  | y :: l' =>
      if (key y <=? key x)%nat then x :: y :: l'
      else y :: insert_desc key x l'
  end.

(** [l.sort(key=key, reverse=True)]: stable, equal keys keep their order. *)
Fixpoint sort_reverse {A} (key : A -> nat) (l : list A) : list A :=
  match l with
  | [] => []
  | x :: l' => insert_desc key x (sort_reverse key l')
  end.

(** *** Insertion-ordered dictionaries *)

Definition dict (V : Type) : Type := list (string * V).

(** [d.get(k)] / [d[k]] when present. *)
Fixpoint dict_get {V} (k : string) (d : dict V) : option V :=
  match d with
  | [] => None
  | (k', v) :: d' => if String.eqb k k' then Some v else dict_get k d'
  end.

(** [k in d]. *)
Definition dict_contains {V} (k : string) (d : dict V) : bool :=
  match dict_get k d with Some _ => true | None => false end.

(** [d[k] = v]: an existing key keeps its position, a new key goes last. *)
Fixpoint dict_set {V} (k : string) (v : V) (d : dict V) : dict V :=
  match d with
  | [] => [(k, v)]
  | (k', v') :: d' =>
      if String.eqb k k' then (k', v) :: d' else (k', v') :: dict_set k v d'
  end.

(** [list(d.keys())]. *)
Definition dict_keys {V} (d : dict V) : list string := map fst d.

End Py.

(** ** Data model (the dataclasses of the source) *)

Record PersonalInfo := mkPersonalInfo {
  pi_name : string;
  pi_email : string;
  pi_phone : string;
  pi_location : string;
  pi_linkedin : string;
  pi_github : string;
  pi_portfolio : string
}.

Record WorkExperience := mkWorkExperience {
  we_title : string;
  we_company : string;
  we_period : string;
  we_responsibilities : list string;
  we_technologies : option (list string)
}.

Record Project := mkProject {
  name : string;
  description : string;
  technologies : list string;
  achievements : list string
}.

Record Education := mkEducation {
  degree : string;
  institution : string;
  ed_period : string;
  details : string
}.

(** A [Project] instance on the heap: its fields and the attribute
    [relevance_score] that [_prioritize_projects] attaches and deletes. *)
Record ProjectObj := mkProjectObj {
  fields : Project;
  relevance_score : option nat
}.

Definition loc := nat.

Abbreviation heap := (gmap loc ProjectObj).

Record CVData := mkCVData {
  personal_info : PersonalInfo;
  summary : string;
  work_experience : list WorkExperience;
  projects : list loc;
  education : list Education;
  skills : Py.dict (list string);
  courses : list string;
  languages : list string;
  additional : list string
}.

(** ** CVGenerator: customization for a job *)

Module CVGenerator.

Import Py.

Section Generator.
Context {U : Unicode}.

(** The literal lists the job title is tested against. *)
Definition data_titles : list string :=
  ["data analyst"; "data scientist"; "analytics"].
Definition developer_titles_summary : list string :=
  ["python developer"; "software developer"; "backend developer"].
Definition business_titles : list string :=
  ["business analyst"; "business intelligence"].
Definition developer_titles : list string :=
  ["python developer"; "software developer"].

(** Every literal that occurs in a job-title test of the class. *)
Definition category_titles : list string :=
  data_titles ++ developer_titles_summary ++ business_titles.

Definition data_summary : string :=
  "Data Analyst with strong expertise in Python, SQL, and Power BI, passionate about transforming data into actionable insights. Experienced in automating data workflows and delivering business-focused analytics solutions.".
Definition developer_summary : string :=
  "Python Developer with experience in Django, APIs, and data processing. Skilled in building scalable applications and automating complex workflows using modern Python frameworks.".
Definition business_summary : string :=
  "Business Analyst with strong technical background in data analysis, process automation, and stakeholder collaboration. Experienced in translating business requirements into technical solutions.".

Definition _customize_summary (cv_data : CVData)
    (job_keywords : list string) (job_type : string) : string :=
  let base_summary := summary cv_data in
  if in_list (lower job_type) data_titles then data_summary
  else if in_list (lower job_type) developer_titles_summary then developer_summary
  else if in_list (lower job_type) business_titles then business_summary
  else base_summary.

Definition data_responsibilities : list string :=
  [ "Automated data flows by integrating CRM systems with reporting tools via APIs, reducing manual processing time by 70%";
    "Developed end-to-end data pipelines from extraction to visualization using Python, SQL, and Power BI";
    "Collaborated with stakeholders to define KPIs and delivered actionable business insights through custom dashboards";
    "Performed data analysis and visualization to support strategic decision-making processes" ].
Definition developer_responsibilities : list string :=
  [ "Developed Python applications for data processing and automation using Django and APIs";
    "Implemented web scraping solutions and data extraction tools using BeautifulSoup and Pandas";
    "Built and maintained automated workflows integrating multiple systems and databases";
    "Collaborated with technical teams to deliver scalable software solutions" ].

(** The body of the loop of [_prioritize_experience] for one entry. *)
Definition customize_experience (job_type : string) (exp : WorkExperience)
    : WorkExperience :=
  let responsibilities :=
    if in_list (lower job_type) data_titles then data_responsibilities
    else if in_list (lower job_type) developer_titles then developer_responsibilities
    else we_responsibilities exp in
  {| we_title := we_title exp;
     we_company := we_company exp;
     we_period := we_period exp;
     we_responsibilities := responsibilities;
     we_technologies := we_technologies exp |}.

Definition _prioritize_experience (cv_data : CVData)
    (job_keywords : list string) (job_type : string) : list WorkExperience :=
  fold_left (fun experiences exp => experiences ++ [customize_experience job_type exp])
            (work_experience cv_data) [].

(** The keyword loop shared by projects and courses:
    [for keyword in job_keywords: if keyword.lower() in text.lower(): score += 1],
    started from [score]. *)
Definition count_keywords (text : string) (job_keywords : list string)
    (score : nat) : nat :=
  fold_left (fun score keyword =>
               if str_in (lower keyword) (lower text) then score + 1 else score)
            job_keywords score.

(** [f"{project.name} {project.description} {' '.join(project.technologies)}"] *)
Definition project_text (p : Project) : string :=
  name p +:+ " " +:+ description p +:+ " " +:+ join " " (technologies p).

Definition set_relevance_score (v : option nat) (o : ProjectObj) : ProjectObj :=
  {| fields := fields o; relevance_score := v |}.

(** [project.relevance_score += 1] (the attribute is present whenever the
    source executes this statement). *)
Definition incr_relevance_score (o : ProjectObj) : ProjectObj :=
  set_relevance_score (option_map (fun n => n + 1) (relevance_score o)) o.

(** One iteration of the scoring loop of [_prioritize_projects]: the score is
    written to the object [project] refers to, which is the source profile's
    own object ([list.copy] copies the list, not its elements). *)
Definition score_project (job_keywords : list string) (h : heap) (project : loc)
    : heap :=
  match h !! project with
  | None => h
  | Some o =>
      let h0 := <[project := set_relevance_score (Some 0) o]> h in
      let text := project_text (fields o) in
      fold_left (fun h' keyword =>
                   if str_in (lower keyword) (lower text)
                   then alter incr_relevance_score project h' else h')
                job_keywords h0
  end.

Definition score_projects (job_keywords : list string) (h : heap)
    (projects : list loc) : heap :=
  fold_left (score_project job_keywords) projects h.

(** [getattr(x, 'relevance_score', 0)] *)
Definition getattr_relevance_score (h : heap) (x : loc) : nat :=
  match h !! x with
  | Some o => match relevance_score o with Some n => n | None => 0 end
  | None => 0
  end.

(** [if hasattr(project, 'relevance_score'): delattr(project, 'relevance_score')] *)
Definition delete_score (h : heap) (project : loc) : heap :=
  alter (set_relevance_score None) project h.

Definition delete_scores (h : heap) (projects : list loc) : heap :=
  fold_left delete_score projects h.

(** The heaps [_prioritize_projects] passes through: on entry, after the
    scoring loop (the sort does not write), and after the deletion loop. *)
Definition _prioritize_projects_heaps (cv_data : CVData)
    (job_keywords : list string) (h : heap) : list heap :=
  let projects := projects cv_data in
  let h1 := score_projects job_keywords h projects in
  let sorted := sort_reverse (getattr_relevance_score h1) projects in
  [h; h1; delete_scores h1 sorted].

Definition _prioritize_projects (cv_data : CVData)
    (job_keywords : list string) (job_type : string) (h : heap)
    : heap * list loc :=
  let projects := projects cv_data in
  let h1 := score_projects job_keywords h projects in
  let sorted := sort_reverse (getattr_relevance_score h1) projects in
  (delete_scores h1 sorted, sorted).

Definition data_priority : list string :=
  ["Data Analysis"; "Programming"; "Databases"; "Visualization"; "Tools"; "Other"].
Definition developer_priority : list string :=
  ["Programming"; "Databases"; "Tools"; "Data Analysis"; "Visualization"; "Other"].

Definition priority_order (skills : dict (list string)) (job_type : string)
    : list string :=
  if in_list (lower job_type) data_titles then data_priority
  else if in_list (lower job_type) developer_titles then developer_priority
  else dict_keys skills.

(** First loop of [_prioritize_skills], over the priority list. *)
Definition add_prioritized (skills : dict (list string))
    (ordered_skills : dict (list string)) (category : string)
    : dict (list string) :=
  match dict_get category skills with
  | Some skill_list => dict_set category skill_list ordered_skills
  | None => ordered_skills
  end.

(** Second loop of [_prioritize_skills], over [skills.items()]. *)
Definition add_remaining (ordered_skills : dict (list string))
    (item : string * list string) : dict (list string) :=
  if dict_contains (fst item) ordered_skills then ordered_skills
  else dict_set (fst item) (snd item) ordered_skills.

Definition _prioritize_skills (cv_data : CVData)
    (job_keywords : list string) (job_type : string) : dict (list string) :=
  let skills := skills cv_data in
  let ordered_skills :=
    fold_left (add_prioritized skills) (priority_order skills job_type) [] in
  fold_left add_remaining skills ordered_skills.

(** The scoring loop of [_prioritize_courses]: the list of (course, score). *)
Definition score_courses (job_keywords : list string) (courses : list string)
    : list (string * nat) :=
  fold_left (fun scored_courses course =>
               scored_courses ++ [(course, count_keywords course job_keywords 0)])
            courses [].

Definition _prioritize_courses (cv_data : CVData)
    (job_keywords : list string) (job_type : string) : list string :=
  let scored_courses := score_courses job_keywords (courses cv_data) in
  map fst (sort_reverse snd scored_courses).

(** [customize_for_job]: the arguments of the [CVData] constructor are
    evaluated in order; only [_prioritize_projects] touches the heap. *)
Definition customize_for_job (cv_data : CVData)
    (job_keywords : list string) (job_type : string) (h : heap)
    : heap * CVData :=
  let summary' := _customize_summary cv_data job_keywords job_type in
  let work_experience' := _prioritize_experience cv_data job_keywords job_type in
  let '(h', projects') := _prioritize_projects cv_data job_keywords job_type h in
  let skills' := _prioritize_skills cv_data job_keywords job_type in
  let courses' := _prioritize_courses cv_data job_keywords job_type in
  (h', {| personal_info := personal_info cv_data;
          summary := summary';
          work_experience := work_experience';
          projects := projects';
          education := education cv_data;
          skills := skills';
          courses := courses';
          languages := languages cv_data;
          additional := additional cv_data |}).

(** The heaps a call of [customize_for_job] passes through. *)
Definition customize_for_job_heaps (cv_data : CVData)
    (job_keywords : list string) (job_type : string) (h : heap) : list heap :=
  _prioritize_projects_heaps cv_data job_keywords h.

(** What a reader of a list of projects sees: the objects behind the
    references. *)
Definition deref_projects (h : heap) (ps : list loc) : list (option ProjectObj) :=
  map (fun l => h !! l) ps.

End Generator.

End CVGenerator.

(** ** CVManager: loading the persisted profile *)

Module CVManager.

(** What [json.load] returns. *)
#[local] Set Warnings "-register-all".
Inductive json :=
  | JNull
  | JBool (b : bool)
  | JInt (z : Z)
  | JFloat (literal : string)
  | JStr (s : string)
  | JArr (items : list json)
  | JObj (members : list (string * json)).
#[local] Set Warnings "+register-all".

Inductive exn :=
  | KeyError (key : string)
  | TypeError
  | JSONDecodeError
  | UnicodeEncodeError
  | FileNotFoundError
  | OSError.

Inductive result (A : Type) :=
  | Ok (a : A)
  | Raise (e : exn).
Arguments Ok {A} a.
Arguments Raise {A} e.

Definition bind {A B} (r : result A) (k : A -> result B) : result B :=
  match r with
  | Ok a => k a
  | Raise e => Raise e
  end.

Notation "x <- r ;; k" := (bind r (fun x => k))
  (at level 100, r at next level, right associativity).

(** [data[key]] with a string key: only a dict can be subscripted by a
    string, and the key has to be there. *)
Definition subscript (data : json) (key : string) : result json :=
  match data with
  | JObj members =>
      match Py.dict_get key members with
      | Some v => Ok v
      | None => Raise (KeyError key)
      end
  | _ => Raise TypeError
  end.

(** [for x in v]: the items of a list, the keys of a dict, the characters of
    a string; anything else is not iterable. *)
Definition iterate (v : json) : result (list json) :=
  match v with
  | JArr items => Ok items
  | JObj members => Ok (map (fun kv => JStr (fst kv)) members)
  | JStr s => Ok (map JStr (Py.chars s))
  | _ => Raise TypeError
  end.

(** A dataclass instance: its class and its attribute dictionary.  The
    generated [__init__] stores the arguments without looking at their
    types. *)
Record Instance := mkInstance {
  cls : string;
  attrs : list (string * json)
}.

(** The value of one field of a dataclass from the keyword arguments: the
    keyword if given, else the default, else a missing argument. *)
Definition field_value (kwargs : list (string * json))
    (field : string * option json) : result (string * json) :=
  match Py.dict_get (fst field) kwargs with
  | Some v => Ok (fst field, v)
  | None =>
      match snd field with
      | Some dflt => Ok (fst field, dflt)
      | None => Raise TypeError
      end
  end.

(** [[f(x) for x in l]] where [f] may raise. *)
Fixpoint comprehension {A B} (f : A -> result B) (l : list A) : result (list B) :=
  match l with
  | [] => Ok []
  | x :: l' => y <- f x ;; ys <- comprehension f l' ;; Ok (y :: ys)
  end.

(** The call of a dataclass [C] on the unpacked mapping [v] (two stars before
    the argument), for the given fields (name and default):
    [v] has to be a mapping, each of its keys has to name a field, and each
    field without default has to be given. *)
Definition construct (cls : string) (fields : list (string * option json))
    (v : json) : result Instance :=
  match v with
  | JObj kwargs =>
      if forallb (fun kv => Py.in_list (fst kv) (map fst fields)) kwargs
      then a <- comprehension (field_value kwargs) fields ;;
           Ok {| cls := cls; attrs := a |}
      else Raise TypeError
  | _ => Raise TypeError
  end.

Definition PersonalInfo_fields : list (string * option json) :=
  [("name", None); ("email", None); ("phone", None); ("location", None);
   ("linkedin", Some (JStr "")); ("github", Some (JStr ""));
   ("portfolio", Some (JStr ""))].
Definition WorkExperience_fields : list (string * option json) :=
  [("title", None); ("company", None); ("period", None);
   ("responsibilities", None); ("technologies", Some JNull)].
Definition Project_fields : list (string * option json) :=
  [("name", None); ("description", None); ("technologies", None);
   ("achievements", None)].
Definition Education_fields : list (string * option json) :=
  [("degree", None); ("institution", None); ("period", None);
   ("details", Some (JStr ""))].

(** The [CVData] a load produces: nothing checks the types of its fields. *)
Record LoadedCVData := mkLoadedCVData {
  ld_personal_info : Instance;
  ld_summary : json;
  ld_work_experience : list Instance;
  ld_projects : list Instance;
  ld_education : list Instance;
  ld_skills : json;
  ld_courses : json;
  ld_languages : json;
  ld_additional : json
}.

(** The keys of the persisted record. *)
Definition required_keys : list string :=
  ["personal_info"; "summary"; "work_experience"; "projects"; "education";
   "skills"; "courses"; "languages"; "additional"].

Definition _dict_to_cv_data (data : json) : result LoadedCVData :=
  pi <- subscript data "personal_info" ;;
  personal_info <- construct "PersonalInfo" PersonalInfo_fields pi ;;
  summary <- subscript data "summary" ;;
  we <- subscript data "work_experience" ;;
  we_items <- iterate we ;;
  work_experience <- comprehension (construct "WorkExperience" WorkExperience_fields) we_items ;;
  pr <- subscript data "projects" ;;
  pr_items <- iterate pr ;;
  projects <- comprehension (construct "Project" Project_fields) pr_items ;;
  ed <- subscript data "education" ;;
  ed_items <- iterate ed ;;
  education <- comprehension (construct "Education" Education_fields) ed_items ;;
  skills <- subscript data "skills" ;;
  courses <- subscript data "courses" ;;
  languages <- subscript data "languages" ;;
  additional <- subscript data "additional" ;;
  Ok {| ld_personal_info := personal_info;
        ld_summary := summary;
        ld_work_experience := work_experience;
        ld_projects := projects;
        ld_education := education;
        ld_skills := skills;
        ld_courses := courses;
        ld_languages := languages;
        ld_additional := additional |}.

(** [_load_or_create_data]: [file] is [None] when [os.path.exists] is false,
    otherwise what [json.load] gives for the file's content;
    [default_data] stands for [self._create_default_data()]. *)
Definition _load_or_create_data (default_data : LoadedCVData)
    (file : option (result json)) : result LoadedCVData :=
  match file with
  | Some loaded => data <- loaded ;; _dict_to_cv_data data
  | None => Ok default_data
  end.

End CVManager.

(** ** The built-in profile of [CVManager._create_default_data]

    The two [Project] instances sit at locations 0 and 1 of the heap. *)

Module DefaultData.

Definition dance_school : Project :=
  {| name := "Dance School Website";
     description := "Full-stack web development project with modern features";
     technologies := ["Python"; "Django"; "HTML/CSS"; "JavaScript"];
     achievements :=
       ["Configured SSL Certificate and domain connection (DNS)";
        "Implemented Google Maps view and blog features"] |}.

Definition shinobi : Project :=
  {| name := "Unveiling the Shinobi Secrets (Naruto Wiki Analysis)";
     description := "Data analysis and web scraping project";
     technologies := ["Python"; "BeautifulSoup"; "Pandas"; "Data Visualization"];
     achievements :=
       ["Scraped valuable insights from multiple wiki pages";
        "Extracted, transformed data and visualized it ensuring clear understanding";
        "Delivered actionable insights through data analysis"] |}.

Definition default_heap : heap :=
  <[0 := {| fields := dance_school; relevance_score := None |}]>
  (<[1 := {| fields := shinobi; relevance_score := None |}]> ∅).

Definition default_data : CVData :=
  {| personal_info :=
       {| pi_name := "Olaf Siestrzykowski";
          pi_email := "olaf.siestrzykowski@gmail.com";
          pi_phone := "796694177";
          pi_location := "Warsaw, PL";
          pi_linkedin := "";
          pi_github := "";
          pi_portfolio := "Portfolio available upon request" |};
     summary := "Data Analyst with strong expertise in Python, Excel, SQL and Power BI. Enthusiastic about pursuing opportunities that enhance capabilities in data analysis and visualization. Dedicated to staying updated with latest technological advancements.";
     work_experience :=
       [ {| we_title := "Junior Sales Analyst";
            we_company := "Absolvent";
            we_period := "2023-2025";
            we_responsibilities :=
              ["Automated data flows by integrating CRM (via API) with reporting tools, reducing manual data entry time";
               "Acted as key technical resource in small team, working independently on end-to-end data processes";
               "Collaborated with managers to define metrics and track performance, delivering business-focused reports"];
            we_technologies :=
              Some ["Python"; "SQL"; "Power BI"; "APIs"; "Google Sheets";
                    "Looker Studio"; "Zapier"; "Jira"; ""] |};
         {| we_title := "Civil Engineer";
            we_company := "Mota Engil Central Europe";
            we_period := "2020-2022";
            we_responsibilities :=
              ["Preparation of 20+ Interim Payment Certificates monthly";
               "I improved data driven decision making by harnessing advanced Excel functions, enabling accurate problem analysis and driving strategic insights";
               "Comprehensive monthly analysis of Production and Costs, resulting in improved efficiency and cost savings";
               "Technological Projects, Weekly and Monthly Reports"];
            we_technologies := Some ["Excel"; "Power Query"; "AutoCAD"] |} ];
     projects := [0; 1];
     education :=
       [ {| degree := "Bachelor of Science in Civil Engineering";
            institution := "Lublin University of Technology";
            ed_period := "Completed";
            details := "" |} ];
     skills :=
       [ ("Programming", ["Python (Pandas, Django, BS4, APIs)"; "VBA"]);
         ("Data Analysis", ["Excel (Power Query, Power Pivot)"; "SQL (PostgreSQL, MySQL)";
                            "Power BI"; "Looker Studio"]);
         ("Tools & Technologies", ["Git"; "Linux"; "Zapier"]);
         ("Other", ["Data Visualization"; "API Integration"; "Web Scraping"]) ];
     courses :=
       ["Microsoft Excel - PowerQuery | VBA";
        "The Complete SQL Bootcamp 2022: Go from Zero to Hero";
        "Data Manipulation in Python: Master Python, Numpy & Pandas";
        "Power BI: Basics | Desktop | Advanced | Data Modeling"];
     languages := ["English - B2"; "Polish - Native"];
     additional := ["Driving Licence"; "Continuously learning new technologies"] |}.

End DefaultData.

(** ** Persisted records for the loader *)

Module Records.
Import CVManager.

(** A record with every required key. *)
Definition complete_record : list (string * json) :=
  [ ("personal_info",
     JObj [("name", JStr "Olaf Siestrzykowski");
           ("email", JStr "olaf.siestrzykowski@gmail.com");
           ("phone", JStr "796694177");
           ("location", JStr "Warsaw, PL")]);
    ("summary", JStr "Data Analyst");
    ("work_experience", JArr []);
    ("projects",
     JArr [JObj [("name", JStr "Dance School Website");
                 ("description", JStr "Full-stack web development project");
                 ("technologies", JArr [JStr "Python"; JStr "Django"]);
                 ("achievements", JArr [])]]);
    ("education", JArr []);
    ("skills", JObj [("Programming", JArr [JStr "VBA"])]);
    ("courses", JArr [JStr "SQL Bootcamp"]);
    ("languages", JArr [JStr "English - B2"]);
    ("additional", JArr [JStr "Driving Licence"]) ].

(** The text ["\ud800"] of a JSON file: one lone surrogate. *)
Definition lone_surrogate : string :=
  String (ascii_of_nat 237) (String (ascii_of_nat 160) (String (ascii_of_nat 128) EmptyString)).

(** The same record with a lone surrogate as its summary. *)
Definition record_with_surrogate : list (string * json) :=
  Py.dict_set "summary" (JStr lone_surrogate) complete_record.

(** The same record without its last key, "additional". *)
Definition record_without_additional : list (string * json) :=
  removelast complete_record.

End Records.

(** ** CVGenerator.generate_pdf: the story handed to the document builder

    [generate_pdf] builds a list of flowables and passes it to [doc.build];
    the list is what is modelled.  A style is kept by its name in
    [self.styles]; the height of a spacer is in hundredths of an inch
    ([Spacer(1, 0.05 * inch)] is [Spacer 5]). *)

Module Pdf.

Inductive flowable :=
  | Paragraph (text : string) (style : string)
  | Spacer (height : nat)
  | GreenLine.

(** The names of the styles [_create_styles] adds to the sample sheet. *)
Definition _create_styles : list string :=
  ["CVHeader"; "ContactInfo"; "SectionHeader"; "JobTitle"; "Company";
   "Period"; "BulletPoint"; "Skills"; "Summary"].

(** [for x in l: <body>] where the body appends [body x] to the story. *)
Definition for_each {A} (l : list A) (body : A -> list flowable)
    (story : list flowable) : list flowable :=
  fold_left (fun story x => story ++ body x) l story.

(** Truth value of a string: non-empty. *)
Definition nonempty (s : string) : bool :=
  match s with EmptyString => false | String _ _ => true end.

Definition generate_pdf (cv_data : CVData) (customized_data : option CVData)
    (h : heap) : list flowable :=
  let customized_data :=
    match customized_data with Some d => d | None => cv_data end in
  let info := personal_info customized_data in
  let story := [] in
  let story := story ++ [Paragraph (pi_name info) "CVHeader"] in
  let story := story ++ [Spacer 10] in
  let story := story ++ [Paragraph (pi_email info) "ContactInfo"] in
  let story := story ++ [Paragraph (pi_phone info) "ContactInfo"] in
  let story := story ++ [Paragraph (pi_location info) "ContactInfo"] in
  let story :=
    if nonempty (pi_portfolio info)
    then story ++ [Paragraph (pi_portfolio info) "ContactInfo"] else story in
  let story := story ++ [Spacer 20] in
  (* Summary section *)
  let story := story ++ [GreenLine] in
  let story := story ++ [Spacer 5] in
  let story := story ++ [Paragraph "Professional Summary" "SectionHeader"] in
  let story := story ++ [Paragraph (summary customized_data) "Summary"] in
  let story := story ++ [Spacer 10] in
  (* Work Experience *)
  let story := story ++ [GreenLine] in
  let story := story ++ [Spacer 5] in
  let story := story ++ [Paragraph "Work Experience" "SectionHeader"] in
  let story :=
    for_each (work_experience customized_data)
      (fun exp =>
         [Paragraph (we_title exp) "JobTitle"; Paragraph (we_period exp) "Period"]
         ++ for_each (we_responsibilities exp)
              (fun responsibility => [Paragraph responsibility "BulletPoint"]) []
         ++ [Spacer 10]) story in
  (* Projects *)
  let story := story ++ [GreenLine] in
  let story := story ++ [Spacer 5] in
  let story := story ++ [Paragraph "Projects" "SectionHeader"] in
  let story :=
    for_each (projects customized_data)
      (fun project =>
         match h !! project with
         | Some o =>
             [Paragraph (name (fields o)) "JobTitle";
              Paragraph (description (fields o)) "BulletPoint"]
             ++ for_each (achievements (fields o))
                  (fun achievement => [Paragraph achievement "BulletPoint"]) []
             ++ [Spacer 10]
         | None => []
         end) story in
  (* Skills *)
  let story := story ++ [GreenLine] in
  let story := story ++ [Spacer 5] in
  let story := story ++ [Paragraph "Skills" "SectionHeader"] in
  let story :=
    for_each (skills customized_data)
      (fun item =>
         [Paragraph (fst item) "JobTitle";
          Paragraph (Py.join ", " (snd item)) "Skills";
          Spacer 5]) story in
  (* Education *)
  let story := story ++ [GreenLine] in
  let story := story ++ [Spacer 5] in
  let story := story ++ [Paragraph "Education" "SectionHeader"] in
  let story :=
    for_each (education customized_data)
      (fun edu =>
         [Paragraph (degree edu) "JobTitle"; Paragraph (institution edu) "Company"]
         ++ (if nonempty (details edu)
             then [Paragraph (details edu) "BulletPoint"] else [])
         ++ [Spacer 5]) story in
  (* Courses *)
  let story :=
    match courses customized_data with
    | [] => story
    | _ :: _ =>
        let story := story ++ [GreenLine] in
        let story := story ++ [Spacer 5] in
        let story := story ++ [Paragraph "Courses" "SectionHeader"] in
        for_each (courses customized_data)
          (fun course => [Paragraph course "BulletPoint"]) story
    end in
  (* Languages & Additional *)
  let additional_sections := [] in
  let additional_sections :=
    match languages customized_data with
    | [] => additional_sections
    | _ :: _ => additional_sections ++ [("Languages", languages customized_data)]
    end in
  let additional_sections :=
    match additional customized_data with
    | [] => additional_sections
    | _ :: _ => additional_sections ++ [("Additional", additional customized_data)]
    end in
  for_each additional_sections
    (fun section =>
       [GreenLine; Spacer 5; Paragraph (fst section) "SectionHeader";
        Paragraph (Py.join " | " (snd section)) "Skills"]) story.

End Pdf.

(** ** CVManager.generate_cv_for_job: the generated file *)

Module Job.
Import CVManager.

Section Sanitizer.
Context {U : Py.Unicode}.

(** [c.isalnum() or c in (' ', '-', '_')] *)
Definition allowed (c : string) : bool :=
  Py.isalnum c || Py.in_list c [" "; "-"; "_"].

(** ["".join(c for c in s if f(c))] *)
Definition keep (f : string -> bool) (s : string) : string :=
  Py.join "" (List.filter f (Py.chars s)).

(** The characters of [s.rstrip()]: those of [s] without the whitespace at
    its end. *)
Fixpoint rstrip_chars (l : list string) : list string :=
  match l with
  | [] => []
  | c :: l' =>
      match rstrip_chars l' with
      | [] => if Py.isspace c then [] else [c]
      | c' :: r => c :: c' :: r
      end
  end.

(** [s.rstrip()] *)
Definition rstrip (s : string) : string :=
  Py.join "" (rstrip_chars (Py.chars s)).

Definition safe_job_title (job_title : string) : string :=
  rstrip (keep allowed job_title).

(** [f"CV_{safe_job_title}_{timestamp}.pdf"] *)
Definition filename (job_title timestamp : string) : string :=
  "CV_" +:+ safe_job_title job_title +:+ "_" +:+ timestamp +:+ ".pdf".

End Sanitizer.

(** [s.endswith('/')] *)
Fixpoint ends_with_sep (s : string) : bool :=
  match s with
  | EmptyString => false
  | String c EmptyString => Ascii.eqb c "/"
  | String _ s' => ends_with_sep s'
  end.

(** [os.path.join(a, b)] of [posixpath]. *)
Definition path_join (a b : string) : string :=
  if String.prefix "/" b then b
  else if negb (Pdf.nonempty a) || ends_with_sep a then a +:+ b
  else a +:+ "/" +:+ b.

(** The file system and the document builder as [generate_cv_for_job] uses
    them, on a state [files] of the file system: [os.path.exists],
    [os.makedirs], and [build] for the construction of the document at a
    path from a story ([SimpleDocTemplate] and [doc.build]), which may
    raise.  The empty path does not exist, and [os.makedirs] raises
    [FileNotFoundError] on it. *)
Class Environment := {
  files : Type;
  path_exists : string -> files -> bool;
  makedirs : string -> files -> result files;
  build : string -> list Pdf.flowable -> files -> result files;
  path_exists_empty : forall fs, path_exists EmptyString fs = false;
  makedirs_empty : forall fs, makedirs EmptyString fs = Raise FileNotFoundError
}.

(** A file system that records the paths created, for the closed examples:
    every directory but the empty path can be made and every document can
    be built. *)
#[global] Instance recorded_paths : Environment.
Proof.
  refine {| files := list string;
            path_exists := fun path fs => Pdf.nonempty path && Py.in_list path fs;
            makedirs := fun path fs =>
                          if Pdf.nonempty path then Ok (path :: fs)
                          else Raise FileNotFoundError;
            build := fun path _ fs => Ok (path :: fs) |}.
  - reflexivity.
  - reflexivity.
Defined.

(** [generate_cv_for_job]: [timestamp] is what
    [datetime.now().strftime("%Y%m%d_%H%M%S")] gives at the call, [h] the
    heap and [fs] the file system before it.  The call returns the path of
    the document, with the heap and the file system it leaves, or raises
    what [os.makedirs] or the construction of the document raises. *)
Definition generate_cv_for_job {U : Py.Unicode} {E : Environment}
    (cv_data : CVData) (job_title : string) (job_keywords : list string)
    (output_dir : string) (timestamp : string) (h : heap) (fs : files)
    : result (heap * files * string) :=
  fs1 <- (if negb (path_exists output_dir fs) then makedirs output_dir fs
          else Ok fs) ;;
  let '(h', customized_data) :=
    CVGenerator.customize_for_job cv_data job_keywords job_title h in
  let output_path := path_join output_dir (filename job_title timestamp) in
  fs2 <- build output_path (Pdf.generate_pdf cv_data (Some customized_data) h') fs1 ;;
  Ok (h', fs2, output_path).

End Job.

(** ** CVManager.save_data: the persisted record *)

Module Save.
Import CVManager.

(** [asdict] on a dataclass instance: a dict of its fields in their order;
    the values are JSON values already and are copied as they are. *)
Definition asdict_instance (i : Instance) : json := JObj (attrs i).

(** [asdict(self.cv_data)] *)
Definition asdict (cv_data : LoadedCVData) : json :=
  JObj [ ("personal_info", asdict_instance (ld_personal_info cv_data));
         ("summary", ld_summary cv_data);
         ("work_experience", JArr (map asdict_instance (ld_work_experience cv_data)));
         ("projects", JArr (map asdict_instance (ld_projects cv_data)));
         ("education", JArr (map asdict_instance (ld_education cv_data)));
         ("skills", ld_skills cv_data);
         ("courses", ld_courses cv_data);
         ("languages", ld_languages cv_data);
         ("additional", ld_additional cv_data) ].

(** A lone surrogate in the bytes of a text: the byte 237 followed by a
    continuation byte from 160 on. *)
Fixpoint has_surrogate (s : string) : bool :=
  match s with
  | EmptyString => false
  | String a s' =>
      match s' with
      | EmptyString => false
      | String b _ =>
          ((nat_of_ascii a =? 237)%nat
           && (160 <=? nat_of_ascii b)%nat && (nat_of_ascii b <? 192)%nat)
          || has_surrogate s'
      end
  end.

(** What [json.dump] can write to a file opened with [encoding='utf-8']:
    a value none of whose strings and keys holds a lone surrogate. *)
Fixpoint encodable (v : json) : bool :=
  match v with
  | JStr s => negb (has_surrogate s)
  | JArr items => forallb encodable items
  | JObj members =>
      forallb (fun kv => negb (has_surrogate (fst kv)) && encodable (snd kv)) members
  | _ => true
  end.

(** [save_data]: [opened] is the outcome of [open(self.data_file, 'w')] and
    [file] what a load finds in the data file before the call ([None] when
    there is no file, as for [_load_or_create_data]).  The result is the
    outcome of the call and what a load finds in the data file after it:
    the file as it was when it could not be opened; the value written,
    which [json.load] reads back, when [json.dump] wrote it; and a text cut
    off before its end, which [json.load] rejects, when [json.dump] raised
    on a string that UTF-8 cannot encode. *)
Definition save_data (opened : result unit) (file : option (result json))
    (cv_data : LoadedCVData) : result unit * option (result json) :=
  match opened with
  | Raise e => (Raise e, file)
  | Ok _ =>
      let value := asdict cv_data in
      if encodable value then (Ok tt, Some (Ok value))
      else (Raise UnicodeEncodeError, Some (Raise JSONDecodeError))
  end.

End Save.

(** ** generate_CV.py: reading the fields of a markdown CV

    Each [re.search] of [parse_markdown] is a literal marker followed by one
    lazy group.  The search takes the leftmost place where the whole pattern
    matches; when the pattern fails at the leftmost occurrence of the marker
    (no line end, or no closing heading, in the rest of the text) it fails at
    every later one, so the leftmost occurrence of the marker decides. *)

Module Markdown.

Definition LF : ascii := ascii_of_nat 10.
Definition CR : ascii := ascii_of_nat 13.

(** The text after [needle] when [hay] starts with it. *)
Fixpoint strip_prefix (needle hay : string) : option string :=
  match needle with
  | EmptyString => Some hay
  | String a needle' =>
      match hay with
      | EmptyString => None
      | String b hay' => if Ascii.eqb a b then strip_prefix needle' hay' else None
      end
  end.

(** The leftmost occurrence of [needle] in [hay]: the text before it and the
    text after it. *)
Fixpoint find (needle hay : string) : option (string * string) :=
  match strip_prefix needle hay with
  | Some post => Some (EmptyString, post)
  | None =>
      match hay with
      | EmptyString => None
      | String c hay' =>
          match find needle hay' with
          | Some (pre, post) => Some (String c pre, post)
          | None => None
          end
      end
  end.

(** The group of [(.*?)[\r\n]] at the start of [s]: the characters before the
    first line feed or carriage return; no match without one. *)
Fixpoint until_newline (s : string) : option string :=
  match s with
  | EmptyString => None
  | String c s' =>
      if Ascii.eqb c LF || Ascii.eqb c CR then Some EmptyString
      else match until_newline s' with
           | Some g => Some (String c g)
           | None => None
           end
  end.

(** The group of [(.*?)$] with [re.DOTALL] at the start of [s]: all of [s],
    without its last character when that is a line feed. *)
Fixpoint until_end (s : string) : string :=
  match s with
  | EmptyString => EmptyString
  | String c EmptyString => if Ascii.eqb c LF then EmptyString else s
  | String c s' => String c (until_end s')
  end.

(** The closing text of a section: a blank line and a heading. *)
Definition next_heading : string :=
  String LF (String LF "##").

(** [re.search(marker + r'(.*?)[\r\n]', content)], group 1. *)
Definition search_line (marker content : string) : option string :=
  match find marker content with
  | Some (_, rest) => until_newline rest
  | None => None
  end.

(** [re.search(marker + r'(.*?)\n\n##', content, re.DOTALL)], group 1. *)
Definition search_block (marker content : string) : option string :=
  match find marker content with
  | Some (_, rest) =>
      match find next_heading rest with
      | Some (body, _) => Some body
      | None => None
      end
  | None => None
  end.

(** [re.search(marker + r'(.*?)$', content, re.DOTALL)], group 1. *)
Definition search_to_end (marker content : string) : option string :=
  match find marker content with
  | Some (_, rest) => Some (until_end rest)
  | None => None
  end.

(** [m.group(1) if m else fallback] *)
Definition group_or (fallback : string) (m : option string) : string :=
  match m with Some g => g | None => fallback end.

(** A section heading followed by a blank line: ["## Skills\n\n"]. *)
Definition heading (title : string) : string :=
  "## " +:+ title +:+ String LF (String LF EmptyString).

(** [parse_markdown] on the text read from the file. *)
Definition parse_markdown (content : string) : Py.dict string :=
  let name := group_or "Name Not Found" (search_line "# " content) in
  let title := group_or "Title Not Found" (search_line "## " content) in
  let contact_info := group_or "" (search_line "Contact: " content) in
  let statement := group_or "" (search_block (heading "DATA ANALYST") content) in
  let skills := group_or "" (search_block (heading "Skills") content) in
  let work_exp := group_or "" (search_block (heading "Work Experience") content) in
  let education := group_or "" (search_block (heading "Education") content) in
  let projects := group_or "" (search_block (heading "Projects") content) in
  let courses := group_or "" (search_to_end (heading "Courses") content) in
  [ ("name", name); ("title", title); ("contact_info", contact_info);
    ("statement", statement); ("skills", skills); ("work_exp", work_exp);
    ("education", education); ("projects", projects); ("courses", courses) ].

(** A small CV in the layout the patterns expect. *)
Definition sample_cv : string :=
  String.concat (String LF EmptyString)
    [ "# Olaf Siestrzykowski"; "## DATA ANALYST"; "";
      "Contact: Warsaw, PL"; "";
      "## Skills"; ""; "Python, SQL"; "";
      "## Courses"; ""; "SQL Bootcamp"; "" ].

End Markdown.

(** ** Vocabulary of the statements *)

(** [keyword] occurs in [text], case-insensitively (the test of the source). *)
Definition matches {U : Py.Unicode} (text keyword : string) : bool :=
  Py.str_in (Py.lower keyword) (Py.lower text).

(** Two characters that are equal or are the two cases of one of the
    letters A-Z. *)
Definition same_letter (a b : ascii) : bool :=
  let m := nat_of_ascii a in
  let n := nat_of_ascii b in
  (m =? n)%nat
  || ((65 <=? m)%nat && (m <=? 90)%nat && (n =? m + 32)%nat)
  || ((65 <=? n)%nat && (n <=? 90)%nat && (m =? n + 32)%nat).

(** Two texts of the same length that differ at most in the case of the
    letters A-Z, position by position. *)
Fixpoint same_text (s t : string) : bool :=
  match s, t with
  | EmptyString, EmptyString => true
  | String a s', String b t' => same_letter a b && same_text s' t'
  | _, _ => false
  end.

(** The score the scoring loop leaves on the project at [l]: the loop run on
    the text of the object found there (0 for a dangling reference, which the
    source cannot hold). *)
Definition project_score {U : Py.Unicode} (h : heap) (job_keywords : list string) (l : loc) : nat :=
  match h !! l with
  | Some o => CVGenerator.count_keywords (CVGenerator.project_text (fields o)) job_keywords 0
  | None => 0
  end.

Definition course_score {U : Py.Unicode} (job_keywords : list string) (course : string) : nat :=
  CVGenerator.count_keywords course job_keywords 0.

(** Every element has a key at least as large as each later one. *)
Definition descending {A} (key : A -> nat) (l : list A) : Prop :=
  StronglySorted (fun a b => key b <= key a) l.

(** The elements of [l] whose key is [s], in their order in [l]. *)
Definition with_key {A} (key : A -> nat) (s : nat) (l : list A) : list A :=
  List.filter (fun x => key x =? s) l.

(** An occurrence of [a] stands before an occurrence of [b] in [l]. *)
Definition occurs_before {A} (a b : A) (l : list A) : Prop :=
  exists l1 l2 l3, l = l1 ++ a :: l2 ++ b :: l3.

(** No project of the list carries a relevance score. *)
Definition no_scores (h : heap) (ps : list loc) : Prop :=
  forall l o, In l ps -> h !! l = Some o -> relevance_score o = None.

(** The categories of a priority list that the profile has, in the order
    of the list, each with the profile's skill list. *)
Definition prioritized (skills : Py.dict (list string)) (prio : list string)
    : Py.dict (list string) :=
  flat_map (fun c => match Py.dict_get c skills with
                     | Some v => [(c, v)]
                     | None => []
                     end) prio.

(** The categories a priority list does not name, in the profile's order. *)
Definition unnamed (prio : list string) (skills : Py.dict (list string))
    : Py.dict (list string) :=
  List.filter (fun kv => negb (Py.in_list (fst kv) prio)) skills.

(** A project object once the scoring loop has run on it. *)
Definition scored {U : Py.Unicode} (kws : list string) (o : ProjectObj) : ProjectObj :=
  CVGenerator.set_relevance_score
    (Some (CVGenerator.count_keywords (CVGenerator.project_text (fields o)) kws 0)) o.

(** The texts of the paragraphs of a story that have a given style. *)
Definition texts_with_style (style : string) (story : list Pdf.flowable)
    : list string :=
  flat_map (fun f => match f with
                     | Pdf.Paragraph text s => if String.eqb s style then [text] else []
                     | _ => []
                     end) story.

(** The style names a story uses. *)
Definition styles_used (story : list Pdf.flowable) : list string :=
  flat_map (fun f => match f with Pdf.Paragraph _ s => [s] | _ => [] end) story.

(** The number of separator lines of a story. *)
Definition green_lines (story : list Pdf.flowable) : nat :=
  length (List.filter (fun f => match f with Pdf.GreenLine => true | _ => false end)
                      story).

(** What [generate_pdf] reads of a work experience, a project, an education
    entry and the personal information. *)
Definition shown_experience (e : WorkExperience) : string * string * list string :=
  (we_title e, we_period e, we_responsibilities e).
Definition shown_project (p : Project) : string * string * list string :=
  (name p, description p, achievements p).
Definition shown_education (e : Education) : string * string * string :=
  (degree e, institution e, details e).
Definition shown_info (i : PersonalInfo) : list string :=
  [pi_name i; pi_email i; pi_phone i; pi_location i; pi_portfolio i].

(** The projects behind a list of references. *)
Definition live_projects (h : heap) (ps : list loc) : list Project :=
  flat_map (fun l => match h !! l with Some o => [fields o] | None => [] end) ps.

(** [s] contains the character [c]. *)
Fixpoint has_char (c : ascii) (s : string) : bool :=
  match s with
  | EmptyString => false
  | String c' s' => Ascii.eqb c' c || has_char c s'
  end.

(** Every character of [s] satisfies [f]. *)
Definition all_chars (f : string -> bool) (s : string) : bool :=
  forallb f (Py.chars s).

(** The last element of [l] satisfies [f]. *)
Fixpoint last_is {A} (f : A -> bool) (l : list A) : bool :=
  match l with
  | [] => false
  | [x] => f x
  | _ :: l' => last_is f l'
  end.

(** [s] ends with a whitespace character. *)
Definition ends_with_space {U : Py.Unicode} (s : string) : bool :=
  last_is Py.isspace (Py.chars s).

(** An instance of the dataclass with the given fields: its class name and
    exactly these attributes, in order. *)
Definition instance_of (cls : string) (fields : list (string * option CVManager.json))
    (i : CVManager.Instance) : Prop :=
  CVManager.cls i = cls /\ map fst (CVManager.attrs i) = map fst fields.

(** What the call of a dataclass stores for a field: under the name of the
    field, the keyword argument of that name, or the default of the field
    when there is none. *)
Definition stored (kwargs : list (string * CVManager.json))
    (field : string * option CVManager.json) (kv : string * CVManager.json) : Prop :=
  fst kv = fst field
  /\ match Py.dict_get (fst field) kwargs with
     | Some v => snd kv = v
     | None => snd field = Some (snd kv)
     end.

(** [i] is the instance the dataclass [c] with the given fields makes of
    the JSON object [v]: one attribute per field, in declaration order. *)
Definition built_from (c : string) (fields : list (string * option CVManager.json))
    (v : CVManager.json) (i : CVManager.Instance) : Prop :=
  exists kwargs,
    v = CVManager.JObj kwargs
    /\ CVManager.cls i = c
    /\ Forall2 (stored kwargs) fields (CVManager.attrs i).

(** The instances [l] are made of the items of the value under [key]. *)
Definition list_built_from (c : string) (fields : list (string * option CVManager.json))
    (members : list (string * CVManager.json)) (key : string)
    (l : list CVManager.Instance) : Prop :=
  exists v items,
    Py.dict_get key members = Some v
    /\ CVManager.iterate v = CVManager.Ok items
    /\ Forall2 (built_from c fields) items l.

(** [cv] holds what the record [members] holds, field by field. *)
Definition loaded_from (members : list (string * CVManager.json))
    (cv : CVManager.LoadedCVData) : Prop :=
  (exists v, Py.dict_get "personal_info" members = Some v
             /\ built_from "PersonalInfo" CVManager.PersonalInfo_fields v
                  (CVManager.ld_personal_info cv))
  /\ Py.dict_get "summary" members = Some (CVManager.ld_summary cv)
  /\ list_built_from "WorkExperience" CVManager.WorkExperience_fields members
       "work_experience" (CVManager.ld_work_experience cv)
  /\ list_built_from "Project" CVManager.Project_fields members
       "projects" (CVManager.ld_projects cv)
  /\ list_built_from "Education" CVManager.Education_fields members
       "education" (CVManager.ld_education cv)
  /\ Py.dict_get "skills" members = Some (CVManager.ld_skills cv)
  /\ Py.dict_get "courses" members = Some (CVManager.ld_courses cv)
  /\ Py.dict_get "languages" members = Some (CVManager.ld_languages cv)
  /\ Py.dict_get "additional" members = Some (CVManager.ld_additional cv).

Definition well_formed (cv : CVManager.LoadedCVData) : Prop :=
  instance_of "PersonalInfo" CVManager.PersonalInfo_fields (CVManager.ld_personal_info cv)
  /\ Forall (instance_of "WorkExperience" CVManager.WorkExperience_fields)
            (CVManager.ld_work_experience cv)
  /\ Forall (instance_of "Project" CVManager.Project_fields) (CVManager.ld_projects cv)
  /\ Forall (instance_of "Education" CVManager.Education_fields)
            (CVManager.ld_education cv).

(** Everything [generate_pdf] reads of the data it renders. *)
Record Shown := mkShown {
  sh_info : list string;
  sh_summary : string;
  sh_experience : list (string * string * list string);
  sh_projects : list (string * string * list string);
  sh_skills : Py.dict (list string);
  sh_education : list (string * string * string);
  sh_courses : list string;
  sh_languages : list string;
  sh_additional : list string
}.

Definition shown_data (h : heap) (d : CVData) : Shown :=
  {| sh_info := shown_info (personal_info d);
     sh_summary := summary d;
     sh_experience := map shown_experience (work_experience d);
     sh_projects := map shown_project (live_projects h (projects d));
     sh_skills := skills d;
     sh_education := map shown_education (education d);
     sh_courses := courses d;
     sh_languages := languages d;
     sh_additional := additional d |}.

(** The pieces of a story. *)
Definition section_head (title : string) : list Pdf.flowable :=
  [Pdf.GreenLine; Pdf.Spacer 5; Pdf.Paragraph title "SectionHeader"].

Definition bullets (texts : list string) : list Pdf.flowable :=
  map (fun t => Pdf.Paragraph t "BulletPoint") texts.

Definition contact_block (info : list string) : list Pdf.flowable :=
  match info with
  | [n; email; phone; location; portfolio] =>
      [Pdf.Paragraph n "CVHeader"; Pdf.Spacer 10;
       Pdf.Paragraph email "ContactInfo"; Pdf.Paragraph phone "ContactInfo";
       Pdf.Paragraph location "ContactInfo"]
      ++ (if Pdf.nonempty portfolio then [Pdf.Paragraph portfolio "ContactInfo"] else [])
      ++ [Pdf.Spacer 20]
  | _ => []
  end.

Definition experience_block (e : string * string * list string) : list Pdf.flowable :=
  let '(title, period, responsibilities) := e in
  [Pdf.Paragraph title "JobTitle"; Pdf.Paragraph period "Period"]
  ++ bullets responsibilities ++ [Pdf.Spacer 10].

Definition project_block (p : string * string * list string) : list Pdf.flowable :=
  let '(n, descr, achieved) := p in
  [Pdf.Paragraph n "JobTitle"; Pdf.Paragraph descr "BulletPoint"]
  ++ bullets achieved ++ [Pdf.Spacer 10].

Definition skill_block (item : string * list string) : list Pdf.flowable :=
  [Pdf.Paragraph (fst item) "JobTitle";
   Pdf.Paragraph (Py.join ", " (snd item)) "Skills"; Pdf.Spacer 5].

Definition education_block (e : string * string * string) : list Pdf.flowable :=
  let '(deg, inst, det) := e in
  [Pdf.Paragraph deg "JobTitle"; Pdf.Paragraph inst "Company"]
  ++ (if Pdf.nonempty det then [Pdf.Paragraph det "BulletPoint"] else [])
  ++ [Pdf.Spacer 5].

Definition courses_section (cs : list string) : list Pdf.flowable :=
  match cs with
  | [] => []
  | _ :: _ => section_head "Courses" ++ bullets cs
  end.

Definition line_section (title : string) (items : list string) : list Pdf.flowable :=
  match items with
  | [] => []
  | _ :: _ => section_head title ++ [Pdf.Paragraph (Py.join " | " items) "Skills"]
  end.

(** The story as a function of what is shown. *)
Definition story_of (v : Shown) : list Pdf.flowable :=
  contact_block (sh_info v)
  ++ section_head "Professional Summary"
  ++ [Pdf.Paragraph (sh_summary v) "Summary"; Pdf.Spacer 10]
  ++ section_head "Work Experience" ++ flat_map experience_block (sh_experience v)
  ++ section_head "Projects" ++ flat_map project_block (sh_projects v)
  ++ section_head "Skills" ++ flat_map skill_block (sh_skills v)
  ++ section_head "Education" ++ flat_map education_block (sh_education v)
  ++ courses_section (sh_courses v)
  ++ line_section "Languages" (sh_languages v)
  ++ line_section "Additional" (sh_additional v).

(** The given texts when the style is the one looked for. *)
Definition if_style (style wanted : string) (texts : list string) : list string :=
  if String.eqb style wanted then texts else [].

(** The style of a paragraph is one that [_create_styles] defines. *)
Definition style_defined (f : Pdf.flowable) : Prop :=
  match f with
  | Pdf.Paragraph _ s => In s Pdf._create_styles
  | _ => True
  end.

(** The three lists of records of the persisted profile: key, dataclass and
    its fields. *)
Definition record_lists : list (string * string * list (string * option CVManager.json)) :=
  [ ("work_experience", "WorkExperience", CVManager.WorkExperience_fields);
    ("projects", "Project", CVManager.Project_fields);
    ("education", "Education", CVManager.Education_fields) ].

(** ** The built-in sort *)

Section Sort.
Context {A : Type} (key : A -> nat).

Lemma insert_desc_perm x l : Permutation (Py.insert_desc key x l) (x :: l).
Proof.
  induction l as [|y l IH]; simpl; [reflexivity|].
  destruct (key y <=? key x); [reflexivity|].
  rewrite IH. apply perm_swap.
Qed.

Lemma sort_reverse_perm l : Permutation (Py.sort_reverse key l) l.
Proof.
  induction l as [|x l IH]; simpl; [constructor|].
  rewrite insert_desc_perm. now constructor.
Qed.

Lemma insert_desc_descending x l :
  descending key l -> descending key (Py.insert_desc key x l).
Proof.
  unfold descending. induction 1 as [|y l Hs IH Hy]; simpl.
  - repeat constructor.
  - destruct (key y <=? key x) eqn:E.
    + apply Nat.leb_le in E. constructor.
      * now constructor.
      * constructor; [exact E|].
        eapply List.Forall_impl; [|exact Hy]. simpl. intros; lia.
    + apply Nat.leb_gt in E. constructor; [exact IH|].
      eapply Permutation_Forall.
      * symmetry. apply insert_desc_perm.
      * constructor; [lia | exact Hy].
Qed.

Lemma sort_reverse_descending l : descending key (Py.sort_reverse key l).
Proof.
  induction l as [|x l IH]; simpl; [constructor|].
  now apply insert_desc_descending.
Qed.

Lemma insert_desc_with_key s x l :
  with_key key s (Py.insert_desc key x l) = with_key key s (x :: l).
Proof.
  unfold with_key. induction l as [|y l IH]; simpl; [reflexivity|].
  destruct (key y <=? key x) eqn:E; [reflexivity|].
  apply Nat.leb_gt in E. simpl. rewrite IH. simpl.
  destruct (key x =? s) eqn:Ex, (key y =? s) eqn:Ey; try reflexivity.
  apply Nat.eqb_eq in Ex, Ey. lia.
Qed.

Lemma sort_reverse_with_key s l :
  with_key key s (Py.sort_reverse key l) = with_key key s l.
Proof.
  induction l as [|x l IH]; simpl; [reflexivity|].
  rewrite insert_desc_with_key. unfold with_key in *. simpl. now rewrite IH.
Qed.

Lemma filter_split (f : A -> bool) l m1 a m2 :
  List.filter f l = m1 ++ a :: m2 ->
  exists l1 l2, l = l1 ++ a :: l2 /\ List.filter f l1 = m1 /\ List.filter f l2 = m2.
Proof.
  revert m1. induction l as [|x l IH]; intros m1 H; simpl in H.
  - now destruct m1.
  - destruct (f x) eqn:E.
    + destruct m1 as [|b m1]; simpl in H; injection H as -> H.
      * exists [], l. simpl. auto.
      * destruct (IH _ H) as (l1 & l2 & -> & H1 & H2).
        exists (b :: l1), l2. simpl. rewrite E, H1. auto.
    + destruct (IH _ H) as (l1 & l2 & -> & H1 & H2).
      exists (x :: l1), l2. simpl. rewrite E. auto.
Qed.

Lemma occurs_before_filter (f : A -> bool) a b l :
  f a = true -> f b = true ->
  occurs_before a b l <-> occurs_before a b (List.filter f l).
Proof.
  intros Ha Hb. split.
  - intros (l1 & l2 & l3 & ->).
    exists (List.filter f l1), (List.filter f l2), (List.filter f l3).
    rewrite List.filter_app. simpl. rewrite Ha, List.filter_app. simpl.
    now rewrite Hb.
  - intros (m1 & m2 & m3 & H).
    apply filter_split in H as (l1 & r & -> & _ & H).
    apply filter_split in H as (l2 & l3 & -> & _ & _).
    now exists l1, l2, l3.
Qed.

(** Stability, element by element: two elements with equal keys stand in
    the sorted list as they stood in the input. *)
Lemma sort_reverse_stable a b l :
  key a = key b ->
  occurs_before a b l <-> occurs_before a b (Py.sort_reverse key l).
Proof.
  intros E.
  rewrite (occurs_before_filter (fun x => key x =? key a) a b l),
          (occurs_before_filter (fun x => key x =? key a) a b (Py.sort_reverse key l)).
  - fold (with_key key (key a) l).
    fold (with_key key (key a) (Py.sort_reverse key l)).
    now rewrite sort_reverse_with_key.
  - apply Nat.eqb_refl.
  - rewrite <- E. apply Nat.eqb_refl.
  - apply Nat.eqb_refl.
  - rewrite <- E. apply Nat.eqb_refl.
Qed.

Lemma insert_desc_ext (key' : A -> nat) x l :
  key' x = key x -> (forall y, In y l -> key' y = key y) ->
  Py.insert_desc key' x l = Py.insert_desc key x l.
Proof.
  intros Hx. induction l as [|y l IH]; intros H; simpl; [reflexivity|].
  rewrite Hx, (H y) by now left.
  destruct (key y <=? key x); [reflexivity|].
  f_equal. apply IH. intros z Hz. apply H. now right.
Qed.

Lemma sort_reverse_ext (key' : A -> nat) l :
  (forall y, In y l -> key' y = key y) ->
  Py.sort_reverse key' l = Py.sort_reverse key l.
Proof.
  induction l as [|x l IH]; intros H; simpl; [reflexivity|].
  rewrite IH by (intros y Hy; apply H; now right).
  apply insert_desc_ext; [apply H; now left|].
  intros y Hy. apply H. right.
  eapply Permutation_in; [apply sort_reverse_perm | exact Hy].
Qed.

End Sort.

Lemma insert_desc_map {A B} (g : A -> B) (key : B -> nat) x l :
  Py.insert_desc key (g x) (map g l) = map g (Py.insert_desc (fun a => key (g a)) x l).
Proof.
  induction l as [|y l IH]; simpl; [reflexivity|].
  destruct (key (g y) <=? key (g x)); simpl; [reflexivity|]. now rewrite IH.
Qed.

Lemma sort_reverse_map {A B} (g : A -> B) (key : B -> nat) l :
  Py.sort_reverse key (map g l) = map g (Py.sort_reverse (fun a => key (g a)) l).
Proof.
  induction l as [|x l IH]; simpl; [reflexivity|].
  now rewrite IH, insert_desc_map.
Qed.

(** ** Strings *)

Lemma append_cons c s t : String c s +:+ t = String c (s +:+ t).
Proof. reflexivity. Qed.

Lemma append_empty t : EmptyString +:+ t = t.
Proof. reflexivity. Qed.

Lemma sapp_nil_r s : s +:+ EmptyString = s.
Proof. induction s as [|c s IH]; [reflexivity|]. now rewrite append_cons, IH. Qed.

Lemma sapp_assoc s t u : (s +:+ t) +:+ u = s +:+ t +:+ u.
Proof.
  induction s as [|c s IH]; [reflexivity|]. now rewrite !append_cons, IH.
Qed.

Lemma prefix_spec n h :
  String.prefix n h = true <-> exists post, h = n +:+ post.
Proof.
  revert h. induction n as [|a n IH]; intros h; simpl.
  - destruct h; split; eauto.
  - destruct h as [|b h]; simpl.
    + split; [discriminate | intros [post H]; discriminate].
    + destruct (ascii_dec a b) as [->|Hne].
      * rewrite IH. split; intros [post H]; exists post;
          rewrite append_cons in *; congruence.
      * split; [discriminate|].
        intros [post H]. rewrite append_cons in H. congruence.
Qed.

Lemma str_in_unfold n h :
  Py.str_in n h
  = String.prefix n h ||
    match h with EmptyString => false | String _ h' => Py.str_in n h' end.
Proof. destruct h; reflexivity. Qed.

Lemma str_in_spec n h :
  Py.str_in n h = true <-> exists pre post, h = pre +:+ n +:+ post.
Proof.
  induction h as [|c h IH]; rewrite str_in_unfold.
  - rewrite orb_false_r, prefix_spec. split.
    + intros [post H]. now exists EmptyString, post.
    + intros ([|? ?] & post & H); [now exists post | discriminate].
  - rewrite orb_true_iff, prefix_spec, IH. split.
    + intros [[post H] | (pre & post & ->)].
      * now exists EmptyString, post.
      * now exists (String c pre), post.
    + intros ([|c' pre] & post & H).
      * left. now exists post.
      * right. rewrite append_cons in H. injection H as _ ->. now exists pre, post.
Qed.

Lemma str_in_empty_text n : Py.str_in n EmptyString = true <-> n = EmptyString.
Proof.
  rewrite str_in_unfold, orb_false_r. destruct n; simpl; split; congruence.
Qed.

Lemma lower_empty {U : Py.Unicode} k : Py.lower k = EmptyString <-> k = EmptyString.
Proof.
  split; [apply Py.lower_nonempty | intros ->].
  now rewrite Py.lower_ascii_text.
Qed.

Lemma ascii_lower_app s t :
  Py.ascii_lower (s +:+ t) = Py.ascii_lower s +:+ Py.ascii_lower t.
Proof.
  induction s as [|c s IH]; [reflexivity|].
  rewrite append_cons. simpl. now rewrite IH, append_cons.
Qed.

Lemma is_ascii_app s t : Py.is_ascii (s +:+ t) = Py.is_ascii s && Py.is_ascii t.
Proof.
  induction s as [|c s IH]; [reflexivity|].
  rewrite append_cons. simpl. now rewrite IH, andb_assoc.
Qed.


Lemma nat_of_lower_ascii c :
  nat_of_ascii (Py.lower_ascii c)
  = if (65 <=? nat_of_ascii c) && (nat_of_ascii c <=? 90)
    then nat_of_ascii c + 32 else nat_of_ascii c.
Proof.
  unfold Py.lower_ascii.
  destruct ((65 <=? nat_of_ascii c) && (nat_of_ascii c <=? 90)) eqn:E; [|reflexivity].
  apply andb_prop in E as [_ E]. apply Nat.leb_le in E.
  apply nat_ascii_embedding. lia.
Qed.

Lemma same_letter_spec a b :
  same_letter a b = true <-> Py.lower_ascii a = Py.lower_ascii b.
Proof.
  assert (E : Py.lower_ascii a = Py.lower_ascii b
              <-> nat_of_ascii (Py.lower_ascii a) = nat_of_ascii (Py.lower_ascii b)).
  { split; [now intros -> | intros H].
    rewrite <- (ascii_nat_embedding (Py.lower_ascii a)), H.
    apply ascii_nat_embedding. }
  rewrite E, !nat_of_lower_ascii. unfold same_letter.
  destruct (Nat.eqb_spec (nat_of_ascii a) (nat_of_ascii b)),
           (Nat.leb_spec 65 (nat_of_ascii a)), (Nat.leb_spec (nat_of_ascii a) 90),
           (Nat.leb_spec 65 (nat_of_ascii b)), (Nat.leb_spec (nat_of_ascii b) 90),
           (Nat.eqb_spec (nat_of_ascii b) (nat_of_ascii a + 32)),
           (Nat.eqb_spec (nat_of_ascii a) (nat_of_ascii b + 32));
    simpl; split; intros; try reflexivity; try discriminate; lia.
Qed.

Lemma same_text_spec s t :
  same_text s t = true <-> Py.ascii_lower s = Py.ascii_lower t.
Proof.
  revert t. induction s as [|a s IH]; intros [|b t]; simpl;
    try (split; [reflexivity | reflexivity]); try (split; discriminate).
  rewrite andb_true_iff, same_letter_spec, IH. split.
  - now intros [-> ->].
  - intros H. now injection H.
Qed.

Lemma same_text_ascii s t :
  same_text s t = true -> Py.is_ascii s = true -> Py.is_ascii t = true.
Proof.
  revert t. induction s as [|a s IH]; intros [|b t]; simpl; try discriminate; [reflexivity|].
  intros H Ha. apply andb_prop in H as [Hl H]. apply andb_prop in Ha as [Ha Hs].
  rewrite (IH t H Hs), andb_true_r.
  apply Nat.ltb_lt in Ha. apply Nat.ltb_lt. unfold same_letter in Hl.
  destruct (Nat.eqb_spec (nat_of_ascii a) (nat_of_ascii b)),
           (Nat.leb_spec 65 (nat_of_ascii a)), (Nat.leb_spec (nat_of_ascii a) 90),
           (Nat.leb_spec 65 (nat_of_ascii b)), (Nat.leb_spec (nat_of_ascii b) 90),
           (Nat.eqb_spec (nat_of_ascii b) (nat_of_ascii a + 32)),
           (Nat.eqb_spec (nat_of_ascii a) (nat_of_ascii b + 32));
    simpl in Hl; try discriminate; lia.
Qed.


(** On ASCII texts every instance of the tables computes what
    [Py.ascii_only] computes: the closed examples, evaluated with it, hold
    for the tables of Python. *)
Lemma matches_ascii_any {U : Py.Unicode} text k :
  Py.is_ascii text = true -> Py.is_ascii k = true ->
  matches text k = matches (U := Py.ascii_only) text k.
Proof.
  intros Ht Hk. unfold matches.
  now rewrite (Py.lower_ascii_text text Ht), (Py.lower_ascii_text k Hk).
Qed.

Lemma in_list_spec x l : Py.in_list x l = true <-> In x l.
Proof.
  unfold Py.in_list. rewrite existsb_exists. split.
  - intros (y & Hy & E). apply String.eqb_eq in E. now subst.
  - intros H. exists x. split; [exact H | apply String.eqb_refl].
Qed.

Lemma in_list_false x l : Py.in_list x l = false <-> ~ In x l.
Proof. rewrite <- in_list_spec. now destruct (Py.in_list x l). Qed.

(** ** The keyword loop *)

Lemma count_keywords_from {U : Py.Unicode} text kws n :
  CVGenerator.count_keywords text kws n
  = n + length (List.filter (matches text) kws).
Proof.
  unfold CVGenerator.count_keywords. revert n.
  induction kws as [|k kws IH]; intros n; simpl; [lia|].
  rewrite IH. unfold matches at 2.
  destruct (Py.str_in (Py.lower k) (Py.lower text)); simpl; lia.
Qed.

Lemma count_keywords_ascii_any {U : Py.Unicode} text kws n :
  Py.is_ascii text = true -> Forall (fun k => Py.is_ascii k = true) kws ->
  CVGenerator.count_keywords text kws n
  = CVGenerator.count_keywords (U := Py.ascii_only) text kws n.
Proof.
  intros Ht Hk.
  rewrite (count_keywords_from (U := U)), (count_keywords_from (U := Py.ascii_only)).
  f_equal. f_equal.
  induction Hk as [|k kws Hk _ IH]; simpl; [reflexivity|].
  now rewrite (matches_ascii_any text k Ht Hk), IH.
Qed.

Lemma fold_left_append {A B} (g : A -> B) l acc :
  fold_left (fun acc x => acc ++ [g x]) l acc = acc ++ map g l.
Proof.
  revert acc. induction l as [|x l IH]; intros acc; simpl.
  - now rewrite app_nil_r.
  - rewrite IH, <- app_assoc. reflexivity.
Qed.

Lemma score_courses_map {U : Py.Unicode} kws cs :
  CVGenerator.score_courses kws cs = map (fun c => (c, course_score kws c)) cs.
Proof. unfold CVGenerator.score_courses. now rewrite fold_left_append. Qed.

Lemma prioritize_courses_sort {U : Py.Unicode} cv kws jt :
  CVGenerator._prioritize_courses cv kws jt
  = Py.sort_reverse (course_score kws) (courses cv).
Proof.
  unfold CVGenerator._prioritize_courses.
  rewrite score_courses_map, sort_reverse_map, map_map. simpl.
  apply map_id.
Qed.

Lemma prioritize_experience_map {U : Py.Unicode} cv kws jt :
  CVGenerator._prioritize_experience cv kws jt
  = map (CVGenerator.customize_experience jt) (work_experience cv).
Proof. unfold CVGenerator._prioritize_experience. now rewrite fold_left_append. Qed.

(** ** The heap during [_prioritize_projects] *)

Section HeapLoops.
Context {U : Py.Unicode}.
Import CVGenerator.

Lemma keyword_fold_lookup text kws l (h : heap) l' :
  fold_left (fun h' keyword =>
               if Py.str_in (Py.lower keyword) (Py.lower text)
               then alter incr_relevance_score l h' else h') kws h !! l'
  = if decide (l = l')
    then (fun o => set_relevance_score
                     (option_map (fun n => count_keywords text kws n) (relevance_score o)) o)
         <$> h !! l
    else h !! l'.
Proof.
  revert h. induction kws as [|k kws IH]; intros h; simpl.
  - destruct (decide (l = l')) as [->|]; [|reflexivity].
    now destruct (h !! l') as [[f [n|]]|].
  - rewrite IH. destruct (decide (l = l')) as [->|Hne].
    + destruct (Py.str_in (Py.lower k) (Py.lower text)) eqn:E.
      * rewrite lookup_alter_eq.
        destruct (h !! l') as [[f [n|]]|]; simpl; try reflexivity;
          unfold set_relevance_score, count_keywords; simpl; now rewrite E.
      * destruct (h !! l') as [[f [n|]]|]; simpl; try reflexivity;
          unfold set_relevance_score, count_keywords; simpl; now rewrite E.
    + destruct (Py.str_in (Py.lower k) (Py.lower text)); [|reflexivity].
      now rewrite lookup_alter_ne.
Qed.

Lemma score_project_lookup kws (h : heap) l l' :
  score_project kws h l !! l'
  = if decide (l = l') then scored kws <$> h !! l else h !! l'.
Proof.
  unfold score_project. destruct (h !! l) as [o|] eqn:Ho.
  - rewrite keyword_fold_lookup. destruct (decide (l = l')) as [->|Hne].
    + now rewrite lookup_insert_eq.
    + now rewrite lookup_insert_ne.
  - destruct (decide (l = l')) as [->|Hne]; [now rewrite Ho | reflexivity].
Qed.

Lemma delete_score_lookup (h : heap) l l' :
  delete_score h l !! l'
  = if decide (l = l') then set_relevance_score None <$> h !! l else h !! l'.
Proof.
  unfold delete_score. destruct (decide (l = l')) as [->|Hne].
  - apply lookup_alter_eq.
  - now apply lookup_alter_ne.
Qed.

(** A loop that applies an idempotent update [f] to the object of each
    location it visits. *)
Lemma fold_pointwise (step : heap -> loc -> heap) (f : ProjectObj -> ProjectObj) :
  (forall h a l, step h a !! l = if decide (a = l) then f <$> h !! a else h !! l) ->
  (forall o, f (f o) = f o) ->
  forall ls h l,
    fold_left step ls h !! l
    = if decide (l ∈ ls) then f <$> h !! l else h !! l.
Proof.
  intros Hstep Hidem. induction ls as [|a ls IH]; intros h l; simpl.
  - destruct (decide (l ∈ [])) as [Hin|]; [|reflexivity].
    now apply elem_of_nil in Hin.
  - rewrite IH, Hstep.
    destruct (decide (l ∈ a :: ls)) as [H1|H1], (decide (l ∈ ls)) as [H2|H2],
             (decide (a = l)) as [->|H3]; try reflexivity;
      try (destruct (h !! l); simpl; [now rewrite Hidem | reflexivity]);
      exfalso; rewrite elem_of_cons in H1; intuition congruence.
Qed.

Lemma score_projects_lookup kws (h : heap) ls l :
  score_projects kws h ls !! l
  = if decide (l ∈ ls) then scored kws <$> h !! l else h !! l.
Proof.
  unfold score_projects. apply fold_pointwise.
  - intros. apply score_project_lookup.
  - reflexivity.
Qed.

Lemma delete_scores_lookup (h : heap) ls l :
  delete_scores h ls !! l
  = if decide (l ∈ ls) then set_relevance_score None <$> h !! l else h !! l.
Proof.
  unfold delete_scores. apply fold_pointwise.
  - intros. apply delete_score_lookup.
  - reflexivity.
Qed.

Lemma getattr_after_scoring kws (h : heap) ls l :
  In l ls ->
  getattr_relevance_score (score_projects kws h ls) l = project_score h kws l.
Proof.
  intros Hin. unfold getattr_relevance_score, project_score.
  rewrite score_projects_lookup, decide_True by now apply list_elem_of_In.
  now destruct (h !! l).
Qed.

Lemma prioritize_projects_sort cv kws jt (h : heap) :
  snd (_prioritize_projects cv kws jt h)
  = Py.sort_reverse (project_score h kws) (projects cv).
Proof.
  unfold _prioritize_projects. simpl.
  apply sort_reverse_ext. intros l Hl. now apply getattr_after_scoring.
Qed.

Lemma prioritize_projects_heap cv kws jt (h : heap) l :
  fst (_prioritize_projects cv kws jt h) !! l
  = if decide (l ∈ projects cv)
    then set_relevance_score None <$> h !! l else h !! l.
Proof.
  unfold _prioritize_projects. simpl.
  rewrite delete_scores_lookup, score_projects_lookup.
  destruct (decide (l ∈ projects cv)) as [Hin|Hnin].
  - rewrite decide_True.
    + now destruct (h !! l).
    + apply list_elem_of_In. apply list_elem_of_In in Hin.
      eapply Permutation_in; [symmetry; apply sort_reverse_perm | exact Hin].
  - rewrite decide_False; [reflexivity|].
    intros Hin. apply Hnin, list_elem_of_In. apply list_elem_of_In in Hin.
    eapply Permutation_in; [apply sort_reverse_perm | exact Hin].
Qed.

Lemma prioritize_projects_fields cv kws jt (h : heap) l :
  fields <$> fst (_prioritize_projects cv kws jt h) !! l = fields <$> h !! l.
Proof.
  rewrite prioritize_projects_heap.
  destruct (decide (l ∈ projects cv)); [|reflexivity]. now destruct (h !! l).
Qed.

Lemma project_score_fields (h h' : heap) kws :
  (forall l, fields <$> h' !! l = fields <$> h !! l) ->
  forall l, project_score h' kws l = project_score h kws l.
Proof.
  intros H l. unfold project_score. specialize (H l).
  destruct (h' !! l), (h !! l); simpl in H; try discriminate; [|reflexivity].
  now injection H as ->.
Qed.

Lemma prioritize_projects_restore cv kws jt (h : heap) :
  no_scores h (projects cv) ->
  fst (_prioritize_projects cv kws jt h) = h.
Proof.
  intros Hno. apply map_eq. intros l. rewrite prioritize_projects_heap.
  destruct (decide (l ∈ projects cv)) as [Hin|]; [|reflexivity].
  destruct (h !! l) as [o|] eqn:Ho; [|reflexivity]. simpl.
  apply list_elem_of_In in Hin. specialize (Hno l o Hin Ho).
  destruct o as [f s]. simpl in Hno. now subst.
Qed.

Lemma prioritize_projects_again cv kws jt (h : heap) :
  fst (_prioritize_projects cv kws jt (fst (_prioritize_projects cv kws jt h)))
  = fst (_prioritize_projects cv kws jt h).
Proof.
  apply map_eq. intros l. rewrite !prioritize_projects_heap.
  destruct (decide (l ∈ projects cv)); [|reflexivity]. now destruct (h !! l).
Qed.

End HeapLoops.

(** ** Dictionaries *)

Section Dict.
Context {V : Type}.
Implicit Types (d : Py.dict V) (k : string) (v : V).

Lemma dict_get_app k d1 d2 :
  Py.dict_get k (d1 ++ d2)
  = match Py.dict_get k d1 with Some v => Some v | None => Py.dict_get k d2 end.
Proof.
  induction d1 as [|[k' v'] d1 IH]; simpl; [reflexivity|].
  now destruct (String.eqb k k').
Qed.

Lemma dict_get_None k d : Py.dict_get k d = None <-> ~ In k (Py.dict_keys d).
Proof.
  induction d as [|[k' v'] d IH]; simpl; [tauto|].
  destruct (String.eqb_spec k k') as [->|Hne].
  - split; [discriminate | intros H; exfalso; apply H; now left].
  - rewrite IH. split; [intros H [E|Hin]; congruence | tauto].
Qed.

Lemma dict_get_In k v d :
  List.NoDup (Py.dict_keys d) -> (Py.dict_get k d = Some v <-> In (k, v) d).
Proof.
  induction d as [|[k' v'] d IH]; simpl; intros Hnd.
  - split; [discriminate | tauto].
  - inversion Hnd as [|? ? Hk Hnd']; subst.
    destruct (String.eqb_spec k k') as [->|Hne].
    + split.
      * intros [= ->]. now left.
      * intros [[= ->]|Hin]; [reflexivity|].
        exfalso. apply Hk. change k' with (fst (k', v)). now apply in_map.
    + rewrite IH by assumption. split; [tauto|].
      intros [[= -> ->]|Hin]; [congruence | exact Hin].
Qed.

Lemma dict_set_fresh k v d :
  Py.dict_get k d = None -> Py.dict_set k v d = d ++ [(k, v)].
Proof.
  induction d as [|[k' v'] d IH]; simpl; [reflexivity|].
  destruct (String.eqb k k'); [discriminate|]. intros H. now rewrite IH.
Qed.

Lemma dict_get_filter (p : string -> bool) k d :
  Py.dict_get k (List.filter (fun kv => p (fst kv)) d)
  = if p k then Py.dict_get k d else None.
Proof.
  induction d as [|[k' v'] d IH]; simpl; [now destruct (p k)|].
  destruct (p k') eqn:Ep; simpl; destruct (String.eqb_spec k k') as [->|Hne];
    rewrite ?IH; try reflexivity.
  - now rewrite Ep.
  - now rewrite Ep.
Qed.

(** Two dictionaries with the same lookups hold the same items. *)
Lemma dict_ext_perm d1 d2 :
  List.NoDup (Py.dict_keys d1) -> List.NoDup (Py.dict_keys d2) ->
  (forall k, Py.dict_get k d1 = Py.dict_get k d2) ->
  Permutation d1 d2.
Proof.
  intros H1 H2 E. apply Permutation.NoDup_Permutation.
  - eapply List.NoDup_map_inv, H1.
  - eapply List.NoDup_map_inv, H2.
  - intros [k v]. rewrite <- !dict_get_In by assumption. now rewrite E.
Qed.

End Dict.

(** ** The two loops of [_prioritize_skills] *)

Section Skills.
Context {U : Py.Unicode}.
Import CVGenerator.
Implicit Types (skills acc : Py.dict (list string)) (prio : list string).

Lemma dict_get_prioritized skills prio k :
  Py.dict_get k (prioritized skills prio)
  = if Py.in_list k prio then Py.dict_get k skills else None.
Proof.
  unfold prioritized, Py.in_list.
  induction prio as [|c prio IH]; simpl; [reflexivity|].
  rewrite dict_get_app, IH.
  destruct (String.eqb_spec k c) as [->|Hne]; simpl.
  - destruct (Py.dict_get c skills) as [v|] eqn:E; simpl.
    + now rewrite String.eqb_refl.
    + now destruct (existsb (String.eqb c) prio).
  - destruct (Py.dict_get c skills) as [v|]; simpl; [|reflexivity].
    now rewrite (proj2 (String.eqb_neq k c) Hne).
Qed.

Lemma prioritized_ext skills skills' prio :
  (forall c, In c prio -> Py.dict_get c skills = Py.dict_get c skills') ->
  prioritized skills prio = prioritized skills' prio.
Proof.
  intros H. unfold prioritized. induction prio as [|c prio IH]; simpl; [reflexivity|].
  rewrite H by now left. f_equal. apply IH. intros c' Hc'. apply H. now right.
Qed.

Lemma prioritized_keys skills :
  List.NoDup (Py.dict_keys skills) ->
  prioritized skills (Py.dict_keys skills) = skills.
Proof.
  induction skills as [|[k v] skills IH]; intros Hnd; [reflexivity|].
  inversion Hnd as [|? ? Hk Hnd']; subst.
  unfold prioritized. simpl. rewrite String.eqb_refl. simpl. f_equal.
  rewrite <- IH at 2 by assumption.
  apply (prioritized_ext ((k, v) :: skills) skills).
  intros c Hc. simpl. destruct (String.eqb_spec c k) as [->|]; [contradiction | reflexivity].
Qed.

Lemma prioritized_dict_keys skills prio :
  Py.dict_keys (prioritized skills prio)
  = List.filter (fun c => Py.dict_contains c skills) prio.
Proof.
  unfold prioritized, Py.dict_keys, Py.dict_contains.
  induction prio as [|c prio IH]; simpl; [reflexivity|].
  rewrite map_app, IH. now destruct (Py.dict_get c skills).
Qed.

Lemma first_loop skills prio acc :
  List.NoDup prio ->
  (forall c, In c prio -> Py.dict_get c acc = None) ->
  fold_left (add_prioritized skills) prio acc = acc ++ prioritized skills prio.
Proof.
  intros Hnd. revert acc. induction Hnd as [|c prio Hc Hnd IH]; intros acc Hacc; simpl.
  - now rewrite app_nil_r.
  - unfold add_prioritized at 2.
    destruct (Py.dict_get c skills) as [v|] eqn:E.
    + rewrite dict_set_fresh by (apply Hacc; now left).
      rewrite IH.
      * now rewrite <- app_assoc.
      * intros c' Hc'. rewrite dict_get_app, Hacc by now right. simpl.
        destruct (String.eqb_spec c' c) as [->|]; [contradiction | reflexivity].
    + now rewrite IH by (intros c' Hc'; apply Hacc; now right).
Qed.

Lemma second_loop skills acc :
  List.NoDup (Py.dict_keys skills) ->
  fold_left add_remaining skills acc
  = acc ++ List.filter (fun kv => negb (Py.dict_contains (fst kv) acc)) skills.
Proof.
  revert acc. induction skills as [|[k v] skills IH]; intros acc Hnd; simpl.
  - now rewrite app_nil_r.
  - inversion Hnd as [|? ? Hk Hnd']; subst.
    unfold add_remaining at 2. simpl.
    destruct (Py.dict_contains k acc) eqn:E; simpl.
    + now apply IH.
    + unfold Py.dict_contains in E.
      destruct (Py.dict_get k acc) eqn:G; [discriminate|].
      rewrite dict_set_fresh, IH, <- app_assoc by assumption. simpl.
      do 2 f_equal. apply List.filter_ext_in. intros [k' v'] Hin. simpl.
      unfold Py.dict_contains. rewrite dict_get_app. simpl.
      destruct (String.eqb_spec k' k) as [->|]; [|now destruct (Py.dict_get k' acc)].
      exfalso. apply Hk. change k with (fst (k, v')). now apply in_map.
Qed.

Lemma priority_order_NoDup skills jt :
  List.NoDup (Py.dict_keys skills) -> List.NoDup (priority_order skills jt).
Proof.
  intros Hnd. unfold priority_order.
  destruct (Py.in_list _ data_titles).
  - unfold data_priority. repeat constructor; simpl; intuition discriminate.
  - destruct (Py.in_list _ developer_titles); [|exact Hnd].
    unfold developer_priority. repeat constructor; simpl; intuition discriminate.
Qed.

(** The result of [_prioritize_skills]: the named categories the profile
    has, in priority order, then the others in the profile's order. *)
Lemma prioritize_skills_split cv kws jt :
  List.NoDup (Py.dict_keys (skills cv)) ->
  _prioritize_skills cv kws jt
  = prioritized (skills cv) (priority_order (skills cv) jt)
    ++ unnamed (priority_order (skills cv) jt) (skills cv).
Proof.
  intros Hnd. unfold _prioritize_skills.
  rewrite first_loop by (auto using priority_order_NoDup).
  rewrite second_loop by assumption. simpl. f_equal.
  unfold unnamed. apply List.filter_ext_in. intros [k v] Hin. simpl.
  unfold Py.dict_contains. rewrite dict_get_prioritized.
  destruct (Py.in_list k _); [|reflexivity].
  apply (dict_get_In k v) in Hin; [|assumption]. now rewrite Hin.
Qed.

Lemma unnamed_keys skills : unnamed (Py.dict_keys skills) skills = [].
Proof.
  unfold unnamed.
  rewrite (List.filter_ext_in _ (fun _ => false)); [now induction skills|].
  intros [k v] Hin. simpl. apply negb_false_iff, in_list_spec.
  change k with (fst (k, v)). now apply in_map.
Qed.

End Skills.

(** ** Reordering of projects and courses *)

(** C1. The projects list and the courses list returned by the customizer
    are in descending order of relevance score against the job keywords, and
    elements of equal score keep the relative order of the input: for every
    score the elements with that score form the same sequence before and
    after, and an occurrence of [a] stands before an occurrence of [b] of the
    same score in the output exactly when it does in the input. *)
Theorem prioritize_sorted_stable {U : Py.Unicode} cv kws jt (h : heap) :
  let ps := snd (CVGenerator._prioritize_projects cv kws jt h) in
  let cs := CVGenerator._prioritize_courses cv kws jt in
  descending (project_score h kws) ps
  /\ (forall s, with_key (project_score h kws) s ps
                = with_key (project_score h kws) s (projects cv))
  /\ (forall a b, project_score h kws a = project_score h kws b ->
                  (occurs_before a b (projects cv) <-> occurs_before a b ps))
  /\ descending (course_score kws) cs
  /\ (forall s, with_key (course_score kws) s cs
                = with_key (course_score kws) s (courses cv))
  /\ (forall a b, course_score kws a = course_score kws b ->
                  (occurs_before a b (courses cv) <-> occurs_before a b cs)).
Proof.
  intros ps cs. subst ps cs.
  rewrite prioritize_projects_sort, prioritize_courses_sort.
  repeat split.
  - apply sort_reverse_descending.
  - intros s. apply sort_reverse_with_key.
  - now apply sort_reverse_stable.
  - now apply sort_reverse_stable.
  - apply sort_reverse_descending.
  - intros s. apply sort_reverse_with_key.
  - now apply sort_reverse_stable.
  - now apply sort_reverse_stable.
Qed.

(** Two projects of the built-in profile both score 1 against "python":
    the first stays first.  Two of its courses score 0 against "sql": the
    Excel course stays before the Python course. *)
Lemma prioritize_sorted_stable_witness :
  occurs_before 0 1
    (snd (CVGenerator._prioritize_projects DefaultData.default_data ["python"]
            "Data Analyst" DefaultData.default_heap))
  /\ occurs_before
       "Microsoft Excel - PowerQuery | VBA"
       "Data Manipulation in Python: Master Python, Numpy & Pandas"
       (CVGenerator._prioritize_courses DefaultData.default_data ["sql"] "Data Analyst").
Proof.
  split.
  - apply (prioritize_sorted_stable DefaultData.default_data ["python"]
             "Data Analyst" DefaultData.default_heap).
    + vm_compute. reflexivity.
    + exists [], [], []. reflexivity.
  - apply (prioritize_sorted_stable DefaultData.default_data ["sql"]
             "Data Analyst" DefaultData.default_heap).
    + vm_compute. reflexivity.
    + exists [], ["The Complete SQL Bootcamp 2022: Go from Zero to Hero"],
             ["Power BI: Basics | Desktop | Advanced | Data Modeling"].
      reflexivity.
Defined.

(** C10. The projects list and the courses list of the output are
    permutations of the input lists, of the same length; the projects are
    the same references, and behind them the same field values. *)
Theorem prioritize_permutation {U : Py.Unicode} cv kws jt (h : heap) :
  let r := CVGenerator._prioritize_projects cv kws jt h in
  let cs := CVGenerator._prioritize_courses cv kws jt in
  Permutation (snd r) (projects cv)
  /\ length (snd r) = length (projects cv)
  /\ Permutation (map (fun l => fields <$> fst r !! l) (snd r))
                 (map (fun l => fields <$> h !! l) (projects cv))
  /\ Permutation cs (courses cv)
  /\ length cs = length (courses cv).
Proof.
  intros r cs. subst r cs.
  assert (Hp : Permutation (snd (CVGenerator._prioritize_projects cv kws jt h))
                           (projects cv)).
  { rewrite prioritize_projects_sort. apply sort_reverse_perm. }
  assert (Hc : Permutation (CVGenerator._prioritize_courses cv kws jt) (courses cv)).
  { rewrite prioritize_courses_sort. apply sort_reverse_perm. }
  repeat split.
  - exact Hp.
  - now apply Permutation_length.
  - rewrite (map_ext _ (fun l => fields <$> h !! l)).
    + now apply Permutation_map.
    + intros l. apply prioritize_projects_fields.
  - exact Hc.
  - now apply Permutation_length.
Qed.

(** ** The relevance score *)




(** C5, where it fails: the empty keyword occurs in the empty text, so a
    non-empty keyword list can score 1 against the empty text. *)
Lemma empty_keyword_matches_empty_text :
  ~ (forall K : list string, K <> [] -> CVGenerator.count_keywords "" K 0 = 0).
Proof.
  intros H. specialize (H [EmptyString]).
  assert (E : [EmptyString] <> @nil string) by discriminate.
  apply H in E. discriminate E.
Qed.

(** C5, amended. Every text scores 0 against the empty keyword list, and the
    empty text scores 0 against every keyword list that does not contain the
    empty keyword. *)
Theorem score_edge_cases {U : Py.Unicode} text K :
  ~ In EmptyString K ->
  CVGenerator.count_keywords text [] 0 = 0
  /\ CVGenerator.count_keywords "" K 0 = 0.
Proof.
  intros Hne. split; [reflexivity|].
  rewrite count_keywords_from. simpl.
  induction K as [|k K IH]; simpl; [reflexivity|].
  unfold matches at 1. rewrite (proj2 (lower_empty EmptyString) eq_refl).
  destruct (Py.str_in (Py.lower k) EmptyString) eqn:E.
  - apply (proj1 (str_in_empty_text _)) in E. apply (proj1 (lower_empty k)) in E.
    exfalso. apply Hne. left. exact E.
  - apply IH. intros Hin. apply Hne. now right.
Qed.

Lemma score_edge_cases_witness :
  CVGenerator.count_keywords "SQL Bootcamp" [] 0 = 0
  /\ CVGenerator.count_keywords "" ["sql"; "Python"] 0 = 0.
Proof.
  apply (score_edge_cases "SQL Bootcamp" ["sql"; "Python"]).
  simpl. intuition discriminate.
Defined.

(** ** The source profile across a call *)

Lemma customize_fst {U : Py.Unicode} cv kws jt (h : heap) :
  fst (CVGenerator.customize_for_job cv kws jt h)
  = fst (CVGenerator._prioritize_projects cv kws jt h).
Proof.
  unfold CVGenerator.customize_for_job.
  now destruct (CVGenerator._prioritize_projects cv kws jt h).
Qed.

Lemma customize_snd {U : Py.Unicode} cv kws jt (h : heap) :
  snd (CVGenerator.customize_for_job cv kws jt h)
  = {| personal_info := personal_info cv;
       summary := CVGenerator._customize_summary cv kws jt;
       work_experience := CVGenerator._prioritize_experience cv kws jt;
       projects := snd (CVGenerator._prioritize_projects cv kws jt h);
       education := education cv;
       skills := CVGenerator._prioritize_skills cv kws jt;
       courses := CVGenerator._prioritize_courses cv kws jt;
       languages := languages cv;
       additional := additional cv |}.
Proof.
  unfold CVGenerator.customize_for_job.
  now destruct (CVGenerator._prioritize_projects cv kws jt h).
Qed.

Lemma customize_heaps {U : Py.Unicode} cv kws jt (h : heap) :
  CVGenerator.customize_for_job_heaps cv kws jt h
  = [h; CVGenerator.score_projects kws h (projects cv);
     fst (CVGenerator.customize_for_job cv kws jt h)].
Proof. now rewrite customize_fst. Qed.

(** C2, where it fails: on the built-in profile with the keyword "python",
    the call passes through a heap that is not the initial one: after the
    scoring loop the profile's first project carries [relevance_score] 1. *)
Lemma source_project_scored_during_call :
  no_scores DefaultData.default_heap (projects DefaultData.default_data)
  /\ ~ Forall (fun h' : heap => h' = DefaultData.default_heap)
         (CVGenerator.customize_for_job_heaps DefaultData.default_data
            ["python"] "Data Analyst" DefaultData.default_heap).
Proof.
  split.
  - intros l o Hin Ho. simpl in Hin.
    destruct Hin as [<-|[<-|[]]]; vm_compute in Ho; now injection Ho as <-.
  - intros H. rewrite customize_heaps in H.
    inversion H as [|? ? _ H1]; subst. inversion H1 as [|? ? E _]; subst.
    apply (f_equal (fun m : heap => relevance_score <$> m !! 0)) in E.
    vm_compute in E. discriminate E.
Qed.

(** C2, amended. When no project of the profile carries a relevance score
    on entry, the heap [customize_for_job] returns is the heap it was given:
    after the call the source profile and each of its [Project] instances are
    as before, with no extra attribute.  In between, the fields of every
    object are unchanged in each heap the call passes through; the relevance
    score, however, is attached to the profile's own objects by the scoring
    loop and deleted again before returning. *)
Theorem customize_restores_profile {U : Py.Unicode} cv kws jt (h : heap) :
  no_scores h (projects cv) ->
  fst (CVGenerator.customize_for_job cv kws jt h) = h
  /\ Forall (fun h' : heap => forall l, fields <$> h' !! l = fields <$> h !! l)
            (CVGenerator.customize_for_job_heaps cv kws jt h)
  /\ no_scores (fst (CVGenerator.customize_for_job cv kws jt h)) (projects cv).
Proof.
  intros Hno.
  assert (E : fst (CVGenerator.customize_for_job cv kws jt h) = h).
  { rewrite customize_fst. now apply prioritize_projects_restore. }
  split; [exact E|]. split; [|now rewrite E].
  rewrite customize_heaps, E. repeat constructor.
  intros l. rewrite score_projects_lookup.
  destruct (decide (l ∈ projects cv)); [|reflexivity]. now destruct (h !! l).
Qed.

Lemma customize_restores_profile_witness :
  fst (CVGenerator.customize_for_job DefaultData.default_data
         ["python"; "sql"] "Data Analyst" DefaultData.default_heap)
  = DefaultData.default_heap.
Proof.
  apply (customize_restores_profile DefaultData.default_data
           ["python"; "sql"] "Data Analyst" DefaultData.default_heap).
  intros l o Hin Ho. simpl in Hin.
  destruct Hin as [<-|[<-|[]]]; vm_compute in Ho; now injection Ho as <-.
Defined.

(** C7. A second call of [customize_for_job] with the same profile, job
    title and keywords, made on the heap the first call left, returns the
    same customized profile as the first, leaves the same heap, and the
    projects behind its references are equal to those of the first result. *)
Theorem customize_deterministic {U : Py.Unicode} cv kws jt (h : heap) :
  let r1 := CVGenerator.customize_for_job cv kws jt h in
  let r2 := CVGenerator.customize_for_job cv kws jt (fst r1) in
  snd r2 = snd r1
  /\ fst r2 = fst r1
  /\ CVGenerator.deref_projects (fst r2) (projects (snd r2))
     = CVGenerator.deref_projects (fst r1) (projects (snd r1)).
Proof.
  intros r1 r2. subst r1 r2.
  assert (Es : snd (CVGenerator.customize_for_job cv kws jt
                      (fst (CVGenerator.customize_for_job cv kws jt h)))
               = snd (CVGenerator.customize_for_job cv kws jt h)).
  { rewrite !customize_snd, customize_fst. f_equal.
    rewrite !prioritize_projects_sort. apply sort_reverse_ext.
    intros l _. apply project_score_fields.
    intros l'. apply prioritize_projects_fields. }
  assert (Eh : fst (CVGenerator.customize_for_job cv kws jt
                      (fst (CVGenerator.customize_for_job cv kws jt h)))
               = fst (CVGenerator.customize_for_job cv kws jt h)).
  { rewrite !customize_fst. apply prioritize_projects_again. }
  split; [exact Es|]. split; [exact Eh|]. now rewrite Es, Eh.
Qed.

(** ** Job-title categories *)

Lemma not_category x :
  ~ In x CVGenerator.category_titles ->
  Py.in_list x CVGenerator.data_titles = false
  /\ Py.in_list x CVGenerator.developer_titles_summary = false
  /\ Py.in_list x CVGenerator.business_titles = false
  /\ Py.in_list x CVGenerator.developer_titles = false.
Proof.
  intros H. rewrite !in_list_false. simpl in *. tauto.
Qed.

Lemma developer_titles_agree x :
  x <> "backend developer" ->
  Py.in_list x CVGenerator.developer_titles
  = Py.in_list x CVGenerator.developer_titles_summary.
Proof.
  intros H. unfold Py.in_list. simpl.
  now rewrite (proj2 (String.eqb_neq x "backend developer") H).
Qed.

Lemma customize_experience_default {U : Py.Unicode} jt exp :
  Py.in_list (Py.lower jt) CVGenerator.data_titles = false ->
  Py.in_list (Py.lower jt) CVGenerator.developer_titles = false ->
  CVGenerator.customize_experience jt exp = exp.
Proof.
  intros H1 H2. unfold CVGenerator.customize_experience. rewrite H1, H2.
  now destruct exp.
Qed.

Lemma prioritize_skills_default {U : Py.Unicode} cv kws jt :
  List.NoDup (Py.dict_keys (skills cv)) ->
  ~ In (Py.lower jt) CVGenerator.category_titles ->
  CVGenerator._prioritize_skills cv kws jt = skills cv.
Proof.
  intros Hnd Hcat. apply not_category in Hcat as (Hd & _ & _ & Hp).
  rewrite prioritize_skills_split by assumption.
  unfold CVGenerator.priority_order. rewrite Hd, Hp.
  now rewrite prioritized_keys, unnamed_keys, app_nil_r.
Qed.

(** C3, where it fails: "Business Analyst" is a category of summary
    selection (the summary is replaced by the business summary), but the
    responsibilities are not replaced by a list fixed by the category: the
    two entries of the built-in profile keep their own, different lists. *)
Lemma business_analyst_keeps_responsibilities :
  ~ (forall jt, In (Py.lower jt) CVGenerator.category_titles ->
       exists fixed, forall cv kws,
         Forall (fun e => we_responsibilities e = fixed)
                (CVGenerator._prioritize_experience cv kws jt)).
Proof.
  intros H. destruct (H "Business Analyst") as [fixed Hf].
  - vm_compute. tauto.
  - specialize (Hf DefaultData.default_data []).
    rewrite prioritize_experience_map in Hf. simpl in Hf.
    inversion Hf as [|? ? E1 Hf']; subst. inversion Hf' as [|? ? E2 _]; subst.
    rewrite !customize_experience_default in E2 by reflexivity.
    discriminate E2.
Qed.

(** C3, amended. Responsibility substitution follows the data category and
    the developer category of summary selection, the title "backend
    developer" set aside: every entry gets the fixed data list when the
    lower-cased job title is "data analyst", "data scientist" or "analytics",
    the fixed developer list when it is "python developer" or "software
    developer", and keeps its own responsibilities otherwise, in particular
    for "business analyst" and "business intelligence".  Title, company,
    period and technologies are copied, and the entries keep their order. *)
Theorem experience_substitution {U : Py.Unicode} cv kws jt :
  Py.lower jt <> "backend developer" ->
  CVGenerator._prioritize_experience cv kws jt
  = map (fun exp =>
           {| we_title := we_title exp;
              we_company := we_company exp;
              we_period := we_period exp;
              we_responsibilities :=
                if Py.in_list (Py.lower jt) CVGenerator.data_titles
                then CVGenerator.data_responsibilities
                else if Py.in_list (Py.lower jt) CVGenerator.developer_titles_summary
                then CVGenerator.developer_responsibilities
                else we_responsibilities exp;
              we_technologies := we_technologies exp |})
        (work_experience cv)
  /\ (In (Py.lower jt) CVGenerator.business_titles ->
      CVGenerator._prioritize_experience cv kws jt = work_experience cv).
Proof.
  intros Hb. rewrite prioritize_experience_map. split.
  - apply map_ext. intros exp. unfold CVGenerator.customize_experience.
    now rewrite developer_titles_agree.
  - intros Hin. rewrite <- (map_id (work_experience cv)) at 2.
    apply map_ext. intros exp. simpl in Hin.
    unfold CVGenerator.customize_experience.
    destruct Hin as [E|[E|[]]]; rewrite <- E; now destruct exp.
Qed.

Lemma experience_substitution_witness :
  CVGenerator._prioritize_experience DefaultData.default_data [] "Business Analyst"
  = work_experience DefaultData.default_data.
Proof.
  apply (experience_substitution DefaultData.default_data [] "Business Analyst").
  - discriminate.
  - vm_compute. tauto.
Defined.

(** C6. On a skills mapping (unique category names), [_prioritize_skills]
    returns a mapping with the same lookups: the same categories, each with
    its original skill list, none twice.  Its order is: the categories of the
    selected priority list that the profile has, in priority order, then the
    categories the list does not name, in their original order.  For a job
    title that is none of the category titles the result is the original
    mapping, order included. *)
Theorem skills_reordering {U : Py.Unicode} cv kws jt :
  List.NoDup (Py.dict_keys (skills cv)) ->
  let out := CVGenerator._prioritize_skills cv kws jt in
  let prio := CVGenerator.priority_order (skills cv) jt in
  (forall k, Py.dict_get k out = Py.dict_get k (skills cv))
  /\ List.NoDup (Py.dict_keys out)
  /\ Permutation out (skills cv)
  /\ out = prioritized (skills cv) prio ++ unnamed prio (skills cv)
  /\ (~ In (Py.lower jt) CVGenerator.category_titles -> out = skills cv).
Proof.
  intros Hnd out prio. subst out prio.
  set (prio := CVGenerator.priority_order (skills cv) jt).
  assert (Hsplit := prioritize_skills_split cv kws jt Hnd). fold prio in Hsplit.
  assert (Hget : forall k, Py.dict_get k (CVGenerator._prioritize_skills cv kws jt)
                           = Py.dict_get k (skills cv)).
  { intros k. rewrite Hsplit, dict_get_app, dict_get_prioritized. unfold unnamed.
    rewrite (dict_get_filter (fun c => negb (Py.in_list c prio))).
    destruct (Py.in_list k prio); simpl; [|reflexivity].
    now destruct (Py.dict_get k (skills cv)). }
  assert (Hout : List.NoDup (Py.dict_keys (CVGenerator._prioritize_skills cv kws jt))).
  { rewrite Hsplit. unfold Py.dict_keys at 1. rewrite map_app.
    fold (Py.dict_keys (prioritized (skills cv) prio)).
    rewrite prioritized_dict_keys. unfold unnamed.
    rewrite <- (List.filter_map_swap (fun c => negb (Py.in_list c prio)) fst).
    apply List.NoDup_app.
    - apply List.NoDup_filter. now apply priority_order_NoDup.
    - now apply List.NoDup_filter.
    - intros a Ha Hb. apply List.filter_In in Ha as [Ha _].
      apply List.filter_In in Hb as [_ Hb].
      apply in_list_spec in Ha. rewrite Ha in Hb. discriminate Hb. }
  split; [exact Hget|]. split; [exact Hout|].
  split; [now apply dict_ext_perm|]. split; [exact Hsplit|].
  intros Hcat. now apply prioritize_skills_default.
Qed.

Lemma skills_reordering_witness :
  Py.dict_keys (CVGenerator._prioritize_skills DefaultData.default_data [] "Data Analyst")
  = ["Data Analysis"; "Programming"; "Other"; "Tools & Technologies"]
  /\ CVGenerator._prioritize_skills DefaultData.default_data [] "Astronaut"
     = skills DefaultData.default_data.
Proof.
  assert (Hnd : List.NoDup (Py.dict_keys (skills DefaultData.default_data))).
  { repeat constructor; simpl; intuition discriminate. }
  split.
  - destruct (skills_reordering DefaultData.default_data [] "Data Analyst" Hnd)
      as (_ & _ & _ & -> & _).
    reflexivity.
  - apply (skills_reordering DefaultData.default_data [] "Astronaut" Hnd).
    simpl. intuition discriminate.
Defined.

(** C9. The job title is compared as a whole, after lower-casing, with the
    fixed category titles.  For a title that is none of them, "Senior Data
    Analyst" or "data analyst " with a trailing space included, summary
    selection returns the profile's summary, responsibility substitution
    returns the profile's entries, and skill reordering returns the profile's
    mapping in its order. *)
Theorem unmatched_title_defaults {U : Py.Unicode} cv kws jt :
  ~ In (Py.lower jt) CVGenerator.category_titles ->
  List.NoDup (Py.dict_keys (skills cv)) ->
  CVGenerator._customize_summary cv kws jt = summary cv
  /\ CVGenerator._prioritize_experience cv kws jt = work_experience cv
  /\ CVGenerator._prioritize_skills cv kws jt = skills cv.
Proof.
  intros Hcat Hnd. pose proof (not_category _ Hcat) as (Hd & Hs & Hb & Hp).
  split; [|split].
  - unfold CVGenerator._customize_summary. now rewrite Hd, Hs, Hb.
  - rewrite prioritize_experience_map.
    rewrite <- (map_id (work_experience cv)) at 2.
    apply map_ext. intros exp. now apply customize_experience_default.
  - now apply prioritize_skills_default.
Qed.

Lemma unmatched_title_defaults_witness :
  CVGenerator._customize_summary DefaultData.default_data ["sql"] "Senior Data Analyst"
  = summary DefaultData.default_data
  /\ CVGenerator._prioritize_experience DefaultData.default_data ["sql"] "Senior Data Analyst"
     = work_experience DefaultData.default_data
  /\ CVGenerator._prioritize_skills DefaultData.default_data ["sql"] "Senior Data Analyst"
     = skills DefaultData.default_data.
Proof.
  apply (unmatched_title_defaults DefaultData.default_data ["sql"] "Senior Data Analyst").
  - simpl. intuition discriminate.
  - repeat constructor; simpl; intuition discriminate.
Defined.

(** The title with a trailing space is no category title either. *)
Example trailing_space_unmatched :
  ~ In (Py.lower "data analyst ") CVGenerator.category_titles
  /\ CVGenerator._customize_summary DefaultData.default_data [] "data analyst "
     = summary DefaultData.default_data.
Proof. split; [simpl; intuition discriminate | reflexivity]. Qed.

(** ** Loading a persisted record *)

Section Loading.
Import CVManager.

Lemma bind_fails {A B} (r : result A) (k : A -> result B) :
  (forall a, r = Ok a -> exists e, k a = Raise e) ->
  exists e, bind r k = Raise e.
Proof. destruct r as [a|e]; simpl; eauto. Qed.

Lemma subscript_missing members key :
  Py.dict_get key members = None ->
  subscript (JObj members) key = Raise (KeyError key).
Proof. intros H. unfold subscript. now rewrite H. Qed.

Lemma dict_to_cv_data_missing members key :
  In key required_keys ->
  Py.dict_get key members = None ->
  exists e, _dict_to_cv_data (JObj members) = Raise e.
Proof.
  intros Hin Hk. apply subscript_missing in Hk. unfold _dict_to_cv_data.
  simpl in Hin.
  repeat (destruct Hin as [<-|Hin]; [
    repeat (apply bind_fails; let a := fresh "a" in let E := fresh "E" in
            intros a E; try (rewrite Hk in E; discriminate E)) |]).
  contradiction.
Qed.

(** C8. Loading a persisted record in which one of the nine required keys is
    missing raises: [_dict_to_cv_data] returns an error, so does
    [_load_or_create_data] for a file with that content, and neither
    returns a profile. *)
Theorem missing_key_is_fatal members key default_data :
  In key required_keys ->
  Py.dict_get key members = None ->
  (exists e, _dict_to_cv_data (JObj members) = Raise e)
  /\ (exists e, _load_or_create_data default_data (Some (Ok (JObj members))) = Raise e)
  /\ (forall cv, _dict_to_cv_data (JObj members) <> Ok cv)
  /\ (forall cv, _load_or_create_data default_data (Some (Ok (JObj members))) <> Ok cv).
Proof.
  intros Hin Hk.
  destruct (dict_to_cv_data_missing members key Hin Hk) as [e He].
  simpl. rewrite He. repeat split; eauto; discriminate.
Qed.

End Loading.

(** A record with all nine keys loads. *)
Example complete_record_loads :
  exists cv, CVManager._dict_to_cv_data (CVManager.JObj Records.complete_record)
             = CVManager.Ok cv.
Proof. eexists. reflexivity. Qed.

(** Without "additional" the load stops with [KeyError] on that key, after
    every other field has been read. *)
Lemma missing_key_is_fatal_witness :
  exists e, CVManager._dict_to_cv_data (CVManager.JObj Records.record_without_additional)
            = CVManager.Raise e.
Proof.
  apply (missing_key_is_fatal Records.record_without_additional "additional"
           {| CVManager.ld_personal_info := CVManager.mkInstance "PersonalInfo" [];
              CVManager.ld_summary := CVManager.JNull;
              CVManager.ld_work_experience := [];
              CVManager.ld_projects := [];
              CVManager.ld_education := [];
              CVManager.ld_skills := CVManager.JNull;
              CVManager.ld_courses := CVManager.JNull;
              CVManager.ld_languages := CVManager.JNull;
              CVManager.ld_additional := CVManager.JNull |}).
  - simpl. tauto.
  - reflexivity.
Defined.

Example missing_additional_is_key_error :
  CVManager._dict_to_cv_data (CVManager.JObj Records.record_without_additional)
  = CVManager.Raise (CVManager.KeyError "additional").
Proof. reflexivity. Qed.

(** ** The customizer on the built-in profile *)

(** Keywords "pandas" and "beautifulsoup": the second project scores 2, the
    first 0, and they swap. *)
Example projects_reordered :
  snd (CVGenerator._prioritize_projects DefaultData.default_data
         ["pandas"; "beautifulsoup"] "Astronaut" DefaultData.default_heap)
  = [1; 0].
Proof. vm_compute. reflexivity. Qed.

(** Keyword "sql": the SQL course moves to the front, the others keep their
    order. *)
Example courses_reordered :
  CVGenerator._prioritize_courses DefaultData.default_data ["sql"] "Astronaut"
  = ["The Complete SQL Bootcamp 2022: Go from Zero to Hero";
     "Microsoft Excel - PowerQuery | VBA";
     "Data Manipulation in Python: Master Python, Numpy & Pandas";
     "Power BI: Basics | Desktop | Advanced | Data Modeling"].
Proof. vm_compute. reflexivity. Qed.

(** The title "Backend Developer" selects the developer summary. *)
Example backend_developer_summary :
  CVGenerator._customize_summary DefaultData.default_data [] "Backend Developer"
  = CVGenerator.developer_summary.
Proof. reflexivity. Qed.

(** The score is case-insensitive. *)
Example score_case_insensitive :
  CVGenerator.count_keywords "Python" ["python"] 0 = 1.
Proof. reflexivity. Qed.

(** ** The story of [generate_pdf] *)

Section Story.
Import Pdf.

Lemma for_each_flat_map {A} (l : list A) (body : A -> list flowable) story :
  for_each l body story = story ++ flat_map body l.
Proof.
  unfold for_each. revert story.
  induction l as [|x l IH]; intros story; simpl.
  - now rewrite app_nil_r.
  - now rewrite IH, <- app_assoc.
Qed.

Lemma for_each_bullets (l : list string) :
  for_each l (fun t => [Paragraph t "BulletPoint"]) [] = bullets l.
Proof.
  rewrite for_each_flat_map. simpl. unfold bullets.
  induction l as [|x l IH]; simpl; [reflexivity | now rewrite IH].
Qed.

Lemma flat_map_map {A B C} (g : A -> B) (f : B -> list C) l :
  flat_map f (map g l) = flat_map (fun x => f (g x)) l.
Proof. induction l as [|x l IH]; simpl; [reflexivity | now rewrite IH]. Qed.

Lemma flat_map_live (h : heap) (f : Project -> list flowable) ps :
  flat_map (fun l => match h !! l with Some o => f (fields o) | None => [] end) ps
  = flat_map f (live_projects h ps).
Proof.
  unfold live_projects. induction ps as [|l ps IH]; simpl; [reflexivity|].
  rewrite List.flat_map_app, IH. destruct (h !! l); simpl; [|reflexivity].
  now rewrite app_nil_r.
Qed.

(** [generate_pdf] renders the data it is given, or the generator's own
    data when it is given none, and reads the shown fields only. *)
Lemma story_layout cv customized (h : heap) :
  generate_pdf cv customized h
  = story_of (shown_data h (match customized with Some d => d | None => cv end)).
Proof.
  unfold generate_pdf.
  set (d := match customized with Some d => d | None => cv end).
  rewrite !for_each_flat_map.
  unfold story_of, shown_data.
  cbn [sh_info sh_summary sh_experience sh_projects sh_skills sh_education
       sh_courses sh_languages sh_additional].
  rewrite !flat_map_map.
  rewrite <- (flat_map_live h (fun p => project_block (shown_project p))).
  rewrite (List.flat_map_ext
             (fun exp => [Paragraph (we_title exp) "JobTitle";
                          Paragraph (we_period exp) "Period"]
                         ++ for_each (we_responsibilities exp)
                              (fun r => [Paragraph r "BulletPoint"]) []
                         ++ [Spacer 10])
             (fun x => experience_block (shown_experience x)))
    by (intros e; now rewrite for_each_bullets).
  rewrite (List.flat_map_ext
             (fun project => match h !! project with
                             | Some o =>
                                 [Paragraph (name (fields o)) "JobTitle";
                                  Paragraph (description (fields o)) "BulletPoint"]
                                 ++ for_each (achievements (fields o))
                                      (fun a => [Paragraph a "BulletPoint"]) []
                                 ++ [Spacer 10]
                             | None => []
                             end)
             (fun l => match h !! l with
                       | Some o => project_block (shown_project (fields o))
                       | None => []
                       end))
    by (intros l; destruct (h !! l); [now rewrite for_each_bullets | reflexivity]).
  rewrite (List.flat_map_ext
             (fun edu => [Paragraph (degree edu) "JobTitle";
                          Paragraph (institution edu) "Company"]
                         ++ (if nonempty (details edu)
                             then [Paragraph (details edu) "BulletPoint"] else [])
                         ++ [Spacer 5])
             (fun x => education_block (shown_education x)))
    by reflexivity.
  fold skill_block.
  unfold courses_section, line_section, contact_block, shown_info, section_head, bullets.
  destruct (nonempty (pi_portfolio (personal_info d)));
    destruct (courses d) as [|c cs] eqn:Ec;
    destruct (languages d) as [|l0 ls];
    destruct (additional d) as [|a0 az];
    cbn [flat_map fst snd app];
    rewrite <- ?app_assoc; cbn [app]; rewrite ?app_nil_r;
    try reflexivity.
Qed.

End Story.

(** ** Reading a story by style *)

Section StoryTexts.
Import Pdf.
Implicit Types (s : string) (story : list flowable).

Lemma texts_app s story1 story2 :
  texts_with_style s (story1 ++ story2)
  = texts_with_style s story1 ++ texts_with_style s story2.
Proof. apply List.flat_map_app. Qed.

Lemma texts_paragraph s t st story :
  texts_with_style s (Paragraph t st :: story)
  = if_style st s [t] ++ texts_with_style s story.
Proof. reflexivity. Qed.

Lemma texts_spacer s n story :
  texts_with_style s (Spacer n :: story) = texts_with_style s story.
Proof. reflexivity. Qed.

Lemma texts_green s story :
  texts_with_style s (GreenLine :: story) = texts_with_style s story.
Proof. reflexivity. Qed.

Lemma texts_nil s : texts_with_style s [] = [].
Proof. reflexivity. Qed.

Lemma texts_flat_map {A} s (f : A -> list flowable) l :
  texts_with_style s (flat_map f l)
  = flat_map (fun x => texts_with_style s (f x)) l.
Proof.
  induction l as [|x l IH]; simpl; [reflexivity|]. now rewrite texts_app, IH.
Qed.

Lemma texts_bullets s l : texts_with_style s (bullets l) = if_style "BulletPoint" s l.
Proof.
  induction l as [|x l IH].
  - unfold if_style. now destruct (String.eqb "BulletPoint" s).
  - change (bullets (x :: l)) with (Paragraph x "BulletPoint" :: bullets l).
    rewrite texts_paragraph, IH. unfold if_style.
    now destruct (String.eqb "BulletPoint" s).
Qed.

Lemma if_style_nil st s : if_style st s [] = [].
Proof. unfold if_style. now destruct (String.eqb st s). Qed.

Lemma flat_map_nil {A B} (f : A -> list B) l :
  (forall x, f x = []) -> flat_map f l = [].
Proof.
  intros H. induction l as [|x l IH]; simpl; [reflexivity|]. now rewrite H, IH.
Qed.

Lemma flat_map_single {A B} (g : A -> B) l :
  flat_map (fun x => [g x]) l = map g l.
Proof. induction l as [|x l IH]; simpl; [reflexivity | now rewrite IH]. Qed.

Ltac read_story :=
  repeat first [ rewrite texts_app | rewrite texts_paragraph | rewrite texts_spacer
               | rewrite texts_green | rewrite texts_bullets | rewrite texts_nil ];
  rewrite ?app_nil_r, <- ?app_assoc.

Lemma texts_section_head s title :
  texts_with_style s (section_head title) = if_style "SectionHeader" s [title].
Proof. unfold section_head. read_story. reflexivity. Qed.

Lemma texts_contact s info :
  texts_with_style s (contact_block info)
  = match info with
    | [n; email; phone; location; portfolio] =>
        if_style "CVHeader" s [n]
        ++ if_style "ContactInfo" s
             ([email; phone; location]
              ++ if nonempty portfolio then [portfolio] else [])
    | _ => []
    end.
Proof.
  destruct info as [|n [|email [|phone [|location [|portfolio [|x info]]]]]];
    try reflexivity.
  unfold contact_block. destruct (nonempty portfolio); read_story;
    unfold if_style; destruct (String.eqb "ContactInfo" s);
    rewrite <- ?app_assoc; cbn [app]; reflexivity.
Qed.

Lemma texts_experience s e :
  texts_with_style s (experience_block e)
  = if_style "JobTitle" s [fst (fst e)] ++ if_style "Period" s [snd (fst e)]
    ++ if_style "BulletPoint" s (snd e).
Proof.
  destruct e as [[t p] r]. unfold experience_block. read_story. reflexivity.
Qed.

Lemma texts_project s p :
  texts_with_style s (project_block p)
  = if_style "JobTitle" s [fst (fst p)]
    ++ if_style "BulletPoint" s (snd (fst p) :: snd p).
Proof.
  destruct p as [[n d] a]. unfold project_block. read_story.
  unfold if_style. now destruct (String.eqb "BulletPoint" s).
Qed.

Lemma texts_skill s item :
  texts_with_style s (skill_block item)
  = if_style "JobTitle" s [fst item] ++ if_style "Skills" s [Py.join ", " (snd item)].
Proof. unfold skill_block. read_story. reflexivity. Qed.

Lemma texts_education s e :
  texts_with_style s (education_block e)
  = if_style "JobTitle" s [fst (fst e)] ++ if_style "Company" s [snd (fst e)]
    ++ if_style "BulletPoint" s (if nonempty (snd e) then [snd e] else []).
Proof.
  destruct e as [[d i] det]. unfold education_block.
  destruct (nonempty det) eqn:E; read_story; cbn [fst snd]; rewrite E;
    now rewrite ?if_style_nil, ?app_nil_r.
Qed.

Lemma texts_courses s cs :
  texts_with_style s (courses_section cs)
  = match cs with
    | [] => []
    | _ :: _ => if_style "SectionHeader" s ["Courses"] ++ if_style "BulletPoint" s cs
    end.
Proof.
  destruct cs; [reflexivity|]. unfold courses_section.
  now rewrite texts_app, texts_section_head, texts_bullets.
Qed.

Lemma texts_line_section s title items :
  texts_with_style s (line_section title items)
  = match items with
    | [] => []
    | _ :: _ => if_style "SectionHeader" s [title]
                ++ if_style "Skills" s [Py.join " | " items]
    end.
Proof.
  destruct items; [reflexivity|]. unfold line_section.
  rewrite texts_app, texts_section_head. read_story. reflexivity.
Qed.

(** The texts of one style in a story, part by part. *)
Lemma texts_story s v :
  texts_with_style s (story_of v)
  = texts_with_style s (contact_block (sh_info v))
    ++ if_style "SectionHeader" s ["Professional Summary"]
    ++ if_style "Summary" s [sh_summary v]
    ++ if_style "SectionHeader" s ["Work Experience"]
    ++ flat_map (fun e => texts_with_style s (experience_block e)) (sh_experience v)
    ++ if_style "SectionHeader" s ["Projects"]
    ++ flat_map (fun p => texts_with_style s (project_block p)) (sh_projects v)
    ++ if_style "SectionHeader" s ["Skills"]
    ++ flat_map (fun i => texts_with_style s (skill_block i)) (sh_skills v)
    ++ if_style "SectionHeader" s ["Education"]
    ++ flat_map (fun e => texts_with_style s (education_block e)) (sh_education v)
    ++ texts_with_style s (courses_section (sh_courses v))
    ++ texts_with_style s (line_section "Languages" (sh_languages v))
    ++ texts_with_style s (line_section "Additional" (sh_additional v)).
Proof.
  unfold story_of.
  rewrite !texts_app, !texts_section_head, !texts_flat_map.
  rewrite texts_paragraph, texts_spacer, texts_nil, app_nil_r. reflexivity.
Qed.

End StoryTexts.

(** ** Separator lines and styles of a story *)

Section StoryShape.
Import Pdf.

Lemma green_app story1 story2 :
  green_lines (story1 ++ story2) = green_lines story1 + green_lines story2.
Proof. unfold green_lines. now rewrite List.filter_app, List.length_app. Qed.

Lemma green_flat_map {A} (f : A -> list flowable) l :
  (forall x, green_lines (f x) = 0) -> green_lines (flat_map f l) = 0.
Proof.
  intros H. induction l as [|x l IH]; simpl; [reflexivity|].
  now rewrite green_app, H, IH.
Qed.

Lemma green_bullets l : green_lines (bullets l) = 0.
Proof. unfold bullets. induction l as [|x l IH]; [reflexivity | exact IH]. Qed.

Lemma green_experience e : green_lines (experience_block e) = 0.
Proof.
  destruct e as [[t p] r]. unfold experience_block.
  now rewrite !green_app, green_bullets.
Qed.

Lemma green_project p : green_lines (project_block p) = 0.
Proof.
  destruct p as [[n d] a]. unfold project_block.
  now rewrite !green_app, green_bullets.
Qed.

Lemma green_education e : green_lines (education_block e) = 0.
Proof.
  destruct e as [[d i] det]. unfold education_block.
  rewrite !green_app. now destruct (nonempty det).
Qed.

Lemma green_contact info : green_lines (contact_block info) = 0.
Proof.
  destruct info as [|n [|email [|phone [|location [|portfolio [|x info]]]]]];
    try reflexivity.
  unfold contact_block. rewrite !green_app. now destruct (nonempty portfolio).
Qed.

Lemma green_story v :
  green_lines (story_of v)
  = 5 + (match sh_courses v with [] => 0 | _ :: _ => 1 end)
      + (match sh_languages v with [] => 0 | _ :: _ => 1 end)
      + (match sh_additional v with [] => 0 | _ :: _ => 1 end).
Proof.
  unfold story_of. rewrite !green_app, green_contact.
  rewrite (green_flat_map experience_block) by apply green_experience.
  rewrite (green_flat_map project_block) by apply green_project.
  rewrite (green_flat_map skill_block) by reflexivity.
  rewrite (green_flat_map education_block) by apply green_education.
  unfold courses_section, line_section.
  destruct (sh_courses v), (sh_languages v), (sh_additional v);
    rewrite ?green_app, ?green_bullets; reflexivity.
Qed.

Lemma sections_story v :
  texts_with_style "SectionHeader" (story_of v)
  = ["Professional Summary"; "Work Experience"; "Projects"; "Skills"; "Education"]
    ++ (match sh_courses v with [] => [] | _ :: _ => ["Courses"] end)
    ++ (match sh_languages v with [] => [] | _ :: _ => ["Languages"] end)
    ++ (match sh_additional v with [] => [] | _ :: _ => ["Additional"] end).
Proof.
  rewrite texts_story, texts_contact, texts_courses, !texts_line_section.
  rewrite (flat_map_nil (fun e => texts_with_style "SectionHeader" (experience_block e)))
    by (intros e; now rewrite texts_experience).
  rewrite (flat_map_nil (fun p => texts_with_style "SectionHeader" (project_block p)))
    by (intros p; now rewrite texts_project).
  rewrite (flat_map_nil (fun i => texts_with_style "SectionHeader" (skill_block i)))
    by (intros i; now rewrite texts_skill).
  rewrite (flat_map_nil (fun e => texts_with_style "SectionHeader" (education_block e)))
    by (intros e; rewrite texts_education; now destruct (nonempty (snd e))).
  destruct (sh_info v) as [|n [|email [|phone [|location [|portfolio [|x info]]]]]],
           (sh_courses v), (sh_languages v), (sh_additional v); reflexivity.
Qed.

Lemma defined_bullets l : Forall style_defined (bullets l).
Proof.
  unfold bullets. induction l as [|x l IH]; constructor; [|exact IH].
  simpl. auto 20.
Qed.

Lemma defined_flat_map {A} (f : A -> list flowable) l :
  (forall x, Forall style_defined (f x)) -> Forall style_defined (flat_map f l).
Proof.
  intros H. induction l as [|x l IH]; simpl; [constructor|].
  apply Forall_app. split; [apply H | exact IH].
Qed.

Ltac defined_list :=
  repeat (apply List.Forall_cons; [simpl; auto 20|]); try apply List.Forall_nil.

Lemma defined_story v : Forall style_defined (story_of v).
Proof.
  unfold story_of. repeat (apply Forall_app; split).
  - destruct (sh_info v) as [|n [|email [|phone [|location [|portfolio [|x info]]]]]];
      try apply List.Forall_nil.
    unfold contact_block. destruct (nonempty portfolio);
      repeat (apply Forall_app; split); defined_list.
  - unfold section_head. defined_list.
  - defined_list.
  - unfold section_head. defined_list.
  - apply defined_flat_map. intros [[t p] r]. unfold experience_block.
    repeat (apply Forall_app; split); try apply defined_bullets; defined_list.
  - unfold section_head. defined_list.
  - apply defined_flat_map. intros [[n d] a]. unfold project_block.
    repeat (apply Forall_app; split); try apply defined_bullets; defined_list.
  - unfold section_head. defined_list.
  - apply defined_flat_map. intros i. unfold skill_block. defined_list.
  - unfold section_head. defined_list.
  - apply defined_flat_map. intros [[d i] det]. unfold education_block.
    destruct (nonempty det); repeat (apply Forall_app; split); defined_list.
  - unfold courses_section. destruct (sh_courses v); [constructor|].
    apply Forall_app; split; [unfold section_head; defined_list | apply defined_bullets].
  - unfold line_section. destruct (sh_languages v); [constructor|].
    apply Forall_app; split; [unfold section_head|]; defined_list.
  - unfold line_section. destruct (sh_additional v); [constructor|].
    apply Forall_app; split; [unfold section_head|]; defined_list.
Qed.

Lemma styles_used_defined story :
  Forall style_defined story -> Forall (fun s => In s _create_styles) (styles_used story).
Proof.
  unfold styles_used. induction 1 as [|f story Hf _ IH]; simpl; [constructor|].
  apply Forall_app. split; [|exact IH].
  destruct f; constructor; [exact Hf | constructor].
Qed.

End StoryShape.

(** ** What [generate_pdf] puts in the document *)

(** X1. The section headers of the story are Professional Summary, Work
    Experience, Projects, Skills and Education, in this order, followed by
    Courses, Languages and Additional, each present exactly when its list is
    not empty; and the story has one separator line per section header. *)
Theorem story_sections cv customized (h : heap) :
  let d := match customized with Some d => d | None => cv end in
  let story := Pdf.generate_pdf cv customized h in
  texts_with_style "SectionHeader" story
  = ["Professional Summary"; "Work Experience"; "Projects"; "Skills"; "Education"]
    ++ (match courses d with [] => [] | _ :: _ => ["Courses"] end)
    ++ (match languages d with [] => [] | _ :: _ => ["Languages"] end)
    ++ (match additional d with [] => [] | _ :: _ => ["Additional"] end)
  /\ green_lines story = length (texts_with_style "SectionHeader" story).
Proof.
  intros d story. subst story. rewrite story_layout. fold d.
  rewrite sections_story, green_story. unfold shown_data.
  cbn [sh_courses sh_languages sh_additional].
  split; [reflexivity|].
  now destruct (courses d), (languages d), (additional d).
Qed.

(** X2. Every paragraph of the story uses a style that [_create_styles]
    adds to the style sheet, so no style lookup of [generate_pdf] fails. *)
Theorem story_styles_defined cv customized (h : heap) :
  Forall (fun s => In s Pdf._create_styles)
         (styles_used (Pdf.generate_pdf cv customized h)).
Proof. rewrite story_layout. apply styles_used_defined, defined_story. Qed.

(** X3. The story depends on the shown fields only: two profiles that agree
    on name, e-mail, phone, location, portfolio, summary, the titles, periods
    and responsibilities of the experiences, the names, descriptions and
    achievements of the projects, the skills, the degrees, institutions and
    details of the education entries, the courses, languages and additional
    notes give the same story.  Company, technologies, LinkedIn, GitHub and
    the period of an education entry never reach the document. *)
Theorem story_reads_shown_fields cv d (h : heap) cv' d' (h' : heap) :
  shown_data h d = shown_data h' d' ->
  Pdf.generate_pdf cv (Some d) h = Pdf.generate_pdf cv' (Some d') h'.
Proof. intros E. now rewrite !story_layout, E. Qed.

(** The built-in profile with another employer, no technologies and a
    LinkedIn address renders as the built-in profile does. *)
Lemma story_reads_shown_fields_witness :
  let d' :=
    {| personal_info :=
         {| pi_name := pi_name (personal_info DefaultData.default_data);
            pi_email := pi_email (personal_info DefaultData.default_data);
            pi_phone := pi_phone (personal_info DefaultData.default_data);
            pi_location := pi_location (personal_info DefaultData.default_data);
            pi_linkedin := "linkedin.com/in/olaf";
            pi_github := "github.com/olaf";
            pi_portfolio := pi_portfolio (personal_info DefaultData.default_data) |};
       summary := summary DefaultData.default_data;
       work_experience :=
         map (fun e => {| we_title := we_title e;
                          we_company := "Another Company";
                          we_period := we_period e;
                          we_responsibilities := we_responsibilities e;
                          we_technologies := None |})
             (work_experience DefaultData.default_data);
       projects := projects DefaultData.default_data;
       education := education DefaultData.default_data;
       skills := skills DefaultData.default_data;
       courses := courses DefaultData.default_data;
       languages := languages DefaultData.default_data;
       additional := additional DefaultData.default_data |} in
  Pdf.generate_pdf DefaultData.default_data (Some DefaultData.default_data)
    DefaultData.default_heap
  = Pdf.generate_pdf DefaultData.default_data (Some d') DefaultData.default_heap.
Proof.
  intros d'.
  apply (story_reads_shown_fields DefaultData.default_data DefaultData.default_data
           DefaultData.default_heap DefaultData.default_data d'
           DefaultData.default_heap).
  reflexivity.
Defined.

(** X4. The contact lines of the story are e-mail, phone and location, and
    then the portfolio when it is not empty. *)
Theorem story_contact cv customized (h : heap) :
  let info := personal_info (match customized with Some d => d | None => cv end) in
  texts_with_style "ContactInfo" (Pdf.generate_pdf cv customized h)
  = [pi_email info; pi_phone info; pi_location info]
    ++ (if Pdf.nonempty (pi_portfolio info) then [pi_portfolio info] else []).
Proof.
  intros info. subst info. rewrite story_layout.
  set (d := match customized with Some d => d | None => cv end).
  rewrite texts_story, texts_contact, texts_courses, !texts_line_section.
  rewrite (flat_map_nil (fun e => texts_with_style "ContactInfo" (experience_block e)))
    by (intros e; now rewrite texts_experience).
  rewrite (flat_map_nil (fun p => texts_with_style "ContactInfo" (project_block p)))
    by (intros p; now rewrite texts_project).
  rewrite (flat_map_nil (fun i => texts_with_style "ContactInfo" (skill_block i)))
    by (intros i; now rewrite texts_skill).
  rewrite (flat_map_nil (fun e => texts_with_style "ContactInfo" (education_block e)))
    by (intros e; rewrite texts_education; now destruct (Pdf.nonempty (snd e))).
  unfold shown_data, shown_info.
  cbn [sh_info sh_courses sh_languages sh_additional].
  destruct (courses d), (languages d), (additional d);
    destruct (Pdf.nonempty (pi_portfolio (personal_info d))); reflexivity.
Qed.

(** X5. The bullet points of the story are, in this order: the
    responsibilities of each experience, for each project its description and
    then its achievements, the non-empty details of the education entries,
    and the courses; experiences, projects and courses in the order of the
    rendered data. *)
Theorem story_bullets cv customized (h : heap) :
  let d := match customized with Some d => d | None => cv end in
  texts_with_style "BulletPoint" (Pdf.generate_pdf cv customized h)
  = flat_map we_responsibilities (work_experience d)
    ++ flat_map (fun p => description p :: achievements p)
                (live_projects h (projects d))
    ++ flat_map (fun e => if Pdf.nonempty (details e) then [details e] else [])
                (education d)
    ++ courses d.
Proof.
  intros d. subst d. rewrite story_layout.
  set (d := match customized with Some d => d | None => cv end).
  rewrite texts_story, texts_contact, texts_courses, !texts_line_section.
  rewrite (flat_map_nil (fun i => texts_with_style "BulletPoint" (skill_block i)))
    by (intros i; now rewrite texts_skill).
  rewrite (List.flat_map_ext
             (fun e => texts_with_style "BulletPoint" (experience_block e))
             (fun e => snd e))
    by (intros e; now rewrite texts_experience).
  rewrite (List.flat_map_ext
             (fun p => texts_with_style "BulletPoint" (project_block p))
             (fun p => snd (fst p) :: snd p))
    by (intros p; now rewrite texts_project).
  rewrite (List.flat_map_ext
             (fun e => texts_with_style "BulletPoint" (education_block e))
             (fun e => if Pdf.nonempty (snd e) then [snd e] else []))
    by (intros e; rewrite texts_education; now destruct (Pdf.nonempty (snd e))).
  unfold shown_data, shown_info.
  cbn [sh_info sh_experience sh_projects sh_education sh_courses sh_languages
       sh_additional].
  rewrite !flat_map_map. cbn [shown_experience shown_project shown_education fst snd].
  destruct (courses d), (languages d), (additional d);
    cbn [app if_style String.eqb Ascii.eqb Bool.eqb]; rewrite ?app_nil_r; reflexivity.
Qed.

(** ** The file name of a generated CV *)

Section FileName.
Context {U : Py.Unicode}.
Import CVManager Job.

Lemma join_cons x l : Py.join "" (x :: l) = x +:+ Py.join "" l.
Proof.
  unfold Py.join. destruct l as [|y l]; simpl.
  - now rewrite sapp_nil_r.
  - now rewrite append_empty.
Qed.

Lemma join_app l1 l2 : Py.join "" (l1 ++ l2) = Py.join "" l1 +:+ Py.join "" l2.
Proof.
  induction l1 as [|x l1 IH]; [reflexivity|].
  change ((x :: l1) ++ l2) with (x :: (l1 ++ l2)).
  now rewrite !join_cons, IH, sapp_assoc.
Qed.

Lemma join_singles p : Py.join "" (Py.singles p) = p.
Proof.
  induction p as [|c p IH]; [reflexivity|].
  change (Py.singles (String c p)) with (String c EmptyString :: Py.singles p).
  now rewrite join_cons, IH.
Qed.

Lemma chars_pending_unfold c s :
  Py.chars_pending (String c s)
  = if Py.is_continuation c
    then (String c (fst (Py.chars_pending s)), snd (Py.chars_pending s))
    else if (nat_of_ascii c <? 128)
         then (EmptyString,
               String c EmptyString
                 :: Py.singles (fst (Py.chars_pending s)) ++ snd (Py.chars_pending s))
         else (EmptyString, String c (fst (Py.chars_pending s)) :: snd (Py.chars_pending s)).
Proof. simpl. now destruct (Py.chars_pending s). Qed.

Lemma chars_pending_join s :
  fst (Py.chars_pending s) +:+ Py.join "" (snd (Py.chars_pending s)) = s.
Proof.
  induction s as [|c s IH]; [reflexivity|]. rewrite chars_pending_unfold.
  destruct (Py.is_continuation c); cbn [fst snd].
  - now rewrite append_cons, IH.
  - destruct (nat_of_ascii c <? 128)%nat; cbn [fst snd]; rewrite append_empty, join_cons.
    + now rewrite join_app, join_singles, IH.
    + now rewrite append_cons, IH.
Qed.

(** The characters of a text, put together, are the text. *)
Lemma join_chars s : Py.join "" (Py.chars s) = s.
Proof.
  unfold Py.chars. pose proof (chars_pending_join s) as H.
  destruct (Py.chars_pending s) as [p d]. cbn [fst snd] in H.
  now rewrite join_app, join_singles.
Qed.

Lemma chars_pending_continuation rest t :
  Py.all_continuation rest = true ->
  Py.chars_pending (rest +:+ t)
  = (rest +:+ fst (Py.chars_pending t), snd (Py.chars_pending t)).
Proof.
  induction rest as [|c rest IH]; intros H.
  - rewrite !append_empty. now destruct (Py.chars_pending t).
  - simpl in H. apply andb_prop in H as [Hc H].
    rewrite append_cons, chars_pending_unfold, Hc, (IH H). reflexivity.
Qed.

Lemma chars_pending_char c t :
  Py.is_char c = true -> fst (Py.chars_pending t) = EmptyString ->
  Py.chars_pending (c +:+ t) = (EmptyString, c :: snd (Py.chars_pending t)).
Proof.
  intros Hc Ht. destruct c as [|a rest]; [discriminate Hc|].
  rewrite append_cons, chars_pending_unfold. cbn [Py.is_char] in Hc.
  destruct (nat_of_ascii a <? 128) eqn:Ha.
  - destruct rest; [|discriminate Hc]. rewrite append_empty, Ht.
    assert (Hn : Py.is_continuation a = false).
    { unfold Py.is_continuation. apply Nat.ltb_lt in Ha.
      destruct (Nat.leb_spec 128 (nat_of_ascii a)); [lia | reflexivity]. }
    now rewrite Hn.
  - apply andb_prop in Hc as [Hl Hr].
    assert (Hn : Py.is_continuation a = false).
    { unfold Py.is_continuation. apply Nat.leb_le in Hl.
      destruct (Nat.ltb_spec (nat_of_ascii a) 192); [lia | apply andb_false_r]. }
    rewrite Hn, (chars_pending_continuation rest t Hr). cbn [fst snd].
    now rewrite Ht, sapp_nil_r.
Qed.

Lemma chars_pending_of_chars l :
  Forall (fun c => Py.is_char c = true) l ->
  Py.chars_pending (Py.join "" l) = (EmptyString, l).
Proof.
  induction 1 as [|c l Hc _ IH]; [reflexivity|].
  rewrite join_cons, (chars_pending_char c _ Hc); now rewrite IH.
Qed.

(** Characters put together are the characters of the text they make. *)
Lemma chars_join l :
  Forall (fun c => Py.is_char c = true) l -> Py.chars (Py.join "" l) = l.
Proof.
  intros H. unfold Py.chars. now rewrite (chars_pending_of_chars l H).
Qed.

Lemma rstrip_chars_Forall (P : string -> Prop) l :
  Forall P l -> Forall P (rstrip_chars l).
Proof.
  induction 1 as [|c l Hc Hl IH]; simpl; [constructor|].
  destruct (rstrip_chars l) as [|c' r].
  - destruct (Py.isspace c); constructor; [exact Hc | constructor].
  - constructor; assumption.
Qed.

Lemma rstrip_chars_no_trailing l : last_is Py.isspace (rstrip_chars l) = false.
Proof.
  induction l as [|c l IH]; simpl; [reflexivity|].
  destruct (rstrip_chars l) as [|c' r].
  - destruct (Py.isspace c) eqn:E; simpl; [reflexivity | exact E].
  - exact IH.
Qed.

Lemma rstrip_chars_fixed l : last_is Py.isspace l = false -> rstrip_chars l = l.
Proof.
  induction l as [|c l IH]; [reflexivity|].
  destruct l as [|c' l'].
  - simpl. now intros ->.
  - intros H. change (last_is Py.isspace (c' :: l') = false) in H.
    specialize (IH H).
    change (rstrip_chars (c :: c' :: l'))
      with (match rstrip_chars (c' :: l') with
            | [] => if Py.isspace c then [] else [c]
            | c'' :: r => c :: c'' :: r
            end).
    now rewrite IH.
Qed.

Lemma allowed_is_char c : allowed c = true -> Py.is_char c = true.
Proof.
  unfold allowed. intros H. apply orb_prop in H as [H|H].
  - now apply Py.isalnum_char.
  - apply in_list_spec in H. simpl in H.
    destruct H as [<-|[<-|[<-|[]]]]; reflexivity.
Qed.

Lemma Forall_filter_true {A} (f : A -> bool) l :
  Forall (fun x => f x = true) (List.filter f l).
Proof.
  induction l as [|x l IH]; simpl; [constructor|].
  destruct (f x) eqn:E; [constructor; assumption | exact IH].
Qed.

Lemma forallb_Forall_true {A} (f : A -> bool) l :
  forallb f l = true <-> Forall (fun x => f x = true) l.
Proof.
  rewrite forallb_forall. symmetry. apply List.Forall_forall.
Qed.

Lemma filter_fixed {A} (f : A -> bool) l :
  Forall (fun x => f x = true) l -> List.filter f l = l.
Proof.
  induction 1 as [|x l Hx _ IH]; simpl; [reflexivity|]. now rewrite Hx, IH.
Qed.

Lemma Forall_allowed_char l :
  Forall (fun c => allowed c = true) l -> Forall (fun c => Py.is_char c = true) l.
Proof. apply List.Forall_impl. exact allowed_is_char. Qed.

(** The characters of the sanitized title: the allowed characters of the
    title without the whitespace at their end. *)
Lemma chars_safe_job_title t :
  Py.chars (safe_job_title t) = rstrip_chars (List.filter allowed (Py.chars t)).
Proof.
  unfold safe_job_title, rstrip, keep.
  pose proof (Forall_filter_true allowed (Py.chars t)) as H.
  rewrite (chars_join _ (Forall_allowed_char _ H)).
  apply chars_join, Forall_allowed_char. now apply rstrip_chars_Forall.
Qed.

Lemma safe_job_title_allowed t : all_chars allowed (safe_job_title t) = true.
Proof.
  unfold all_chars. rewrite chars_safe_job_title. apply forallb_Forall_true.
  apply rstrip_chars_Forall, Forall_filter_true.
Qed.

Lemma safe_job_title_no_trailing t : ends_with_space (safe_job_title t) = false.
Proof.
  unfold ends_with_space. rewrite chars_safe_job_title.
  apply rstrip_chars_no_trailing.
Qed.

Lemma safe_job_title_fixed_point t :
  all_chars allowed t = true -> ends_with_space t = false -> safe_job_title t = t.
Proof.
  unfold all_chars, ends_with_space. intros Ha He.
  apply forallb_Forall_true in Ha.
  unfold safe_job_title, rstrip, keep.
  rewrite (filter_fixed _ _ Ha), join_chars, (rstrip_chars_fixed _ He).
  apply join_chars.
Qed.

Lemma has_char_app c s t : has_char c (s +:+ t) = has_char c s || has_char c t.
Proof.
  induction s as [|c' s IH]; [reflexivity|].
  rewrite append_cons. simpl. now rewrite IH, orb_assoc.
Qed.

Lemma has_char_join c l : has_char c (Py.join "" l) = existsb (has_char c) l.
Proof.
  induction l as [|x l IH]; [reflexivity|].
  now rewrite join_cons, has_char_app, IH.
Qed.

Lemma continuation_no_sep rest :
  Py.all_continuation rest = true -> has_char "/" rest = false.
Proof.
  induction rest as [|c rest IH]; simpl; [reflexivity|].
  intros H. apply andb_prop in H as [Hc H]. rewrite (IH H), orb_false_r.
  destruct (Ascii.eqb_spec c "/") as [->|]; [discriminate Hc | reflexivity].
Qed.

Lemma allowed_char_no_sep c : allowed c = true -> has_char "/" c = false.
Proof.
  intros H. pose proof (allowed_is_char c H) as Hc.
  destruct c as [|a rest]; [reflexivity|]. cbn [Py.is_char] in Hc.
  destruct (nat_of_ascii a <? 128) eqn:Ha.
  - destruct rest; [|discriminate Hc]. simpl. rewrite orb_false_r.
    destruct (Ascii.eqb_spec a "/") as [->|]; [|reflexivity].
    unfold allowed in H. rewrite (Py.isalnum_ascii _ Ha) in H. discriminate H.
  - apply andb_prop in Hc as [Hl Hr]. simpl.
    rewrite (continuation_no_sep rest Hr), orb_false_r.
    destruct (Ascii.eqb_spec a "/") as [->|]; [discriminate Ha | reflexivity].
Qed.

Lemma allowed_no_sep s : all_chars allowed s = true -> has_char "/" s = false.
Proof.
  unfold all_chars. intros H. rewrite <- (join_chars s), has_char_join.
  apply forallb_Forall_true in H.
  induction H as [|c l Hc _ IH]; simpl; [reflexivity|].
  now rewrite (allowed_char_no_sep c Hc), IH.
Qed.


Context {E : Environment}.

(** A call that returns has made sure of the directory, customized the
    profile, and built the document at the returned path. *)
Lemma generate_cv_for_job_returns cv jt kws dir ts (h : heap) (fs : files) h' fs' path :
  generate_cv_for_job cv jt kws dir ts h fs = Ok (h', fs', path) ->
  exists fs1,
    (if negb (path_exists dir fs) then makedirs dir fs else Ok fs) = Ok fs1
    /\ h' = fst (CVGenerator.customize_for_job cv kws jt h)
    /\ path = path_join dir (filename jt ts)
    /\ build path
         (Pdf.generate_pdf cv (Some (snd (CVGenerator.customize_for_job cv kws jt h))) h')
         fs1
       = Ok fs'.
Proof.
  unfold generate_cv_for_job. intros H.
  destruct (if negb (path_exists dir fs) then makedirs dir fs else Ok fs)
    as [fs1|e]; [|discriminate H].
  cbn [bind] in H. exists fs1. split; [reflexivity|].
  destruct (CVGenerator.customize_for_job cv kws jt h) as [h1 d]. cbn [fst snd].
  destruct (build (path_join dir (filename jt ts))
              (Pdf.generate_pdf cv (Some d) h1) fs1) as [fs2|e] eqn:B;
    [|discriminate H].
  cbn [bind] in H. injection H as <- <- <-. now rewrite B.
Qed.


End FileName.

(** X6. Every character of the sanitized job title is a letter or a digit
    (of any script), a space, a hyphen or an underscore; the sanitized title
    does not end in whitespace and contains no path separator. *)
Theorem safe_job_title_chars {U : Py.Unicode} job_title :
  all_chars Job.allowed (Job.safe_job_title job_title) = true
  /\ ends_with_space (Job.safe_job_title job_title) = false
  /\ has_char "/" (Job.safe_job_title job_title) = false.
Proof.
  split; [apply safe_job_title_allowed|]. split.
  - apply safe_job_title_no_trailing.
  - apply allowed_no_sep, safe_job_title_allowed.
Qed.

(** X7. Sanitizing is idempotent, and a title that consists of allowed
    characters and does not end in whitespace is its own sanitized form. *)
Theorem safe_job_title_fixed {U : Py.Unicode} job_title :
  Job.safe_job_title (Job.safe_job_title job_title) = Job.safe_job_title job_title
  /\ (all_chars Job.allowed job_title = true ->
      ends_with_space job_title = false ->
      Job.safe_job_title job_title = job_title).
Proof.
  split.
  - apply safe_job_title_fixed_point;
      [apply safe_job_title_allowed | apply safe_job_title_no_trailing].
  - apply safe_job_title_fixed_point.
Qed.

Lemma safe_job_title_fixed_witness :
  Job.safe_job_title "Data Analyst" = "Data Analyst".
Proof.
  apply (safe_job_title_fixed "Data Analyst"); reflexivity.
Defined.

(** The sanitizer drops the characters that are not allowed and the
    whitespace this leaves at the end. *)
Example sanitized_titles :
  Job.safe_job_title "C++ / Data Analyst!" = "C  Data Analyst"
  /\ Job.safe_job_title "R&D - Analyst (m/f) " = "RD - Analyst mf"
  /\ Job.safe_job_title "../../etc" = "etc".
Proof. repeat split; reflexivity. Qed.



(** ** The document generated for a job *)

Lemma story_headings cv customized (h : heap) :
  let d := match customized with Some d => d | None => cv end in
  texts_with_style "JobTitle" (Pdf.generate_pdf cv customized h)
  = map we_title (work_experience d)
    ++ map name (live_projects h (projects d))
    ++ Py.dict_keys (skills d)
    ++ map degree (education d).
Proof.
  intros d. subst d. rewrite story_layout.
  set (d := match customized with Some d => d | None => cv end).
  rewrite texts_story, texts_contact, texts_courses, !texts_line_section.
  rewrite (List.flat_map_ext
             (fun e => texts_with_style "JobTitle" (experience_block e))
             (fun e => [fst (fst e)]))
    by (intros e; now rewrite texts_experience).
  rewrite (List.flat_map_ext
             (fun p => texts_with_style "JobTitle" (project_block p))
             (fun p => [fst (fst p)]))
    by (intros p; now rewrite texts_project).
  rewrite (List.flat_map_ext
             (fun i => texts_with_style "JobTitle" (skill_block i))
             (fun i => [fst i]))
    by (intros i; now rewrite texts_skill).
  rewrite (List.flat_map_ext
             (fun e => texts_with_style "JobTitle" (education_block e))
             (fun e => [fst (fst e)]))
    by (intros e; rewrite texts_education; now destruct (Pdf.nonempty (snd e))).
  rewrite !flat_map_single. unfold shown_data, shown_info, Py.dict_keys.
  cbn [sh_info sh_experience sh_projects sh_skills sh_education sh_courses
       sh_languages sh_additional].
  rewrite !map_map. cbn [shown_experience shown_project shown_education fst snd].
  destruct (courses d), (languages d), (additional d);
    cbn [app if_style String.eqb Ascii.eqb Bool.eqb]; rewrite ?app_nil_r; reflexivity.
Qed.

Lemma live_projects_fields (h h' : heap) ps :
  (forall l, fields <$> h' !! l = fields <$> h !! l) ->
  live_projects h' ps = live_projects h ps.
Proof.
  intros H. unfold live_projects. apply List.flat_map_ext. intros l.
  specialize (H l). destruct (h' !! l), (h !! l); simpl in H;
    try discriminate; [|reflexivity].
  now injection H as ->.
Qed.

(** X9. When [generate_cv_for_job] returns, the document at the returned
    path was built from a story whose headings are the titles of the
    profile's experiences in their order, the names of its projects in
    descending order of relevance score, the skill categories in the order
    [_prioritize_skills] gives, and the degrees of the education entries in
    their order. *)
Theorem job_document_headings {U : Py.Unicode} {E : Job.Environment}
    cv job_title kws output_dir timestamp (h : heap) (fs : Job.files) h' fs' path :
  Job.generate_cv_for_job cv job_title kws output_dir timestamp h fs
  = CVManager.Ok (h', fs', path) ->
  exists story fs1,
    Job.build path story fs1 = CVManager.Ok fs'
    /\ texts_with_style "JobTitle" story
       = map we_title (work_experience cv)
         ++ map name (live_projects h (Py.sort_reverse (project_score h kws) (projects cv)))
         ++ Py.dict_keys (CVGenerator._prioritize_skills cv kws job_title)
         ++ map degree (education cv).
Proof.
  intros H. apply generate_cv_for_job_returns in H as (fs1 & _ & -> & _ & B).
  eexists _, fs1. split; [exact B|].
  rewrite story_headings, customize_snd, customize_fst.
  cbn [work_experience projects skills education].
  rewrite prioritize_experience_map, map_map, prioritize_projects_sort.
  rewrite (live_projects_fields h) by (intros l; apply prioritize_projects_fields).
  reflexivity.
Qed.

(** On the built-in profile with the keyword "pandas", the Building
    Inspection Management System, which uses Pandas, comes first. *)
Lemma job_document_headings_witness :
  exists story fs1 fs',
    Job.build (Environment := Job.recorded_paths)
      "generated_cvs/CV_Data Analyst_20260101_120000.pdf" story fs1
    = CVManager.Ok fs'
    /\ texts_with_style "JobTitle" story
       = map we_title (work_experience DefaultData.default_data)
         ++ [name DefaultData.shinobi; name DefaultData.dance_school]
         ++ Py.dict_keys
              (CVGenerator._prioritize_skills DefaultData.default_data ["pandas"]
                 "Data Analyst")
         ++ map degree (education DefaultData.default_data).
Proof.
  destruct (Job.generate_cv_for_job (E := Job.recorded_paths)
              DefaultData.default_data "Data Analyst" ["pandas"] "generated_cvs"
              "20260101_120000" DefaultData.default_heap [])
    as [[[h' fs'] path]|e] eqn:G; [|discriminate G].
  destruct (job_document_headings (E := Job.recorded_paths)
              DefaultData.default_data "Data Analyst" ["pandas"] "generated_cvs"
              "20260101_120000" DefaultData.default_heap [] h' fs' path G)
    as (story & fs1 & B & T).
  injection G as _ _ <-.
  exists story, fs1, fs'. split; [exact B | exact T].
Defined.

(** ** Dataclass construction and the save/load round trip *)

Section RoundTrip.
Import CVManager Save.

Lemma bind_ok {A B} (r : result A) (k : A -> result B) b :
  bind r k = Ok b -> exists a, r = Ok a /\ k a = Ok b.
Proof. destruct r as [a|e]; simpl; [eauto | discriminate]. Qed.

Lemma comprehension_ok {A B} (f : A -> result B) l l' :
  comprehension f l = Ok l' -> Forall2 (fun x y => f x = Ok y) l l'.
Proof.
  revert l'. induction l as [|x l IH]; intros l' H; simpl in H.
  - injection H as <-. constructor.
  - apply bind_ok in H as (y & Hy & H). apply bind_ok in H as (ys & Hys & H).
    injection H as <-. constructor; [exact Hy | now apply IH].
Qed.


Lemma comprehension_raise {A B} (f : A -> result B) l x e0 :
  In x l -> f x = Raise e0 -> exists e, comprehension f l = Raise e.
Proof.
  intros Hin Hx. induction l as [|y l IH]; [contradiction|]. simpl.
  destruct Hin as [->|Hin].
  - rewrite Hx. simpl. eauto.
  - destruct (f y); simpl; [|eauto].
    destruct (IH Hin) as [e He]. rewrite He. simpl. eauto.
Qed.

Lemma field_values_keys kwargs fs a :
  comprehension (field_value kwargs) fs = Ok a -> map fst a = map fst fs.
Proof.
  intros H. apply comprehension_ok in H.
  induction H as [|[k d] [k' v] fs a Hf _ IH]; simpl; [reflexivity|].
  f_equal; [|exact IH]. unfold field_value in Hf. simpl in Hf.
  destruct (Py.dict_get k kwargs); [now injection Hf|].
  destruct d; [now injection Hf | discriminate].
Qed.

Lemma construct_instance c fs v i :
  construct c fs v = Ok i -> instance_of c fs i.
Proof.
  unfold construct. destruct v; try discriminate.
  destruct (forallb _ members); [|discriminate].
  intros H. apply bind_ok in H as (a & Ha & H). injection H as <-.
  split; [reflexivity|]. simpl. now apply field_values_keys in Ha.
Qed.




Lemma constructed_all c fs items l :
  comprehension (construct c fs) items = Ok l -> Forall (instance_of c fs) l.
Proof.
  intros H. apply comprehension_ok in H.
  induction H as [|x y items l Hxy _ IH]; constructor; [|exact IH].
  now apply construct_instance in Hxy.
Qed.


Lemma well_formed_loaded data cv :
  _dict_to_cv_data data = Ok cv -> well_formed cv.
Proof.
  unfold _dict_to_cv_data. intros H.
  repeat (apply bind_ok in H as (? & ? & H)). injection H as <-.
  unfold well_formed. simpl.
  repeat split; eauto using construct_instance, constructed_all;
    eapply construct_instance; eassumption.
Qed.


Lemma subscript_ok data key v :
  subscript data key = Ok v ->
  exists members, data = JObj members /\ Py.dict_get key members = Some v.
Proof.
  unfold subscript. destruct data as [| | | | | |members]; try discriminate.
  destruct (Py.dict_get key members) as [x|] eqn:G; [|discriminate].
  intros H. injection H as <-. eauto.
Qed.

Lemma field_value_stored kwargs f kv :
  field_value kwargs f = Ok kv -> stored kwargs f kv.
Proof.
  unfold field_value, stored. destruct f as [k d]. simpl.
  destruct (Py.dict_get k kwargs) as [x|].
  - intros H. injection H as <-. now split.
  - destruct d as [x|]; [|discriminate]. intros H. injection H as <-. now split.
Qed.

Lemma construct_built c fs v i :
  construct c fs v = Ok i -> built_from c fs v i.
Proof.
  unfold construct. destruct v as [| | | | | |kwargs]; try discriminate.
  destruct (forallb _ kwargs); [|discriminate].
  intros H. apply bind_ok in H as (a & Ha & H). injection H as <-.
  exists kwargs. split; [reflexivity|]. split; [reflexivity|]. simpl.
  apply comprehension_ok in Ha.
  induction Ha as [|f kv fs a Hf _ IH]; constructor; [|exact IH].
  now apply field_value_stored.
Qed.

Lemma constructed_built c fs items l :
  comprehension (construct c fs) items = Ok l -> Forall2 (built_from c fs) items l.
Proof.
  intros H. apply comprehension_ok in H.
  induction H as [|x y items l Hxy _ IH]; constructor; [|exact IH].
  now apply construct_built.
Qed.

Lemma loaded_from_record data cv :
  _dict_to_cv_data data = Ok cv ->
  exists members, data = JObj members /\ loaded_from members cv.
Proof.
  unfold _dict_to_cv_data. intros H.
  apply bind_ok in H as (pi & Hpi & H).
  apply subscript_ok in Hpi as (members & -> & Gpi). exists members.
  split; [reflexivity|].
  apply bind_ok in H as (ipi & Cpi & H).
  apply bind_ok in H as (su & Gsu & H).
  apply bind_ok in H as (we & Gwe & H).
  apply bind_ok in H as (we_items & Iwe & H).
  apply bind_ok in H as (lwe & Cwe & H).
  apply bind_ok in H as (pr & Gpr & H).
  apply bind_ok in H as (pr_items & Ipr & H).
  apply bind_ok in H as (lpr & Cpr & H).
  apply bind_ok in H as (ed & Ged & H).
  apply bind_ok in H as (ed_items & Ied & H).
  apply bind_ok in H as (led & Ced & H).
  apply bind_ok in H as (sk & Gsk & H).
  apply bind_ok in H as (co & Gco & H).
  apply bind_ok in H as (la & Gla & H).
  apply bind_ok in H as (ad & Gad & H).
  injection H as <-. unfold loaded_from, list_built_from. simpl.
  apply subscript_ok in Gsu as (? & E & Gsu); injection E as <-.
  apply subscript_ok in Gwe as (? & E & Gwe); injection E as <-.
  apply subscript_ok in Gpr as (? & E & Gpr); injection E as <-.
  apply subscript_ok in Ged as (? & E & Ged); injection E as <-.
  apply subscript_ok in Gsk as (? & E & Gsk); injection E as <-.
  apply subscript_ok in Gco as (? & E & Gco); injection E as <-.
  apply subscript_ok in Gla as (? & E & Gla); injection E as <-.
  apply subscript_ok in Gad as (? & E & Gad); injection E as <-.
  split; [exists pi; split; [exact Gpi | now apply construct_built]|].
  split; [exact Gsu|].
  split; [exists we, we_items; repeat split; auto using constructed_built|].
  split; [exists pr, pr_items; repeat split; auto using constructed_built|].
  split; [exists ed, ed_items; repeat split; auto using constructed_built|].
  repeat split; assumption.
Qed.

End RoundTrip.

(** X10. A profile a load returns holds what the record holds, field by
    field: the record is an object; the personal information and each work
    experience, project and education entry is the instance of its dataclass
    made of the object found in the record, with one attribute per field of
    the class in declaration order, whose value is the one the object gives
    under that name or, when it gives none, the default of the field; the
    summary, skills, courses, languages and additional notes are the values
    of the record. *)
Theorem loaded_is_well_formed data cv :
  CVManager._dict_to_cv_data data = CVManager.Ok cv ->
  well_formed cv
  /\ exists members, data = CVManager.JObj members /\ loaded_from members cv.
Proof.
  intros H. split; [now apply (well_formed_loaded data) | now apply loaded_from_record].
Qed.

(** The record gives no LinkedIn, GitHub or portfolio address: the loaded
    personal information has the empty defaults there. *)
Lemma loaded_is_well_formed_witness :
  exists cv,
    CVManager._dict_to_cv_data (CVManager.JObj Records.complete_record)
    = CVManager.Ok cv
    /\ loaded_from Records.complete_record cv
    /\ CVManager.attrs (CVManager.ld_personal_info cv)
       = [("name", CVManager.JStr "Olaf Siestrzykowski");
          ("email", CVManager.JStr "olaf.siestrzykowski@gmail.com");
          ("phone", CVManager.JStr "796694177");
          ("location", CVManager.JStr "Warsaw, PL");
          ("linkedin", CVManager.JStr "");
          ("github", CVManager.JStr "");
          ("portfolio", CVManager.JStr "")].
Proof.
  eexists. split; [reflexivity|]. split; [|reflexivity].
  destruct (loaded_is_well_formed (CVManager.JObj Records.complete_record) _ eq_refl)
    as (_ & members & E & H).
  injection E as <-. exact H.
Defined.



(** A record whose summary is a lone surrogate loads, but the loaded
    profile cannot be saved: [save_data] raises and the data file it leaves
    cannot be loaded. *)
Example surrogate_breaks_the_data_file :
  exists cv,
    CVManager._dict_to_cv_data (CVManager.JObj Records.record_with_surrogate)
    = CVManager.Ok cv
    /\ Save.save_data (CVManager.Ok tt)
         (Some (CVManager.Ok (CVManager.JObj Records.record_with_surrogate))) cv
       = (CVManager.Raise CVManager.UnicodeEncodeError,
          Some (CVManager.Raise CVManager.JSONDecodeError))
    /\ CVManager._load_or_create_data cv
         (Some (CVManager.Raise CVManager.JSONDecodeError))
       = CVManager.Raise CVManager.JSONDecodeError.
Proof. eexists. repeat split; reflexivity. Qed.

(** X12. The call of a dataclass on an unpacked JSON value succeeds exactly
    when the value is an object, each of its keys names a field of the
    class, and every field without a default is among its keys. *)
Theorem construct_succeeds_iff c fs v :
  (exists i, CVManager.construct c fs v = CVManager.Ok i)
  <-> exists kwargs,
        v = CVManager.JObj kwargs
        /\ (forall k, In k (Py.dict_keys kwargs) -> In k (map fst fs))
        /\ (forall k, In (k, None) fs -> Py.dict_get k kwargs <> None).
Proof.
  split.
  - intros [i H]. unfold CVManager.construct in H.
    destruct v as [| | | | | |kwargs]; try discriminate. exists kwargs.
    destruct (forallb _ kwargs) eqn:Hall; [|discriminate].
    split; [reflexivity|]. split.
    + intros k Hk. apply in_map_iff in Hk as (kv & <- & Hkv).
      apply in_list_spec. now apply (proj1 (forallb_forall _ _) Hall).
    + intros k Hk Hnone. apply bind_ok in H as (a & Ha & _).
      apply comprehension_ok in Ha. clear Hall.
      induction Ha as [|[k' d] y fs a Hf _ IH]; [contradiction|].
      destruct Hk as [E|Hk]; [|now apply IH].
      injection E as -> ->. unfold CVManager.field_value in Hf. simpl in Hf.
      rewrite Hnone in Hf. discriminate Hf.
  - intros (kwargs & -> & Hkeys & Hreq). unfold CVManager.construct.
    assert (Hall : forallb (fun kv => Py.in_list (fst kv) (map fst fs)) kwargs = true).
    { apply forallb_forall. intros kv Hkv. apply in_list_spec, Hkeys.
      now apply in_map. }
    rewrite Hall.
    assert (Hc : exists a, CVManager.comprehension (CVManager.field_value kwargs) fs
                           = CVManager.Ok a).
    { clear Hall Hkeys. induction fs as [|[k d] fs IH]; simpl; [eauto|].
      destruct IH as [a Ha]; [intros k0 Hk0; apply Hreq; now right|].
      rewrite Ha. unfold CVManager.field_value. simpl.
      destruct (Py.dict_get k kwargs) as [x|] eqn:G; simpl; [eauto|].
      destruct d as [x|]; simpl; [eauto|].
      exfalso. apply (Hreq k); [now left | exact G]. }
    destruct Hc as [a Ha]. rewrite Ha. simpl. eauto.
Qed.

Lemma construct_succeeds_iff_witness :
  exists i,
    CVManager.construct "Education" CVManager.Education_fields
      (CVManager.JObj [("degree", CVManager.JStr "BSc");
                       ("institution", CVManager.JStr "Lublin University of Technology");
                       ("period", CVManager.JStr "Completed")])
    = CVManager.Ok i.
Proof.
  apply (proj2 (construct_succeeds_iff "Education" CVManager.Education_fields _)).
  eexists. split; [reflexivity|]. split.
  - simpl. tauto.
  - simpl. intros k [E|[E|[E|[E|[]]]]]; injection E as <-; discriminate.
Defined.

(** X13. One bad entry aborts the whole load: when an item of the
    work_experience, projects or education array cannot be turned into its
    dataclass, [_dict_to_cv_data] raises and returns no profile. *)
Theorem malformed_item_is_fatal members key c fs items item e0 :
  In (key, c, fs) record_lists ->
  Py.dict_get key members = Some (CVManager.JArr items) ->
  In item items ->
  CVManager.construct c fs item = CVManager.Raise e0 ->
  exists e, CVManager._dict_to_cv_data (CVManager.JObj members) = CVManager.Raise e.
Proof.
  intros Hspec Hget Hin Hbad.
  destruct (comprehension_raise (CVManager.construct c fs) items item e0 Hin Hbad)
    as [e1 He1].
  unfold CVManager._dict_to_cv_data. simpl in Hspec.
  destruct Hspec as [E|[E|[E|[]]]]; injection E as <- <- <-;
    repeat (apply bind_fails; let a := fresh "a" in let Ea := fresh "E" in
            intros a Ea;
            try (unfold CVManager.subscript in Ea; rewrite Hget in Ea;
                 injection Ea as <-);
            try (simpl in Ea; injection Ea as <-);
            try (rewrite He1 in Ea; discriminate Ea)).
Qed.

Lemma malformed_item_is_fatal_witness :
  exists e,
    CVManager._dict_to_cv_data
      (CVManager.JObj
         (Py.dict_set "projects"
            (CVManager.JArr [CVManager.JObj [("name", CVManager.JStr "Site");
                                             ("stars", CVManager.JInt 5)]])
            Records.complete_record))
    = CVManager.Raise e.
Proof.
  eapply (malformed_item_is_fatal _ "projects" "Project" CVManager.Project_fields
            [CVManager.JObj [("name", CVManager.JStr "Site");
                             ("stars", CVManager.JInt 5)]]
            (CVManager.JObj [("name", CVManager.JStr "Site");
                             ("stars", CVManager.JInt 5)])
            CVManager.TypeError).
  - simpl. tauto.
  - reflexivity.
  - now left.
  - reflexivity.
Defined.

(** ** Searching a markdown text *)

Section MarkdownSearch.
Import Markdown.

Lemma length_sapp s t : String.length (s +:+ t) = String.length s + String.length t.
Proof.
  induction s as [|c s IH]; [reflexivity|]. rewrite append_cons. simpl. now rewrite IH.
Qed.

(** Two splittings of one text: the shorter first part is a prefix of the
    longer one. *)
Lemma sapp_split a b c d :
  a +:+ b = c +:+ d -> String.length a <= String.length c ->
  exists m, c = a +:+ m /\ b = m +:+ d.
Proof.
  revert c. induction a as [|x a IH]; intros c H Hlen.
  - exists c. now rewrite !append_empty in *.
  - destruct c as [|y c]; [simpl in Hlen; lia|].
    rewrite !append_cons in H. injection H as <- H.
    destruct (IH c H) as (m & -> & ->); [simpl in Hlen; lia|].
    exists m. now rewrite append_cons.
Qed.

Lemma strip_prefix_spec n h post :
  strip_prefix n h = Some post <-> h = n +:+ post.
Proof.
  revert h. induction n as [|a n IH]; intros h; simpl.
  - rewrite append_empty. split; congruence.
  - rewrite append_cons. destruct h as [|b h]; [split; discriminate|].
    destruct (Ascii.eqb_spec a b) as [->|Hne].
    + rewrite IH. split; congruence.
    + split; [discriminate | congruence].
Qed.

Lemma find_unfold n h :
  find n h
  = match strip_prefix n h with
    | Some post => Some (EmptyString, post)
    | None =>
        match h with
        | EmptyString => None
        | String c h' =>
            match find n h' with
            | Some (pre, post) => Some (String c pre, post)
            | None => None
            end
        end
    end.
Proof. destruct h; reflexivity. Qed.

Lemma find_sound n h pre post :
  find n h = Some (pre, post) -> h = pre +:+ n +:+ post.
Proof.
  revert pre. induction h as [|c h IH]; intros pre; rewrite find_unfold.
  - destruct (strip_prefix n EmptyString) as [p|] eqn:E; [|discriminate].
    intros [= <- <-]. now apply strip_prefix_spec in E.
  - destruct (strip_prefix n (String c h)) as [p|] eqn:E.
    + intros [= <- <-]. now apply strip_prefix_spec in E.
    + destruct (find n h) as [[pre' post']|]; [|discriminate].
      intros [= <- <-]. rewrite append_cons. f_equal. now apply IH.
Qed.

Lemma find_complete n h pre2 post2 :
  h = pre2 +:+ n +:+ post2 ->
  exists pre post, find n h = Some (pre, post)
                   /\ String.length pre <= String.length pre2.
Proof.
  revert h. induction pre2 as [|c p IH]; intros h ->; rewrite find_unfold.
  - rewrite append_empty, (proj2 (strip_prefix_spec n _ post2) eq_refl).
    exists EmptyString, post2. split; [reflexivity | simpl; lia].
  - rewrite append_cons.
    destruct (strip_prefix n (String c (p +:+ n +:+ post2))) as [q|].
    + exists EmptyString, q. split; [reflexivity | simpl; lia].
    + destruct (IH _ eq_refl) as (pre & post & -> & Hlen).
      exists (String c pre), post. split; [reflexivity | simpl; lia].
Qed.

Lemma find_none n h : find n h = None <-> Py.str_in n h = false.
Proof.
  split.
  - intros H. destruct (Py.str_in n h) eqn:E; [|reflexivity].
    apply str_in_spec in E as (pre & post & ->).
    destruct (find_complete n _ pre post eq_refl) as (? & ? & H' & _). congruence.
  - intros H. destruct (find n h) as [[pre post]|] eqn:E; [|reflexivity].
    apply find_sound in E. subst h.
    assert (Py.str_in n (pre +:+ n +:+ post) = true) by (apply str_in_spec; eauto).
    congruence.
Qed.

(** The text before the leftmost occurrence holds no occurrence. *)
Lemma find_pre_clean n h pre post :
  n <> EmptyString -> find n h = Some (pre, post) -> Py.str_in n pre = false.
Proof.
  intros Hn H. destruct (Py.str_in n pre) eqn:E; [|reflexivity]. exfalso.
  apply str_in_spec in E as (a & b & ->).
  pose proof (find_sound _ _ _ _ H) as Hh.
  destruct (find_complete n h a (b +:+ n +:+ post)) as (pre' & post' & H' & Hlen).
  { now rewrite Hh, !sapp_assoc. }
  rewrite H in H'. injection H' as <- <-.
  rewrite !length_sapp in Hlen. destruct n; [congruence | simpl in Hlen; lia].
Qed.

Lemma find_skip c0 n' pre post :
  has_char c0 pre = false ->
  find (String c0 n') (pre +:+ String c0 n' +:+ post) = Some (pre, post).
Proof.
  induction pre as [|c pre IH]; intros H; rewrite find_unfold.
  - rewrite append_empty.
    now rewrite (proj2 (strip_prefix_spec (String c0 n') _ post) eq_refl).
  - simpl in H. apply orb_false_elim in H as [Hc H].
    rewrite append_cons. simpl strip_prefix.
    rewrite Ascii.eqb_sym, Hc. now rewrite IH.
Qed.

Lemma until_newline_clean s g :
  until_newline s = Some g -> has_char LF g = false /\ has_char CR g = false.
Proof.
  revert g. induction s as [|c s IH]; intros g; simpl; [discriminate|].
  destruct (Ascii.eqb c LF || Ascii.eqb c CR) eqn:E.
  - intros [= <-]. now split.
  - destruct (until_newline s) as [g'|]; [|discriminate].
    intros [= <-]. apply orb_false_elim in E as [E1 E2].
    destruct (IH g' eq_refl) as [H1 H2]. simpl. now rewrite E1, E2, H1, H2.
Qed.

Lemma until_newline_split s g :
  until_newline s = Some g -> exists c rest, s = g +:+ String c rest.
Proof.
  revert g. induction s as [|c s IH]; intros g; simpl; [discriminate|].
  destruct (Ascii.eqb c LF || Ascii.eqb c CR).
  - intros [= <-]. now exists c, s.
  - destruct (until_newline s) as [g'|]; [|discriminate].
    intros [= <-]. destruct (IH g' eq_refl) as (c' & rest & ->).
    exists c', rest. now rewrite append_cons.
Qed.

Lemma until_newline_none s :
  has_char LF s = false -> has_char CR s = false -> until_newline s = None.
Proof.
  induction s as [|c s IH]; simpl; [reflexivity|].
  intros H1 H2. apply orb_false_elim in H1 as [E1 H1], H2 as [E2 H2].
  now rewrite E1, E2, IH.
Qed.

Lemma until_newline_prepend x s g :
  until_newline s = Some g -> exists g', until_newline (x +:+ s) = Some g'.
Proof.
  intros H. induction x as [|c x [g' IH]]; [rewrite append_empty; eauto|].
  rewrite append_cons. simpl. rewrite IH.
  destruct (Ascii.eqb c LF || Ascii.eqb c CR); eauto.
Qed.

Lemma until_newline_exact g rest :
  has_char LF g = false -> has_char CR g = false ->
  until_newline (g +:+ String LF rest) = Some g.
Proof.
  induction g as [|c g IH]; intros H1 H2.
  - reflexivity.
  - simpl in H1, H2. apply orb_false_elim in H1 as [E1 H1], H2 as [E2 H2].
    rewrite append_cons. simpl. now rewrite E1, E2, IH.
Qed.

Lemma until_end_split s :
  exists tail, s = until_end s +:+ tail
               /\ (tail = EmptyString \/ tail = String LF EmptyString).
Proof.
  induction s as [|c s (tail & IH & Ht)].
  - exists EmptyString. now split; [|left].
  - destruct s as [|c' s'].
    + simpl. destruct (Ascii.eqb_spec c LF) as [->|].
      * exists (String LF EmptyString). split; [reflexivity | now right].
      * exists EmptyString. split; [reflexivity | now left].
    + exists tail. split; [|exact Ht].
      change (until_end (String c (String c' s')))
        with (String c (until_end (String c' s'))).
      rewrite append_cons. now rewrite <- IH.
Qed.

Lemma search_line_within m content v :
  search_line m content = Some v -> exists pre post, content = pre +:+ v +:+ post.
Proof.
  unfold search_line. destruct (find m content) as [[pre rest]|] eqn:E; [|discriminate].
  intros H. apply find_sound in E. apply until_newline_split in H as (c & r & ->).
  exists (pre +:+ m), (String c r). now rewrite E, !sapp_assoc.
Qed.

Lemma search_block_within m content v :
  search_block m content = Some v -> exists pre post, content = pre +:+ v +:+ post.
Proof.
  unfold search_block. destruct (find m content) as [[pre rest]|] eqn:E; [|discriminate].
  destruct (find next_heading rest) as [[body post]|] eqn:F; [|discriminate].
  intros [= <-]. apply find_sound in E, F. subst rest.
  exists (pre +:+ m), (next_heading +:+ post). now rewrite E, !sapp_assoc.
Qed.

Lemma search_to_end_within m content v :
  search_to_end m content = Some v ->
  exists pre tail, content = pre +:+ m +:+ v +:+ tail
                   /\ (tail = EmptyString \/ tail = String LF EmptyString).
Proof.
  unfold search_to_end. destruct (find m content) as [[pre rest]|] eqn:E; [|discriminate].
  intros [= <-]. apply find_sound in E.
  destruct (until_end_split rest) as (tail & Hr & Ht).
  exists pre, tail. split; [|exact Ht]. now rewrite <- Hr.
Qed.

Lemma search_line_no_line_end m content :
  has_char LF content = false -> has_char CR content = false ->
  search_line m content = None.
Proof.
  intros H1 H2. unfold search_line.
  destruct (find m content) as [[pre rest]|] eqn:E; [|reflexivity].
  apply find_sound in E. subst content. rewrite !has_char_app in H1, H2.
  apply orb_false_elim in H1 as [_ H1], H2 as [_ H2].
  apply orb_false_elim in H1 as [_ H1], H2 as [_ H2].
  now apply until_newline_none.
Qed.

Lemma search_block_clean m content v :
  search_block m content = Some v -> Py.str_in next_heading v = false.
Proof.
  unfold search_block. destruct (find m content) as [[pre rest]|]; [|discriminate].
  destruct (find next_heading rest) as [[body post]|] eqn:F; [|discriminate].
  intros [= <-]. eapply find_pre_clean; [|exact F]. discriminate.
Qed.

Lemma search_block_needs_heading m content :
  Py.str_in next_heading content = false -> search_block m content = None.
Proof.
  intros H. unfold search_block.
  destruct (find m content) as [[pre rest]|] eqn:E; [|reflexivity].
  destruct (find next_heading rest) as [[body post]|] eqn:F; [|reflexivity].
  apply find_sound in E, F. subst rest.
  assert (Py.str_in next_heading content = true); [|congruence].
  apply str_in_spec. exists (pre +:+ m +:+ body), post. now rewrite E, !sapp_assoc.
Qed.

Lemma dict_get_cons {V} k k' (v : V) d :
  Py.dict_get k ((k', v) :: d)
  = if String.eqb k k' then Some v else Py.dict_get k d.
Proof. reflexivity. Qed.

End MarkdownSearch.

(** ** What [parse_markdown] returns *)

Lemma search_line_clean m content v :
  Markdown.search_line m content = Some v ->
  has_char Markdown.LF v = false /\ has_char Markdown.CR v = false.
Proof.
  unfold Markdown.search_line.
  destruct (Markdown.find m content) as [[pre rest]|]; [|discriminate].
  apply until_newline_clean.
Qed.

(** X14. The name, the title and the contact line that [parse_markdown]
    returns never contain a line feed or a carriage return. *)
Theorem parsed_lines_are_single_lines content key value :
  In key ["name"; "title"; "contact_info"] ->
  Py.dict_get key (Markdown.parse_markdown content) = Some value ->
  has_char Markdown.LF value = false /\ has_char Markdown.CR value = false.
Proof.
  intros Hkey. unfold Markdown.parse_markdown. simpl in Hkey.
  destruct Hkey as [<-|[<-|[<-|[]]]];
    cbn [Py.dict_get String.eqb Ascii.eqb Bool.eqb]; intros [= <-].
  - destruct (Markdown.search_line "# " content) eqn:E;
      [eapply search_line_clean; exact E | now split].
  - destruct (Markdown.search_line "## " content) eqn:E;
      [eapply search_line_clean; exact E | now split].
  - destruct (Markdown.search_line "Contact: " content) eqn:E;
      [eapply search_line_clean; exact E | now split].
Qed.

Lemma parsed_lines_are_single_lines_witness :
  has_char Markdown.LF "Olaf Siestrzykowski" = false
  /\ has_char Markdown.CR "Olaf Siestrzykowski" = false.
Proof.
  apply (parsed_lines_are_single_lines Markdown.sample_cv "name").
  - now left.
  - reflexivity.
Defined.

(** X15. A text without any line end has no name, no title and no contact
    line: a heading is only found when a line feed or carriage return
    follows it, so these three fields take their fallback values. *)
Theorem no_line_end_no_fields content :
  has_char Markdown.LF content = false ->
  has_char Markdown.CR content = false ->
  Py.dict_get "name" (Markdown.parse_markdown content) = Some "Name Not Found"
  /\ Py.dict_get "title" (Markdown.parse_markdown content) = Some "Title Not Found"
  /\ Py.dict_get "contact_info" (Markdown.parse_markdown content) = Some "".
Proof.
  intros H1 H2. unfold Markdown.parse_markdown.
  cbn [Py.dict_get String.eqb Ascii.eqb Bool.eqb].
  now rewrite !search_line_no_line_end by assumption.
Qed.

Lemma no_line_end_no_fields_witness :
  Py.dict_get "name" (Markdown.parse_markdown "# Olaf Siestrzykowski")
  = Some "Name Not Found".
Proof.
  apply (no_line_end_no_fields "# Olaf Siestrzykowski"); reflexivity.
Defined.

(** X16. The pattern of the name also matches inside a level-two heading:
    whenever the search for the title finds one, the search for the name
    finds one too. *)
Theorem title_found_name_found content t :
  Markdown.search_line "## " content = Some t ->
  exists n, Markdown.search_line "# " content = Some n.
Proof.
  unfold Markdown.search_line.
  destruct (Markdown.find "## " content) as [[pre rest]|] eqn:E; [|discriminate].
  intros Ht. apply find_sound in E.
  destruct (find_complete "# " content (pre +:+ "#") rest) as (pre' & rest' & F & Hlen).
  { now rewrite E, sapp_assoc. }
  rewrite F. pose proof (find_sound _ _ _ _ F) as E'.
  destruct (sapp_split (pre' +:+ "# ") rest' (pre +:+ "## ") rest) as (m & _ & ->).
  - now rewrite !sapp_assoc, <- E', <- E.
  - rewrite !length_sapp in *. simpl in *. lia.
  - eapply until_newline_prepend, Ht.
Qed.

Lemma title_found_name_found_witness :
  exists n, Markdown.search_line "# " ("## DATA ANALYST" +:+ String Markdown.LF "")
            = Some n.
Proof.
  apply (title_found_name_found _ "DATA ANALYST"). reflexivity.
Defined.

(** X17. A section that [parse_markdown] cuts out (statement, skills, work
    experience, education, projects) never contains a blank line followed by
    a heading mark, and it is empty when the text has no blank line followed
    by a heading mark at all: a section is only found when another heading
    follows it. *)
Theorem parsed_sections_end_at_heading content key value :
  In key ["statement"; "skills"; "work_exp"; "education"; "projects"] ->
  Py.dict_get key (Markdown.parse_markdown content) = Some value ->
  Py.str_in Markdown.next_heading value = false
  /\ (Py.str_in Markdown.next_heading content = false -> value = "").
Proof.
  intros Hkey. unfold Markdown.parse_markdown. simpl in Hkey.
  destruct Hkey as [<-|[<-|[<-|[<-|[<-|[]]]]]];
    cbn [Py.dict_get String.eqb Ascii.eqb Bool.eqb]; intros [= <-];
    match goal with
    | |- context [Markdown.search_block ?m content] =>
        destruct (Markdown.search_block m content) eqn:E;
        [ split; [eapply search_block_clean; exact E|];
          intros H; rewrite (search_block_needs_heading m content H) in E;
          discriminate E
        | now split ]
    end.
Qed.

Lemma parsed_sections_end_at_heading_witness :
  Py.str_in Markdown.next_heading "Python, SQL" = false.
Proof.
  apply (parsed_sections_end_at_heading Markdown.sample_cv "skills").
  - simpl. tauto.
  - reflexivity.
Defined.

Lemma find_at_start n post : Markdown.find n (n +:+ post) = Some (EmptyString, post).
Proof.
  rewrite find_unfold. now rewrite (proj2 (strip_prefix_spec n _ post) eq_refl).
Qed.

(** X18. Reading back what was written: for a name and a title without
    line ends, the name without a heading mark, a text that starts with the
    name as level-one heading and the title as level-two heading on the next
    line parses to exactly this name and this title. *)
Theorem name_and_title_round_trip n t rest :
  has_char Markdown.LF n = false -> has_char Markdown.CR n = false ->
  has_char "#" n = false ->
  has_char Markdown.LF t = false -> has_char Markdown.CR t = false ->
  let content :=
    "# " +:+ n +:+ String Markdown.LF ("## " +:+ t +:+ String Markdown.LF rest) in
  Py.dict_get "name" (Markdown.parse_markdown content) = Some n
  /\ Py.dict_get "title" (Markdown.parse_markdown content) = Some t.
Proof.
  intros Hn1 Hn2 Hn3 Ht1 Ht2 content. unfold Markdown.parse_markdown.
  cbn [Py.dict_get String.eqb Ascii.eqb Bool.eqb]. split; f_equal.
  - unfold Markdown.search_line, content.
    rewrite find_at_start. now rewrite until_newline_exact.
  - unfold Markdown.search_line.
    assert (E : content
                = String "#" (String " " ((n +:+ String Markdown.LF EmptyString)
                                          +:+ "## " +:+ t +:+ String Markdown.LF rest))).
    { unfold content. rewrite sapp_assoc. reflexivity. }
    rewrite E, find_unfold.
    cbn [Markdown.strip_prefix Ascii.eqb Bool.eqb].
    rewrite <- (append_cons " " (n +:+ String Markdown.LF EmptyString)).
    rewrite (find_skip "#" "# ").
    + cbn [Markdown.group_or]. now rewrite until_newline_exact.
    + simpl. rewrite has_char_app, Hn3. reflexivity.
Qed.

Lemma name_and_title_round_trip_witness :
  Py.dict_get "name" (Markdown.parse_markdown Markdown.sample_cv)
  = Some "Olaf Siestrzykowski"
  /\ Py.dict_get "title" (Markdown.parse_markdown Markdown.sample_cv)
     = Some "DATA ANALYST".
Proof.
  apply (name_and_title_round_trip "Olaf Siestrzykowski" "DATA ANALYST");
    reflexivity.
Defined.

Lemma empty_within content :
  exists pre post, content = pre +:+ EmptyString +:+ post.
Proof. now exists EmptyString, content. Qed.

(** X19. [parse_markdown] invents no text: each value it returns is one of
    the two fallbacks "Name Not Found" and "Title Not Found" or a piece of
    the text it was given. *)
Theorem parsed_values_come_from_text content key value :
  Py.dict_get key (Markdown.parse_markdown content) = Some value ->
  value = "Name Not Found" \/ value = "Title Not Found"
  \/ exists pre post, content = pre +:+ value +:+ post.
Proof.
  unfold Markdown.parse_markdown. rewrite !dict_get_cons.
  repeat match goal with
         | |- context [String.eqb key ?k] => destruct (String.eqb key k)
         end;
    try discriminate; intros [= <-]; unfold Markdown.group_or;
    match goal with
    | |- context [Markdown.search_line ?m content] =>
        destruct (Markdown.search_line m content) eqn:E;
        [right; right; eapply search_line_within; exact E|]
    | |- context [Markdown.search_block ?m content] =>
        destruct (Markdown.search_block m content) eqn:E;
        [right; right; eapply search_block_within; exact E|]
    | |- context [Markdown.search_to_end ?m content] =>
        destruct (Markdown.search_to_end m content) eqn:E;
        [right; right;
         apply search_to_end_within in E as (pre & tail & -> & _);
         exists (pre +:+ m), tail; now rewrite !sapp_assoc|]
    end;
    auto using empty_within.
Qed.

Lemma parsed_values_come_from_text_witness :
  "SQL Bootcamp" = "Name Not Found" \/ "SQL Bootcamp" = "Title Not Found"
  \/ exists pre post, Markdown.sample_cv = pre +:+ "SQL Bootcamp" +:+ post.
Proof.
  apply (parsed_values_come_from_text Markdown.sample_cv "courses"). reflexivity.
Defined.

(** X20. The courses section is not cut at the next heading: when the
    Courses heading is found, the courses text runs from the first Courses
    heading to the end of the text, without one final line feed. *)
Theorem courses_run_to_the_end content value :
  Markdown.search_to_end (Markdown.heading "Courses") content = Some value ->
  Py.dict_get "courses" (Markdown.parse_markdown content) = Some value
  /\ exists pre tail,
       content = pre +:+ Markdown.heading "Courses" +:+ value +:+ tail
       /\ (tail = "" \/ tail = String Markdown.LF "")
       /\ Py.str_in (Markdown.heading "Courses") pre = false.
Proof.
  intros H. split.
  - unfold Markdown.parse_markdown.
    cbn [Py.dict_get String.eqb Ascii.eqb Bool.eqb]. now rewrite H.
  - unfold Markdown.search_to_end in H.
    destruct (Markdown.find (Markdown.heading "Courses") content)
      as [[pre rest]|] eqn:E; [|discriminate].
    injection H as <-.
    destruct (until_end_split rest) as (tail & Hr & Ht).
    exists pre, tail. split; [|split; [exact Ht|]].
    + rewrite <- Hr. now apply find_sound.
    + eapply find_pre_clean; [|exact E]. discriminate.
Qed.

Lemma courses_run_to_the_end_witness :
  Py.dict_get "courses" (Markdown.parse_markdown Markdown.sample_cv)
  = Some "SQL Bootcamp".
Proof.
  apply (courses_run_to_the_end Markdown.sample_cv "SQL Bootcamp"). reflexivity.
Defined.

(** A later heading inside the courses text stays in it, while the skills
    text stops before its next heading. *)
Example courses_keep_later_headings :
  let nl := String Markdown.LF EmptyString in
  let content :=
    String.concat nl
      ["## Skills"; ""; "Python"; ""; "## Courses"; ""; "SQL"; ""; "## Hobbies"; ""; "Chess"] in
  Py.dict_get "courses" (Markdown.parse_markdown content)
  = Some (String.concat nl ["SQL"; ""; "## Hobbies"; ""; "Chess"])
  /\ Py.dict_get "skills" (Markdown.parse_markdown content) = Some "Python".
Proof. split; reflexivity. Qed.

(** ** More on scores and orders *)

Lemma filter_length_le {A} (f g : A -> bool) l :
  (forall x, f x = true -> g x = true) ->
  length (List.filter f l) <= length (List.filter g l).
Proof.
  intros H. induction l as [|x l IH]; simpl; [lia|].
  destruct (f x) eqn:E.
  - rewrite (H x E). simpl. lia.
  - destruct (g x); simpl; lia.
Qed.

Lemma sort_reverse_fixed {A} (key : A -> nat) l :
  descending key l -> Py.sort_reverse key l = l.
Proof.
  unfold descending. induction 1 as [|x l _ IH Hx]; simpl; [reflexivity|].
  rewrite IH. destruct l as [|y l]; [reflexivity|]. simpl.
  inversion Hx as [|? ? Hy _]; subst.
  now rewrite (proj2 (Nat.leb_le _ _) Hy).
Qed.

Lemma descending_const {A} (key : A -> nat) l :
  (forall x, key x = 0) -> descending key l.
Proof.
  intros H. unfold descending. induction l as [|x l IH]; constructor; [exact IH|].
  apply List.Forall_forall. intros y _. rewrite (H x), (H y). lia.
Qed.

(** X21. The score ignores the case of the letters A-Z: on a text and
    keywords of ASCII characters, changing the case of letters in the text
    and in the keywords leaves the score unchanged. *)
Theorem score_ignores_case {U : Py.Unicode} text text' kws kws' :
  Py.is_ascii text = true ->
  same_text text text' = true ->
  Forall2 (fun k k' => Py.is_ascii k = true /\ same_text k k' = true) kws kws' ->
  CVGenerator.count_keywords text' kws' 0 = CVGenerator.count_keywords text kws 0.
Proof.
  intros Ht Hs Hk. rewrite !count_keywords_from. simpl.
  pose proof (same_text_ascii _ _ Hs Ht) as Ht'.
  apply same_text_spec in Hs.
  induction Hk as [|k k' kws kws' [Ha Hk] _ IH]; [reflexivity|].
  pose proof (same_text_ascii _ _ Hk Ha) as Ha'.
  apply same_text_spec in Hk. simpl.
  assert (E : matches text' k' = matches text k).
  { unfold matches.
    now rewrite (Py.lower_ascii_text text Ht), (Py.lower_ascii_text text' Ht'),
      (Py.lower_ascii_text k Ha), (Py.lower_ascii_text k' Ha'), Hs, Hk. }
  rewrite E. destruct (matches text k); simpl; now rewrite IH.
Qed.

Lemma score_ignores_case_witness :
  CVGenerator.count_keywords "PYTHON AND sql, NO excel" ["python"; "SQL"; "r"] 0
  = CVGenerator.count_keywords "Python and SQL, no Excel" ["Python"; "sql"; "R"] 0
  /\ CVGenerator.count_keywords "PYTHON AND sql, NO excel" ["python"; "SQL"; "r"] 0 = 2.
Proof.
  split; [|reflexivity].
  apply (score_ignores_case "Python and SQL, no Excel" "PYTHON AND sql, NO excel"
           ["Python"; "sql"; "R"] ["python"; "SQL"; "r"]).
  - reflexivity.
  - reflexivity.
  - repeat constructor.
Defined.

(** X22. The score is additive in the keywords and bounded by their number:
    the score against two keyword lists put together is the sum of the two
    scores, and no score exceeds the number of keywords. *)
Theorem score_additive {U : Py.Unicode} text kws1 kws2 :
  CVGenerator.count_keywords text (kws1 ++ kws2) 0
  = CVGenerator.count_keywords text kws1 0 + CVGenerator.count_keywords text kws2 0
  /\ CVGenerator.count_keywords text kws1 0 <= length kws1.
Proof.
  rewrite !count_keywords_from. simpl. split.
  - now rewrite List.filter_app, List.length_app.
  - apply List.filter_length_le.
Qed.

(** X23. Adding text of ASCII characters around a text of ASCII characters
    never lowers its score: the longer text scores at least as much against
    the same keywords, whatever the keywords are. *)
Theorem score_monotone_in_text {U : Py.Unicode} pre text post kws :
  Py.is_ascii pre = true -> Py.is_ascii text = true -> Py.is_ascii post = true ->
  CVGenerator.count_keywords text kws 0
  <= CVGenerator.count_keywords (pre +:+ text +:+ post) kws 0.
Proof.
  intros Hpre Htext Hpost.
  assert (Hall : Py.is_ascii (pre +:+ text +:+ post) = true).
  { now rewrite !is_ascii_app, Hpre, Htext, Hpost. }
  rewrite !count_keywords_from. simpl. apply filter_length_le.
  intros k. unfold matches.
  rewrite (Py.lower_ascii_text _ Htext), (Py.lower_ascii_text _ Hall).
  rewrite !ascii_lower_app, !str_in_spec.
  intros (a & b & ->).
  exists (Py.ascii_lower pre +:+ a), (b +:+ Py.ascii_lower post).
  now rewrite !sapp_assoc.
Qed.

Lemma score_monotone_in_text_witness :
  CVGenerator.count_keywords "SQL" ["sql"; "excel"] 0
  <= CVGenerator.count_keywords "Advanced SQL and Excel" ["sql"; "excel"] 0.
Proof.
  apply (score_monotone_in_text "Advanced " "SQL" " and Excel" ["sql"; "excel"]);
    reflexivity.
Defined.

(** X24. Without keywords nothing is reordered: projects and courses come
    back in the profile's order. *)
Theorem no_keywords_keep_order {U : Py.Unicode} cv jt (h : heap) :
  snd (CVGenerator._prioritize_projects cv [] jt h) = projects cv
  /\ CVGenerator._prioritize_courses cv [] jt = courses cv.
Proof.
  rewrite prioritize_projects_sort, prioritize_courses_sort. split.
  - apply sort_reverse_fixed, descending_const. intros l.
    unfold project_score. now destruct (h !! l).
  - apply sort_reverse_fixed, descending_const. reflexivity.
Qed.

Lemma descending_ext {A} (key key' : A -> nat) l :
  (forall x, key' x = key x) -> descending key l -> descending key' l.
Proof.
  intros H. unfold descending. induction 1 as [|x l _ IH Hx]; constructor; [exact IH|].
  eapply List.Forall_impl; [|exact Hx]. intros y Hy. simpl in *. now rewrite !H.
Qed.

(** X25. Customizing a customized profile again with the same keywords, on
    the heap the first call left and for any job title, keeps the order of
    its projects and of its courses. *)
Theorem customize_again_keeps_order {U : Py.Unicode} cv kws jt jt' (h : heap) :
  let r := CVGenerator.customize_for_job cv kws jt h in
  let r' := CVGenerator.customize_for_job (snd r) kws jt' (fst r) in
  projects (snd r') = projects (snd r) /\ courses (snd r') = courses (snd r).
Proof.
  intros r r'. subst r r'. rewrite !customize_snd, !customize_fst.
  cbn [projects courses]. split.
  - rewrite (prioritize_projects_sort _ kws jt'). cbn [projects].
    apply sort_reverse_fixed.
    apply (descending_ext (project_score h kws)).
    + apply project_score_fields. intros l. apply prioritize_projects_fields.
    + rewrite prioritize_projects_sort. apply sort_reverse_descending.
  - rewrite (prioritize_courses_sort _ kws jt'). cbn [courses].
    rewrite prioritize_courses_sort.
    apply sort_reverse_fixed, sort_reverse_descending.
Qed.

(** X26. For a data title the category "Data Analysis", and for the titles
    "python developer" and "software developer" the category "Programming",
    comes first in the reordered skills whenever the profile has it. *)
Theorem top_priority_first {U : Py.Unicode} cv kws jt v :
  List.NoDup (Py.dict_keys (skills cv)) ->
  (In (Py.lower jt) CVGenerator.data_titles ->
   Py.dict_get "Data Analysis" (skills cv) = Some v ->
   hd_error (CVGenerator._prioritize_skills cv kws jt) = Some ("Data Analysis", v))
  /\ (In (Py.lower jt) CVGenerator.developer_titles ->
      Py.dict_get "Programming" (skills cv) = Some v ->
      hd_error (CVGenerator._prioritize_skills cv kws jt) = Some ("Programming", v)).
Proof.
  intros Hnd. rewrite prioritize_skills_split by assumption.
  unfold CVGenerator.priority_order. split; intros Hin Hget.
  - rewrite (proj2 (in_list_spec _ _) Hin).
    unfold prioritized, CVGenerator.data_priority. cbn [flat_map].
    now rewrite Hget.
  - assert (Hd : Py.in_list (Py.lower jt) CVGenerator.data_titles = false).
    { apply in_list_false. simpl in *. intuition congruence. }
    rewrite Hd, (proj2 (in_list_spec _ _) Hin).
    unfold prioritized, CVGenerator.developer_priority. cbn [flat_map].
    now rewrite Hget.
Qed.

Lemma top_priority_first_witness :
  hd_error (CVGenerator._prioritize_skills DefaultData.default_data [] "Data Scientist")
  = Some ("Data Analysis",
          ["Excel (Power Query, Power Pivot)"; "SQL (PostgreSQL, MySQL)";
           "Power BI"; "Looker Studio"]).
Proof.
  apply (top_priority_first DefaultData.default_data [] "Data Scientist").
  - repeat constructor; simpl; intuition discriminate.
  - simpl. tauto.
  - reflexivity.
Defined.
